(** * sns-engagement-app: scoring, strategy and trend services

    A shallow embedding of the three service modules of the application,
    [services/scoreCalculator.ts], [services/strategyManager.ts] and
    [services/trendDetector.ts], with the guard of the score route and the
    strategy store that use them, and the properties their specification
    states about them, followed by further properties of the code.  The
    embedding comes first, then the vocabulary of the statements, then the
    proofs.

    Conventions of the embedding.
    - A JavaScript number that is a counter, an hour, a limit or a time
      value is an integer of [Z]; a number that results from division or
      from a decimal literal is an exact rational of [Q].  The rounding of
      IEEE doubles is not modelled.  [Math.round x] is [Qfloor (x + 1/2)].
    - The ratio fields of a strategy can leave the finite numbers (the
      normalisation divides by a sum that can be zero), so they range over
      [JSNumber.number], the rationals extended with the infinities and NaN.
    - A string is a [string] of bytes, the UTF-8 encoding of the text.  On
      well-formed text a search for a substring finds the same occurrences
      in the bytes as in the UTF-16 code units JavaScript searches, since no
      encoded character starts inside another.
    - A [Date] is its local time value in milliseconds; days are counted in
      local time.  The conversion to universal time, with its daylight-saving
      shifts, is not modelled.
    - Readings of the system clock, draws of [Math.random], replies of
      the language model and the outcome of [JSON.parse] are inputs of the
      functions that use them.
    - An [async] method runs from its call to its return in one step. *)

From Stdlib Require Import ZArith QArith Qround Qabs Qminmax Lia Lqa.
From Stdlib Require Import String Ascii List Sorted DecimalString DecimalZ DecimalPos.
From stdpp Require Import base gmap strings list.
Import ListNotations.

#[local] Open Scope string_scope.
#[local] Open Scope Z_scope.

(** ** JavaScript primitives *)

(** [`${n}`] for an integer [n]. *)
Definition show_Z (z : Z) : string := NilZero.string_of_int (Z.to_int z).

(** [Math.round]: the nearest integer, halves towards plus infinity. *)
Definition Math_round (x : Q) : Z := Qfloor (x + (1 # 2)).

(** [Math.floor]. *)
Definition Math_floor (x : Q) : Z := Qfloor x.

(** [a >= b] and [a < b] on finite numbers. *)
Definition Qgeb (a b : Q) : bool := Qle_bool b a.
Definition Qltb (a b : Q) : bool := negb (Qle_bool b a).

(** [xs.includes(x)] on an array of integers. *)
Definition includesZ (xs : list Z) (x : Z) : bool := existsb (Z.eqb x) xs.

(** [xs.slice(0, n)]: a negative [n] counts from the end of the array. *)
Definition slice0 {A} (xs : list A) (n : Z) : list A :=
  if n <? 0 then firstn (Z.to_nat (Z.max 0 (Z.of_nat (length xs) + n))) xs
  else firstn (Z.to_nat n) xs.

(** The shared string-literal types of [types/index.ts]. *)
Inductive Platform := threads | instagram | twitter.
Inductive PostMode := impression | expression.

Definition Platform_str (p : Platform) : string :=
  match p with
  | threads => "threads"
  | instagram => "instagram"
  | twitter => "twitter"
  end.

(** *** Dates

    A [Date] is held by its local time value [t] (milliseconds).  ECMAScript
    defines [Day(t) = floor(t / msPerDay)], [WeekDay(t) = (Day(t) + 4) mod 7],
    [getDate() = Day(t) - Day(first of the month) + 1] and
    [setDate(d) = MakeDate(Day(first of the month) + d - 1, TimeWithinDay(t))],
    so that [date.setDate(date.getDate() + i)] is
    [MakeDate(Day(t) + i, TimeWithinDay(t))]. *)
Module JSDate.

Record Date := mkDate { localTime : Z }.

Definition msPerDay : Z := 86400000.
Definition Day (t : Z) : Z := t / msPerDay.
Definition TimeWithinDay (t : Z) : Z := t mod msPerDay.
Definition MakeDate (day time : Z) : Z := day * msPerDay + time.

(** [date.getDay()] *)
Definition getDay (d : Date) : Z := (Day (localTime d) + 4) mod 7.

(** [date.setDate(date.getDate() + i)] *)
Definition setDate_getDate_plus (d : Date) (i : Z) : Date :=
  mkDate (MakeDate (Day (localTime d) + i) (TimeWithinDay (localTime d))).

End JSDate.

(** *** Numbers that can leave the finite range

    The rationals extended with the two infinities and NaN, with the
    arithmetic of IEEE 754 on them.  The sign of zero is not modelled: a
    zero divisor counts as +0. *)
Module JSNumber.

Inductive number := Fin (q : Q) | PosInf | NegInf | NaN.

Definition isFinite (a : number) : bool :=
  match a with Fin _ => true | _ => false end.

Definition neg (a : number) : number :=
  match a with
  | Fin x => Fin (- x)
  | PosInf => NegInf
  | NegInf => PosInf
  | NaN => NaN
  end.

(** [a + b] *)
Definition add (a b : number) : number :=
  match a, b with
  | NaN, _ | _, NaN => NaN
  | Fin x, Fin y => Fin (x + y)
  | PosInf, NegInf | NegInf, PosInf => NaN
  | PosInf, _ | _, PosInf => PosInf
  | NegInf, _ | _, NegInf => NegInf
  end.

(** [a - b] *)
Definition sub (a b : number) : number := add a (neg b).

(** [a / b] *)
Definition div (a b : number) : number :=
  match a, b with
  | NaN, _ | _, NaN => NaN
  | Fin x, Fin y =>
      if Qeq_bool y 0 then
        if Qeq_bool x 0 then NaN
        else if Qle_bool 0 x then PosInf else NegInf
      else Fin (x / y)
  | Fin _, (PosInf | NegInf) => Fin 0
  | PosInf, Fin y => if Qle_bool 0 y then PosInf else NegInf
  | NegInf, Fin y => if Qle_bool 0 y then NegInf else PosInf
  | (PosInf | NegInf), (PosInf | NegInf) => NaN
  end.

(** [a <= b]; every comparison with NaN is false. *)
Definition leb (a b : number) : bool :=
  match a, b with
  | NaN, _ | _, NaN => false
  | Fin x, Fin y => Qle_bool x y
  | NegInf, _ | _, PosInf => true
  | PosInf, _ | _, NegInf => false
  end.

(** [a < b] *)
Definition ltb (a b : number) : bool :=
  match a, b with
  | NaN, _ | _, NaN => false
  | _, _ => negb (leb b a)
  end.

(** [a >= b] and [a > b] *)
Definition geb (a b : number) : bool := leb b a.
Definition gtb (a b : number) : bool := ltb b a.

(** [a !== b] *)
Definition strict_neq (a b : number) : bool :=
  match a, b with
  | Fin x, Fin y => negb (Qeq_bool x y)
  | PosInf, PosInf | NegInf, NegInf => false
  | _, _ => true
  end.

(** [Math.min(a, b)] and [Math.max(a, b)]: NaN when an argument is NaN. *)
Definition min (a b : number) : number :=
  match a, b with
  | NaN, _ | _, NaN => NaN
  | _, _ => if leb a b then a else b
  end.

Definition max (a b : number) : number :=
  match a, b with
  | NaN, _ | _, NaN => NaN
  | _, _ => if leb a b then b else a
  end.

End JSNumber.

(** ** services/scoreCalculator.ts *)
Module ScoreCalculator.

#[local] Open Scope Q_scope.

Record UserBehaviorData := mkData {
  likesGiven : Z;
  commentsGiven : Z;
  sharesGiven : Z;
  repliesReceived : Z;
  postsThisWeek : Z;
  postsLastWeek : Z;
  averagePostsPerWeek : Z;
  postTimings : list Z;
  trendingHashtagsUsed : Z;
  trendingTopicsEngaged : Z;
  earlyTrendEngagement : Z;
  followersGained : Z;
  mentionsReceived : Z;
  savedByOthers : Z;
  profileVisits : Z
}.

Inductive Impact := ImpactPositive | ImpactNeutral | ImpactNegative.

Record ScoreFactor := mkFactor {
  name : string;
  impact : Impact;
  weight : Q;
  description : string
}.

(** The pair [{ score, factors }] the four sub-score functions return. *)
Record SubScore := mkSub { score : Z; factors : list ScoreFactor }.

Record PlatformScore := mkScore {
  id : string;
  platform : Platform;
  overallScore : Z;
  engagementScore : Z;
  consistencyScore : Z;
  trendScore : Z;
  communityScore : Z;
  calculatedAt : Z;
  allFactors : list ScoreFactor
}.

Inductive Priority := high | medium | low.
Inductive Category := engagement | consistency | trend | community.

Record ScoreRecommendation := mkRec {
  rec_id : string;
  priority : Priority;
  category : Category;
  title : string;
  rec_description : string;
  expectedImpact : Z;
  actionItems : list string
}.

Record ScoreHistoryEntry := mkHist {
  date : JSDate.Date;
  h_overallScore : Q;
  h_engagementScore : Q;
  h_consistencyScore : Q;
  h_trendScore : Q;
  h_communityScore : Q
}.

Record ScoreCalculationResult := mkResult {
  result_score : PlatformScore;
  recommendations : list ScoreRecommendation;
  history : list ScoreHistoryEntry
}.

(** What one call reads from outside: [Date.now()] of the id, [new Date()]
    of [calculatedAt], [new Date()] of the history, and the draws of
    [Math.random()] in the order they are made. *)
Record Env := mkEnv {
  idNow : Z;
  calculatedNow : Z;
  historyNow : JSDate.Date;
  random : nat -> Q
}.

(** A counter as a number. *)
Definition num (z : Z) : Q := inject_Z z.

(** [v >= hi ? 'positive' : v >= lo ? 'neutral' : 'negative'] *)
Definition impactOf (v hi lo : Q) : Impact :=
  if Qgeb v hi then ImpactPositive
  else if Qgeb v lo then ImpactNeutral
  else ImpactNegative.

Definition calculateEngagementScore (data : UserBehaviorData) : SubScore :=
  let totalScore := 0 in
  let likeScore := Qmin 25 ((num (likesGiven data) / 50) * 25) in
  let f1 := mkFactor "積極的ないいね" (impactOf likeScore 15 5) (25 # 100)
              (show_Z (likesGiven data) +:+ "件のいいねで場を盛り上げています") in
  let totalScore := totalScore + likeScore in
  let commentScore := Qmin 30 ((num (commentsGiven data) / 20) * 30) in
  let f2 := mkFactor "コメント貢献" (impactOf commentScore 20 10) (30 # 100)
              (show_Z (commentsGiven data) +:+ "件のコメントで会話を活性化") in
  let totalScore := totalScore + commentScore in
  let shareScore := Qmin 20 ((num (sharesGiven data) / 10) * 20) in
  let f3 := mkFactor "コンテンツ拡散" (impactOf shareScore 12 5) (20 # 100)
              (show_Z (sharesGiven data) +:+ "回のシェアでコンテンツを広めています") in
  let totalScore := totalScore + shareScore in
  let replyRatio :=
    if (0 <? repliesReceived data)%Z
    then Qmin 1 (num (commentsGiven data) / num (repliesReceived data))
    else 5 # 10 in
  let replyScore := replyRatio * 25 in
  let f4 := mkFactor "返信対応力" (impactOf replyScore 15 8) (25 # 100)
              "受け取ったコメントへの応答度" in
  let totalScore := totalScore + replyScore in
  mkSub (Math_round totalScore) [f1; f2; f3; f4].

Definition goldenHours : list Z := [7; 8; 9; 12; 13; 19; 20; 21; 22]%Z.

(** [data.postTimings.filter(h => goldenHours.includes(h)).length] *)
Definition goldenHourPosts (data : UserBehaviorData) : Z :=
  Z.of_nat
    (length (List.filter (fun h => includesZ goldenHours h) (postTimings data))).

Definition postTimingsLength (data : UserBehaviorData) : Z :=
  Z.of_nat (length (postTimings data)).

Definition calculateConsistencyScore (data : UserBehaviorData) : SubScore :=
  let totalScore := 0 in
  let frequencyVariance :=
    if (0 <? postsLastWeek data)%Z
    then Qabs (num (postsThisWeek data) - num (postsLastWeek data))
         / num (postsLastWeek data)
    else 1 in
  let stabilityScore := Qmax 0 (40 - frequencyVariance * 40) in
  let f1 := mkFactor "投稿頻度の安定性" (impactOf stabilityScore 30 15) (40 # 100)
              "週ごとの投稿数の安定度" in
  let totalScore := totalScore + stabilityScore in
  let idealPostsPerWeek := 5%Z in
  let frequencyDiff := Qabs (num (postsThisWeek data) - num idealPostsPerWeek) in
  let frequencyScore := Qmax 0 (30 - frequencyDiff * 5) in
  let f2 := mkFactor "投稿頻度" (impactOf frequencyScore 20 10) (30 # 100)
              ("今週" +:+ show_Z (postsThisWeek data) +:+ "件投稿（理想: "
               +:+ show_Z idealPostsPerWeek +:+ "件/週）") in
  let totalScore := totalScore + frequencyScore in
  let timingRatio :=
    if (0 <? postTimingsLength data)%Z
    then num (goldenHourPosts data) / num (postTimingsLength data)
    else 0 in
  let timingScore := timingRatio * 30 in
  let f3 := mkFactor "投稿時間の最適化" (impactOf timingScore 20 10) (30 # 100)
              "ゴールデンタイムへの投稿割合" in
  let totalScore := totalScore + timingScore in
  mkSub (Math_round totalScore) [f1; f2; f3].

Definition calculateTrendScore (data : UserBehaviorData) : SubScore :=
  let totalScore := 0 in
  let hashtagScore := Qmin 35 ((num (trendingHashtagsUsed data) / 5) * 35) in
  let f1 := mkFactor "トレンドタグ活用" (impactOf hashtagScore 25 10) (35 # 100)
              (show_Z (trendingHashtagsUsed data) +:+ "件のトレンドタグを活用") in
  let totalScore := totalScore + hashtagScore in
  let topicScore := Qmin 35 ((num (trendingTopicsEngaged data) / 3) * 35) in
  let f2 := mkFactor "トレンド参加" (impactOf topicScore 25 10) (35 # 100)
              (show_Z (trendingTopicsEngaged data) +:+ "件のトレンドトピックに参加") in
  let totalScore := totalScore + topicScore in
  let earlyScore := Qmin 30 ((num (earlyTrendEngagement data) / 2) * 30) in
  let f3 := mkFactor "早期トレンド参加" (impactOf earlyScore 20 10) (30 # 100)
              "トレンド初期段階での参加回数" in
  let totalScore := totalScore + earlyScore in
  mkSub (Math_round totalScore) [f1; f2; f3].

Definition calculateCommunityScore (data : UserBehaviorData) : SubScore :=
  let totalScore := 0 in
  let followerScore := Qmin 30 ((num (followersGained data) / 10) * 30) in
  let f1 := mkFactor "フォロワー獲得" (impactOf followerScore 20 10) (30 # 100)
              ("今週" +:+ show_Z (followersGained data) +:+ "人の新規フォロワーを獲得") in
  let totalScore := totalScore + followerScore in
  let mentionScore := Qmin 25 ((num (mentionsReceived data) / 5) * 25) in
  let f2 := mkFactor "メンション受信" (impactOf mentionScore 15 8) (25 # 100)
              (show_Z (mentionsReceived data) +:+ "回言及されました") in
  let totalScore := totalScore + mentionScore in
  let savedScore := Qmin 25 ((num (savedByOthers data) / 10) * 25) in
  let f3 := mkFactor "コンテンツ保存" (impactOf savedScore 15 8) (25 # 100)
              (show_Z (savedByOthers data) +:+ "回保存されました") in
  let totalScore := totalScore + savedScore in
  let profileScore := Qmin 20 ((num (profileVisits data) / 50) * 20) in
  let f4 := mkFactor "プロフィール訪問" (impactOf profileScore 12 5) (20 # 100)
              (show_Z (profileVisits data) +:+ "回プロフィールが閲覧されました") in
  let totalScore := totalScore + profileScore in
  mkSub (Math_round totalScore) [f1; f2; f3; f4].

Definition calculateOverallScore
    (engagementScore consistencyScore trendScore communityScore : Z) : Z :=
  let w_engagement := 35 # 100 in
  let w_consistency := 25 # 100 in
  let w_trend := 20 # 100 in
  let w_community := 20 # 100 in
  Math_round (num engagementScore * w_engagement
              + num consistencyScore * w_consistency
              + num trendScore * w_trend
              + num communityScore * w_community).

Definition priorityOrder (p : Priority) : Z :=
  match p with high => 0 | medium => 1 | low => 2 end%Z.

(** [Array.prototype.sort] is stable; the comparator is
    [(a, b) => priorityOrder[a.priority] - priorityOrder[b.priority]]. *)
Fixpoint insertByPriority (x : ScoreRecommendation) (l : list ScoreRecommendation)
    : list ScoreRecommendation :=
  match l with
  | [] => [x]
  | y :: l' =>
      if (priorityOrder (priority x) - priorityOrder (priority y) <=? 0)%Z
      then x :: y :: l'
      else y :: insertByPriority x l'
  end.

Definition sortByPriority (l : list ScoreRecommendation) : list ScoreRecommendation :=
  foldr insertByPriority [] l.

Definition rec_eng_1 : ScoreRecommendation :=
  mkRec "eng-1" high engagement "積極的にコメントしよう"
    "コメントはプラットフォームが最も評価する行動。飲み会で言えば「話を聞いて反応する人」。主宰者（プラットフォーム）に好まれます。"
    8
    ["毎日3件以上、他の投稿にコメントする";
     "トレンド投稿への早いコメントは特に効果的";
     "質問形式のコメントで会話を生む"].

Definition rec_eng_2 : ScoreRecommendation :=
  mkRec "eng-2" medium engagement "いいねで場を盛り上げる"
    "「盛り上げようとしてくれる人」とプラットフォームに認識されます。"
    5
    ["毎日10件以上いいねする";
     "フォローしている人の投稿を優先";
     "自分の投稿後30分は他の投稿にも反応"].

Definition rec_con_1 : ScoreRecommendation :=
  mkRec "con-1" high consistency "投稿頻度を上げよう"
    "プラットフォームは定期的に活動するユーザーを優遇します。週3-5投稿を目指しましょう。"
    7
    ["週3回以上の投稿を習慣化";
     "投稿カレンダーを作成する";
     "下書きをストックしておく"].

Definition rec_con_2 : ScoreRecommendation :=
  mkRec "con-2" medium consistency "投稿時間を最適化"
    "ゴールデンタイム（7-9時、12-13時、19-22時）に投稿すると露出が増えます。"
    5
    ["朝の通勤時間帯(7-9時)に投稿";
     "昼休み(12-13時)に投稿";
     "夜のリラックスタイム(19-22時)に投稿"].

Definition rec_trend_1 : ScoreRecommendation :=
  mkRec "trend-1" high trend "トレンドに乗ろう"
    "トレンドへの参加は「みんなのために盛り上げようとしている」とプラットフォームに認識される最も効果的な方法です。"
    9
    ["毎日トレンドをチェックする";
     "トレンドタグを1-2個含めて投稿";
     "トレンド初期に参加すると効果倍増"].

Definition rec_com_1 : ScoreRecommendation :=
  mkRec "com-1" medium community "保存したくなるコンテンツを"
    "「あなたはこれが聞きたいんですね」に応えるコンテンツは保存されやすく、プラットフォームの評価が上がります。"
    6
    ["ハウツー・チュートリアル形式の投稿";
     "まとめ・リスト形式の投稿";
     "保存を促すCTAを入れる"].

(** [c ? [r] : []], one conditional [push]. *)
Definition pushIf (c : bool) (r : ScoreRecommendation) : list ScoreRecommendation :=
  if c then [r] else [].

Definition generateRecommendations (data : UserBehaviorData)
    (engagementScore consistencyScore trendScore communityScore : Z)
    : list ScoreRecommendation :=
  let recommendations :=
    ((if (engagementScore <? 70)%Z then
       pushIf (commentsGiven data <? 10)%Z rec_eng_1
       ++ pushIf (likesGiven data <? 30)%Z rec_eng_2
     else [])
    ++ (if (consistencyScore <? 70)%Z then
          pushIf (postsThisWeek data <? 3)%Z rec_con_1
          ++ pushIf (Qltb (num (goldenHourPosts data))
                          (num (postTimingsLength data) * (5 # 10))) rec_con_2
        else [])
    ++ (if (trendScore <? 70)%Z then
          pushIf (trendingTopicsEngaged data <? 2)%Z rec_trend_1
        else [])
    ++ (if (communityScore <? 70)%Z then
          pushIf (savedByOthers data <? 5)%Z rec_com_1
        else []))%list in
  sortByPriority recommendations.

(** The entry pushed in the round [i = days - 1 - k] of the loop; it is the
    [k]-th entry of the history and makes the draws [5k .. 5k+4]. *)
Definition historyEntry (env : Env) (currentScore : PlatformScore) (days : Z)
    (k : nat) : ScoreHistoryEntry :=
  let i := (days - 1 - Z.of_nat k)%Z in
  let date := JSDate.setDate_getDate_plus (historyNow env) (- i) in
  let variation := (num i / num days) * 15 in
  let draw (j : nat) := random env (5 * k + j)%nat * 5 in
  mkHist date
    (Qmax 0 (num (overallScore currentScore) - variation + draw 0%nat))
    (Qmax 0 (num (engagementScore currentScore) - variation + draw 1%nat))
    (Qmax 0 (num (consistencyScore currentScore) - variation + draw 2%nat))
    (Qmax 0 (num (trendScore currentScore) - variation + draw 3%nat))
    (Qmax 0 (num (communityScore currentScore) - variation + draw 4%nat)).

Definition generateScoreHistory (env : Env) (currentScore : PlatformScore)
    (days : Z) : list ScoreHistoryEntry :=
  map (historyEntry env currentScore days) (seq 0 (Z.to_nat days)).

Definition calculatePlatformScore (env : Env) (platform : Platform)
    (data : UserBehaviorData) : ScoreCalculationResult :=
  let engagementResult := calculateEngagementScore data in
  let consistencyResult := calculateConsistencyScore data in
  let trendResult := calculateTrendScore data in
  let communityResult := calculateCommunityScore data in
  let overallScore :=
    calculateOverallScore (score engagementResult) (score consistencyResult)
      (score trendResult) (score communityResult) in
  let allFactors :=
    (factors engagementResult ++ factors consistencyResult
     ++ factors trendResult ++ factors communityResult)%list in
  let score_ :=
    mkScore ("score-" +:+ show_Z (idNow env)) platform overallScore
      (score engagementResult) (score consistencyResult)
      (score trendResult) (score communityResult)
      (calculatedNow env) allFactors in
  let recommendations :=
    generateRecommendations data (score engagementResult)
      (score consistencyResult) (score trendResult) (score communityResult) in
  let history := generateScoreHistory env score_ 7 in
  mkResult score_ recommendations history.

(** [Math.floor(Math.random() * n) + lo], with the [k]-th draw. *)
Definition randomInt (random : nat -> Q) (k : nat) (n lo : Z) : Z :=
  (Math_floor (random k * inject_Z n) + lo)%Z.

(** The fields draw in the order they are written. *)
Definition generateSampleBehaviorData (random : nat -> Q) : UserBehaviorData :=
  mkData
    (randomInt random 0 80 20)
    (randomInt random 1 25 5)
    (randomInt random 2 15 2)
    (randomInt random 3 20 5)
    (randomInt random 4 7 2)
    (randomInt random 5 7 2)
    (randomInt random 6 5 3)
    (slice0 [7; 8; 12; 19; 20; 21]%Z (randomInt random 7 4 2))
    (randomInt random 8 8 1)
    (randomInt random 9 5 1)
    (randomInt random 10 3 0)
    (randomInt random 11 15 2)
    (randomInt random 12 8 1)
    (randomInt random 13 15 3)
    (randomInt random 14 80 20).

Record ScoreRank := mkRank { rank : string; color : string; label : string }.

Definition getScoreRank (score : Z) : ScoreRank :=
  if (score >=? 90)%Z then mkRank "S" "#FFD700" "プラットフォームの寵児"
  else if (score >=? 80)%Z then mkRank "A" "#00FF88" "好かれてます"
  else if (score >=? 70)%Z then mkRank "B" "#00BFFF" "順調"
  else if (score >=? 50)%Z then mkRank "C" "#FFA500" "改善の余地あり"
  else mkRank "D" "#FF4444" "要改善".

End ScoreCalculator.

(** ** app/api/score/route.ts: the behaviour data of a request *)
Module ScoreRoute.

Import ScoreCalculator.

(** [Partial<UserBehaviorData>]: a field is given or left out.  The fields
    are read at the type the guard asserts, so that its [typeof] tests hold;
    a number is an integer, as the counters of the calculator are. *)
Record PartialBehaviorData := mkPartialData {
  p_likesGiven : option Z;
  p_commentsGiven : option Z;
  p_sharesGiven : option Z;
  p_repliesReceived : option Z;
  p_postsThisWeek : option Z;
  p_postsLastWeek : option Z;
  p_averagePostsPerWeek : option Z;
  p_postTimings : option (list Z);
  p_trendingHashtagsUsed : option Z;
  p_trendingTopicsEngaged : option Z;
  p_earlyTrendEngagement : option Z;
  p_followersGained : option Z;
  p_mentionsReceived : option Z;
  p_savedByOthers : option Z;
  p_profileVisits : option Z
}.

(** [numericFields], read off the object. *)
Definition numericFields (d : PartialBehaviorData) : list (option Z) :=
  [p_likesGiven d; p_commentsGiven d; p_sharesGiven d; p_repliesReceived d;
   p_postsThisWeek d; p_postsLastWeek d; p_averagePostsPerWeek d;
   p_trendingHashtagsUsed d; p_trendingTopicsEngaged d;
   p_earlyTrendEngagement d; p_followersGained d; p_mentionsReceived d;
   p_savedByOthers d; p_profileVisits d].

Definition validateBehaviorData (d : PartialBehaviorData) : bool :=
  forallb (fun field =>
             match field with
             | Some n => negb (n <? 0)
             | None => true
             end) (numericFields d)
  && match p_postTimings d with
     | Some timings => forallb (fun timing => negb ((timing <? 0) || (23 <? timing))) timings
     | None => true
     end.

(** [partial.field ?? defaults.field] *)
Definition mergeBehaviorData (random : nat -> Q) (partial : PartialBehaviorData)
    : UserBehaviorData :=
  let defaults := generateSampleBehaviorData random in
  mkData
    (default (likesGiven defaults) (p_likesGiven partial))
    (default (commentsGiven defaults) (p_commentsGiven partial))
    (default (sharesGiven defaults) (p_sharesGiven partial))
    (default (repliesReceived defaults) (p_repliesReceived partial))
    (default (postsThisWeek defaults) (p_postsThisWeek partial))
    (default (postsLastWeek defaults) (p_postsLastWeek partial))
    (default (averagePostsPerWeek defaults) (p_averagePostsPerWeek partial))
    (default (postTimings defaults) (p_postTimings partial))
    (default (trendingHashtagsUsed defaults) (p_trendingHashtagsUsed partial))
    (default (trendingTopicsEngaged defaults) (p_trendingTopicsEngaged partial))
    (default (earlyTrendEngagement defaults) (p_earlyTrendEngagement partial))
    (default (followersGained defaults) (p_followersGained partial))
    (default (mentionsReceived defaults) (p_mentionsReceived partial))
    (default (savedByOthers defaults) (p_savedByOthers partial))
    (default (profileVisits defaults) (p_profileVisits partial)).

End ScoreRoute.

(** ** services/strategyManager.ts *)
Module StrategyManager.

Import JSNumber JSDate.

Record CommentStrategy := mkComment {
  enabled : bool;
  targetTrendingPosts : bool;
  maxCommentsPerDay : Z;
  avoidNegative : bool
}.

Record EngagementStrategy := mkStrategy {
  impressionRatio : number;
  expressionRatio : number;
  weeklyExpressionDays : list Z;
  commentStrategy : CommentStrategy
}.

(** [Partial<EngagementStrategy>] and [Partial<CommentStrategy>]: a field
    is given or left out. *)
Record PartialStrategy := mkPartial {
  p_impressionRatio : option number;
  p_expressionRatio : option number;
  p_weeklyExpressionDays : option (list Z);
  p_commentStrategy : option CommentStrategy
}.

Record PartialComment := mkPartialComment {
  p_enabled : option bool;
  p_targetTrendingPosts : option bool;
  p_maxCommentsPerDay : option Z;
  p_avoidNegative : option bool
}.

Definition DEFAULT_STRATEGY : EngagementStrategy :=
  mkStrategy (Fin (9 # 10)) (Fin (1 # 10)) [0; 6] (mkComment true true 10 true).

Definition DAY_LABELS : list string := ["日"; "月"; "火"; "水"; "木"; "金"; "土"].

(** [{ ...base, ...p }] *)
Definition spread (base : EngagementStrategy) (p : PartialStrategy)
    : EngagementStrategy :=
  mkStrategy
    (default (impressionRatio base) (p_impressionRatio p))
    (default (expressionRatio base) (p_expressionRatio p))
    (default (weeklyExpressionDays base) (p_weeklyExpressionDays p))
    (default (commentStrategy base) (p_commentStrategy p)).

Definition spreadComment (base : CommentStrategy) (p : PartialComment)
    : CommentStrategy :=
  mkComment
    (default (enabled base) (p_enabled p))
    (default (targetTrendingPosts base) (p_targetTrendingPosts p))
    (default (maxCommentsPerDay base) (p_maxCommentsPerDay p))
    (default (avoidNegative base) (p_avoidNegative p)).

(** No field given: the argument [undefined], or [{}]. *)
Definition noFields : PartialStrategy := mkPartial None None None None.

(** Every field given. *)
Definition allFields (s : EngagementStrategy) : PartialStrategy :=
  mkPartial (Some (impressionRatio s)) (Some (expressionRatio s))
    (Some (weeklyExpressionDays s)) (Some (commentStrategy s)).

(** The state of a manager is its private field [strategy]. *)
Record Manager := mkManager { strategy : EngagementStrategy }.

Definition normalizeRatios (m : Manager) : Manager :=
  let s := strategy m in
  let total := add (impressionRatio s) (expressionRatio s) in
  if strict_neq total (Fin 1) then
    mkManager
      (mkStrategy (div (impressionRatio s) total) (div (expressionRatio s) total)
         (weeklyExpressionDays s) (commentStrategy s))
  else m.

(** [new StrategyManager(strategy)] *)
Definition new_StrategyManager (p : PartialStrategy) : Manager :=
  normalizeRatios (mkManager (spread DEFAULT_STRATEGY p)).

Definition getStrategy (m : Manager) : EngagementStrategy := strategy m.

Definition setImpressionRatio (m : Manager) (ratio : number) : Manager :=
  let clampedRatio := max (Fin (5 # 10)) (min (Fin 1) ratio) in
  let s := strategy m in
  mkManager
    (mkStrategy clampedRatio (sub (Fin 1) clampedRatio)
       (weeklyExpressionDays s) (commentStrategy s)).

Definition setExpressionDays (m : Manager) (days : list Z) : Manager :=
  let s := strategy m in
  mkManager
    (mkStrategy (impressionRatio s) (expressionRatio s)
       (List.filter (fun d => (0 <=? d) && (d <=? 6)) days) (commentStrategy s)).


Definition getRecommendedMode (m : Manager) (date : Date) : PostMode :=
  let dayOfWeek := getDay date in
  if includesZ (weeklyExpressionDays (strategy m)) dayOfWeek then expression
  else impression.

Record WeeklyScheduleItem := mkItem {
  date : Date;
  dayOfWeek : Z;
  dayLabel : string;
  recommendedMode : PostMode;
  isExpressionDay : bool
}.

(** The body of the loop of [generateWeeklySchedule] at the index [i]. *)
Definition scheduleItem (m : Manager) (startDate : Date) (i : Z)
    : WeeklyScheduleItem :=
  let date := setDate_getDate_plus startDate i in
  let dayOfWeek := getDay date in
  let isExpressionDay := includesZ (weeklyExpressionDays (strategy m)) dayOfWeek in
  mkItem date dayOfWeek (nth (Z.to_nat dayOfWeek) DAY_LABELS "")
    (if isExpressionDay then expression else impression) isExpressionDay.

Definition generateWeeklySchedule (m : Manager) (startDate : Date)
    : list WeeklyScheduleItem :=
  map (fun i => scheduleItem m startDate (Z.of_nat i)) (seq 0 7).

Inductive HealthStatus := healthy | acceptable | warning | critical.

Record RatioHealthCheck := mkHealth { status : HealthStatus; message : string }.

Definition isRatioHealthy (m : Manager) : RatioHealthCheck :=
  let impressionRatio := impressionRatio (strategy m) in
  if geb impressionRatio (Fin (8 # 10)) && leb impressionRatio (Fin (95 # 100)) then
    mkHealth healthy
      "理想的な比率です。他人が聞きたいことを中心に発信しつつ、自己表現の時間も確保できています。"
  else if gtb impressionRatio (Fin (95 # 100)) then
    mkHealth warning
      "自己表現が少なすぎます。燃え尽きを防ぐため、少し自分の好きなことも発信しましょう。"
  else if ltb impressionRatio (Fin (7 # 10)) then
    mkHealth critical
      "自己表現が多すぎます。インプレッション獲得には「他人が聞きたいこと」を増やしましょう。"
  else
    mkHealth acceptable "許容範囲ですが、改善の余地があります。".

Definition expressionKeywords : list string :=
  ["個人的"; "私は"; "思う"; "感じる"; "好き"; "嫌い";
   "日記"; "雑談"; "つぶやき"; "独り言"].

Definition impressionKeywords : list string :=
  ["方法"; "コツ"; "ポイント"; "解説"; "紹介";
   "おすすめ"; "まとめ"; "ランキング"; "トレンド";
   "知識"; "情報"; "ノウハウ"; "tips"].

(** [content.includes(kw)]: [kw] starts at some position of [content]. *)
Fixpoint includes (content kw : string) : bool :=
  String.prefix kw content
  || match content with
     | EmptyString => false
     | String _ rest => includes rest kw
     end.

Record PostClassification := mkClass {
  suggestedMode : PostMode;
  confidence : Q;
  expressionScore : Z;
  impressionScore : Z
}.

Definition classifyPost (content : string) : PostClassification :=
  let expressionScore :=
    Z.of_nat (length (List.filter (fun kw => includes content kw) expressionKeywords)) in
  let impressionScore :=
    Z.of_nat (length (List.filter (fun kw => includes content kw) impressionKeywords)) in
  let suggestedMode :=
    if impressionScore >=? expressionScore then impression else expression in
  mkClass suggestedMode
    (Qabs (inject_Z impressionScore - inject_Z expressionScore) / 5)%Q
    expressionScore impressionScore.

(** [JSON.stringify] and [JSON.parse] are taken as given.  [parse json] is
    [None] when the text is not JSON; otherwise it is the parsed object read
    at the type the source casts it to. *)
Definition exportStrategy (stringify : EngagementStrategy -> string)
    (m : Manager) : string :=
  stringify (strategy m).

Inductive Thrown := Error (msg : string).

Definition importStrategy (parse : string -> option PartialStrategy)
    (m : Manager) (json : string) : Manager + Thrown :=
  match parse json with
  | Some parsed => inl (normalizeRatios (mkManager (spread DEFAULT_STRATEGY parsed)))
  | None => inr (Error "無効な戦略データです")
  end.

(** [c ? [msg] : []], one conditional [push]. *)
Definition adviceIf (c : bool) (msg : string) : list string :=
  if c then [msg] else [].

Definition getCommentAdvice (m : Manager) : list string :=
  let cs := commentStrategy (strategy m) in
  if enabled cs then
    (["コメント機能が有効です。積極的にコミュニティに参加しましょう。"]
     ++ adviceIf (targetTrendingPosts cs)
          "トレンド投稿へのコメントで、自分の存在をアピールしましょう。"
     ++ adviceIf (avoidNegative cs)
          "ネガティブコメントを避けることで、プラットフォームからの評価を維持できます。"
     ++ adviceIf (20 <? maxCommentsPerDay cs)
          "1日のコメント数が多すぎると、スパム判定される可能性があります。")%list
  else
    ["コメント機能が無効です。コミュニティ参加はインプレッション獲得に効果的です。"].

(** The module variable [strategyManagerInstance] is [None] for [null].
    [getStrategyManager] returns the instance and the variable afterwards. *)
Definition getStrategyManager (instance : option Manager) (p : PartialStrategy)
    : Manager * option Manager :=
  match instance with
  | None => let m := new_StrategyManager p in (m, Some m)
  | Some m => (m, Some m)
  end.

Definition resetStrategyManager (instance : option Manager) : option Manager :=
  None.

End StrategyManager.

(** ** The strategy store of lib/notifications.ts (useStrategy)

    The state of the store and its actions; [set] merges the fields it is
    given into the state.  An action reads the clock for the schedule
    ([scheduleNow], the default start date) and for [lastUpdated]. *)
Module StrategyStore.

Import JSNumber JSDate StrategyManager.

Record StrategyState := mkState {
  st_strategy : EngagementStrategy;
  isLoading : bool;
  lastUpdated : option Date;
  weeklySchedule : list WeeklyScheduleItem;
  ratioHealth : RatioHealthCheck;
  commentAdvice : list string
}.

(** [new StrategyManager(strategy)] for a whole strategy. *)
Definition managerOf (s : EngagementStrategy) : Manager :=
  new_StrategyManager (allFields s).

Definition initialState (scheduleNow : Date) : StrategyState :=
  let manager := managerOf DEFAULT_STRATEGY in
  mkState DEFAULT_STRATEGY false None
    (generateWeeklySchedule manager scheduleNow)
    (isRatioHealthy manager) (getCommentAdvice manager).

Definition store_setImpressionRatio (updatedNow : Date) (st : StrategyState)
    (ratio : number) : StrategyState :=
  let clampedRatio := max (Fin (5 # 10)) (min (Fin 1) ratio) in
  let s := st_strategy st in
  let newStrategy :=
    mkStrategy clampedRatio (sub (Fin 1) clampedRatio)
      (weeklyExpressionDays s) (commentStrategy s) in
  let newManager := managerOf newStrategy in
  mkState newStrategy (isLoading st) (Some updatedNow) (weeklySchedule st)
    (isRatioHealthy newManager) (commentAdvice st).

Definition store_setExpressionDays (scheduleNow updatedNow : Date)
    (st : StrategyState) (days : list Z) : StrategyState :=
  let validDays := List.filter (fun d => (0 <=? d) && (d <=? 6)) days in
  let s := st_strategy st in
  let newStrategy :=
    mkStrategy (impressionRatio s) (expressionRatio s) validDays
      (commentStrategy s) in
  let newManager := managerOf newStrategy in
  mkState newStrategy (isLoading st) (Some updatedNow)
    (generateWeeklySchedule newManager scheduleNow)
    (ratioHealth st) (commentAdvice st).

Definition store_toggleExpressionDay (scheduleNow updatedNow : Date)
    (st : StrategyState) (day : Z) : StrategyState :=
  let currentDays := weeklyExpressionDays (st_strategy st) in
  let newDays :=
    if includesZ currentDays day
    then List.filter (fun d => negb (d =? day)) currentDays
    else (currentDays ++ [day])%list in
  store_setExpressionDays scheduleNow updatedNow st newDays.

Definition store_updateCommentStrategy (updatedNow : Date) (st : StrategyState)
    (updates : PartialComment) : StrategyState :=
  let s := st_strategy st in
  let newStrategy :=
    mkStrategy (impressionRatio s) (expressionRatio s) (weeklyExpressionDays s)
      (spreadComment (commentStrategy s) updates) in
  let newManager := managerOf newStrategy in
  mkState newStrategy (isLoading st) (Some updatedNow) (weeklySchedule st)
    (ratioHealth st) (getCommentAdvice newManager).

Definition store_resetToDefault (scheduleNow updatedNow : Date)
    (st : StrategyState) : StrategyState :=
  let newManager := managerOf DEFAULT_STRATEGY in
  mkState DEFAULT_STRATEGY (isLoading st) (Some updatedNow)
    (generateWeeklySchedule newManager scheduleNow)
    (isRatioHealthy newManager) (getCommentAdvice newManager).

Definition store_getRecommendedMode (st : StrategyState) (date : Date) : PostMode :=
  getRecommendedMode (managerOf (st_strategy st)) date.

Definition store_refreshSchedule (scheduleNow : Date) (st : StrategyState)
    : StrategyState :=
  let manager := managerOf (st_strategy st) in
  mkState (st_strategy st) (isLoading st) (lastUpdated st)
    (generateWeeklySchedule manager scheduleNow)
    (ratioHealth st) (commentAdvice st).

End StrategyStore.

(** ** services/trendDetector.ts *)
Module TrendDetector.

#[local] Open Scope Q_scope.

Inductive TrendCategory :=
  | entertainment | technology | lifestyle | business
  | news | sports | education | other.

Definition TrendCategory_str (c : TrendCategory) : string :=
  match c with
  | entertainment => "entertainment"
  | technology => "technology"
  | lifestyle => "lifestyle"
  | business => "business"
  | news => "news"
  | sports => "sports"
  | education => "education"
  | other => "other"
  end.

Definition TrendCategory_eqb (a b : TrendCategory) : bool :=
  match a, b with
  | entertainment, entertainment | technology, technology
  | lifestyle, lifestyle | business, business | news, news
  | sports, sports | education, education | other, other => true
  | _, _ => false
  end.

Inductive TrendSentiment := s_positive | s_negative | s_neutral | s_mixed.

(** A topic.  [relatedHashtags] is [None] when the field holds no array,
    which the unchecked cast of a parsed reply allows. *)
Record TrendingTopic := mkTopic {
  id : string;
  name : string;
  platform : Platform;
  category : TrendCategory;
  volume : Q;
  growthRate : Q;
  sentiment : TrendSentiment;
  relatedHashtags : option (list string);
  peakHour : Z;
  recommendationScore : Q;
  detectedAt : Z
}.

Inductive Level := low | medium | high.
Inductive TrendingStatus := rising | stable | declining.

Record HashtagAnalysis := mkHashtag {
  hashtag : string;
  h_platform : Platform;
  popularity : Z;
  competitionLevel : Level;
  relevanceScore : Z;
  trendingStatus : TrendingStatus;
  relatedTopics : list string;
  bestTimeToUse : list Z;
  estimatedReach : Z
}.

Inductive BuzzPatternType :=
  | storytelling | educational | controversial | inspirational | humor
  | breaking_news | listicle | question | behind_the_scenes.

Record BuzzPattern := mkBuzz {
  b_id : string;
  b_platform : Platform;
  patternType : BuzzPatternType;
  b_description : string;
  successRate : Q;
  averageEngagement : Z;
  examples : list string;
  requiredElements : list string;
  optimalLength_min : Z;
  optimalLength_max : Z;
  bestHashtagCount : Z
}.

Inductive Recommendation := highly_recommended | recommended | acceptable | avoid.

Record OptimalPostTiming := mkTiming {
  t_platform : Platform;
  dayOfWeek : Z;
  hour : Z;
  engagementMultiplier : Q;
  audienceActive : Z;
  competition : Level;
  recommendation : Recommendation
}.

Record TrendDetectionRequest := mkRequest {
  req_platform : Platform;
  req_category : option TrendCategory;
  limit : option Z;
  includeHashtags : option bool;
  includeBuzzPatterns : option bool
}.

Record TrendDetectionResponse := mkResponse {
  trends : list TrendingTopic;
  recommendedHashtags : list HashtagAnalysis;
  buzzPatterns : list BuzzPattern;
  optimalTimings : list OptimalPostTiming;
  analyzedAt : Z
}.

Definition PLATFORM_DEFAULT_CATEGORIES (p : Platform) : list TrendCategory :=
  match p with
  | threads => [lifestyle; entertainment; technology]
  | instagram => [lifestyle; entertainment; business]
  | twitter => [news; technology; entertainment]
  end.

(** The multipliers of the hours 0 .. 23, in tenths. *)
Definition tenths (l : list Z) : list Q := map (fun n => n # 10) l.

Definition HOURLY_ENGAGEMENT_MULTIPLIERS (p : Platform) : list Q :=
  match p with
  | threads =>
      tenths [3; 2; 1; 1; 1; 2;  5; 8; 9; 7; 6; 7;
              9; 7; 6; 6; 7; 8;  9; 10; 10; 9; 7; 5]%Z
  | instagram =>
      tenths [3; 2; 1; 1; 1; 2;  6; 7; 8; 6; 5; 7;
              8; 6; 5; 5; 6; 8;  9; 10; 10; 9; 7; 4]%Z
  | twitter =>
      tenths [4; 3; 2; 2; 2; 3;  5; 8; 9; 8; 7; 8;
              10; 8; 7; 7; 8; 9;  9; 8; 7; 6; 5; 4]%Z
  end.

Definition BUZZ_PATTERN_TEMPLATES (p : Platform) : list BuzzPattern :=
  match p with
  | threads =>
      [ mkBuzz "threads-storytelling" threads storytelling
          "個人的な体験を共有するストーリー形式" (75 # 100) 2500
          ["去年まで○○だった自分が、今では..."; "失敗から学んだ3つのこと"]
          ["導入のフック"; "転機となる出来事"; "学びや気づき"]
          200 500 3;
        mkBuzz "threads-educational" threads educational
          "知識やノウハウを共有する教育的コンテンツ" (7 # 10) 2000
          ["○○する方法を5ステップで解説"; "知らないと損する○○のコツ"]
          ["明確な価値提案"; "具体的なステップ"; "実践可能なアドバイス"]
          150 450 3;
        mkBuzz "threads-question" threads question
          "フォロワーに問いかける形式" (65 # 100) 1800
          ["みんなは○○についてどう思う?"; "○○と○○、どっち派?"]
          ["明確な質問"; "回答しやすい選択肢"; "共感できるテーマ"]
          50 200 2 ]
  | instagram =>
      [ mkBuzz "instagram-behind-the-scenes" instagram behind_the_scenes
          "普段見せない舞台裏を公開" (8 # 10) 3500
          ["普段は見せない作業風景"; "○○の裏側をお見せします"]
          ["リアルな瞬間"; "人間味のある内容"; "価値ある舞台裏情報"]
          100 2200 15;
        mkBuzz "instagram-inspirational" instagram inspirational
          "感動や共感を呼ぶインスピレーショナルコンテンツ" (72 # 100) 3000
          ["諦めかけたときに思い出すこと"; "○年前の自分に伝えたい言葉"]
          ["感情に訴えるフック"; "ストーリー性"; "前向きなメッセージ"]
          150 2000 15 ]
  | twitter =>
      [ mkBuzz "twitter-controversial" twitter controversial
          "議論を呼ぶ意見表明" (6 # 10) 5000
          ["○○は実は○○だと思う。理由は...";
           "人気の○○、実は効果がないって知ってた?"]
          ["明確な主張"; "根拠の提示"; "議論の余地"]
          50 280 2;
        mkBuzz "twitter-listicle" twitter listicle
          "リスト形式の情報共有" (68 # 100) 4000
          ["○○に役立つツール5選"; "成功者に共通する3つの習慣"]
          ["数字を含むタイトル"; "具体的な項目"; "保存したくなる価値"]
          100 280 2 ]
  end.

(** The table [mockTopics] of [getMockTrendingTopics]; each entry takes
    [new Date()] as its [detectedAt]. *)
Definition mockTopics (now : Z) (p : Platform) : list TrendingTopic :=
  match p with
  | threads =>
      [ mkTopic "trend-threads-1" "AI活用術" threads technology 15000 (15 # 10)
          s_positive (Some ["AI"; "生産性向上"; "ChatGPT"]) 12 85 now;
        mkTopic "trend-threads-2" "副業・フリーランス" threads business 12000 (13 # 10)
          s_positive (Some ["副業"; "フリーランス"; "在宅ワーク"]) 20 80 now;
        mkTopic "trend-threads-3" "自己投資" threads lifestyle 10000 (12 # 10)
          s_positive (Some ["自己投資"; "読書"; "学び"]) 21 75 now;
        mkTopic "trend-threads-4" "SNS運用" threads business 8000 (14 # 10)
          s_neutral (Some ["SNS運用"; "マーケティング"; "フォロワー"]) 19 78 now;
        mkTopic "trend-threads-5" "ミニマリスト" threads lifestyle 6000 (11 # 10)
          s_positive (Some ["ミニマリスト"; "断捨離"; "シンプルライフ"]) 22 70 now ]
  | instagram =>
      [ mkTopic "trend-instagram-1" "ライフスタイル" instagram lifestyle 25000 (12 # 10)
          s_positive (Some ["暮らし"; "日常"; "ライフスタイル"]) 20 82 now;
        mkTopic "trend-instagram-2" "カフェ巡り" instagram entertainment 18000 (13 # 10)
          s_positive (Some ["カフェ"; "カフェ巡り"; "コーヒー"]) 15 75 now;
        mkTopic "trend-instagram-3" "フィットネス" instagram lifestyle 20000 (14 # 10)
          s_positive (Some ["筋トレ"; "フィットネス"; "ダイエット"]) 7 80 now ]
  | twitter =>
      [ mkTopic "trend-twitter-1" "テック業界" twitter technology 30000 (16 # 10)
          s_mixed (Some ["テック"; "エンジニア"; "プログラミング"]) 12 88 now;
        mkTopic "trend-twitter-2" "ニュース速報" twitter news 50000 (20 # 10)
          s_neutral (Some ["速報"; "ニュース"; "最新"]) 8 70 now;
        mkTopic "trend-twitter-3" "スタートアップ" twitter business 15000 (14 # 10)
          s_positive (Some ["スタートアップ"; "起業"; "VC"]) 17 82 now ]
  end.

(** *** What a call reads from outside *)

Inductive ContentBlock := TextBlock (text : string) | OtherBlock.

(** The outcome of [client.messages.create]: the call fails, or it resolves
    to a message with the given content blocks. *)
Inductive LlmReply := Rejects | Resolves (content : list ContentBlock).

(** An element of the parsed array, read at the type the source casts it
    to.  Two shapes outside that type change the control flow and are kept:
    an element that is [null], whose fields cannot be read, and a
    [relatedHashtags] that is no array. *)
Record RawTopic := mkRaw {
  raw_name : string;
  raw_category : TrendCategory;
  raw_volume : Q;
  raw_growthRate : Q;
  raw_sentiment : TrendSentiment;
  raw_relatedHashtags : option (list string);
  raw_peakHour : Z;
  raw_recommendationScore : Q
}.

Inductive JsonElem := JNull | JTopic (topic : RawTopic).

(** The clock is read when the cache is tested ([nowCheck]), when topics
    are built ([nowGenerate]), for [analyzedAt] ([nowAnalyzed]) and when the
    cache is written ([nowStore]).  [JSON_parse] is [None] when the text does
    not parse; the text it is given starts with a bracket, so a parsed value
    is an array.  [random k] is the [k]-th draw of [Math.random()]. *)
Record Env := mkEnv {
  nowCheck : Z;
  nowGenerate : Z;
  nowAnalyzed : Z;
  nowStore : Z;
  llm : LlmReply;
  JSON_parse : string -> option (list JsonElem);
  random : nat -> Q
}.

(** What a call does that can be observed from outside. *)
Inductive Event :=
  | Generate (p : Platform) (c : option TrendCategory) (l : Z)
  | LlmRequest (p : Platform).

Inductive Thrown := TypeError.

(** *** The detector *)

Record Detector := mkDetector {
  client : option string;
  apiKey : option string;
  cachedTrends : gmap string (TrendDetectionResponse * Z)
}.

Definition cacheExpiryMs : Z := (30 * 60 * 1000)%Z.

(** [s || null] for a string: the empty string is falsy. *)
Definition truthy (s : option string) : option string :=
  match s with
  | Some EmptyString | None => None
  | Some s => Some s
  end.

(** [new TrendDetector(apiKey)] *)
Definition new_TrendDetector (key : option string) : Detector :=
  mkDetector (truthy key) (truthy key) ∅.

Definition setApiKey (d : Detector) (key : string) : Detector :=
  mkDetector (Some key) (Some key) (cachedTrends d).

Definition clearCache (d : Detector) : Detector :=
  mkDetector (client d) (apiKey d) ∅.

(** [limit || 10]: an absent limit and the limit 0 are falsy. *)
Definition limitOr10 (l : option Z) : Z :=
  match l with
  | Some 0%Z | None => 10%Z
  | Some n => n
  end.

Definition categoryOrAll (c : option TrendCategory) : string :=
  match c with
  | Some c => TrendCategory_str c
  | None => "all"
  end.

Definition getCacheKey (request : TrendDetectionRequest) : string :=
  Platform_str (req_platform request) +:+ "-"
  +:+ categoryOrAll (req_category request) +:+ "-"
  +:+ show_Z (limitOr10 (limit request)).

Definition getMockTrendingTopics (env : Env) (p : Platform)
    (c : option TrendCategory) (limit : Z) : list TrendingTopic :=
  let topics := mockTopics (nowGenerate env) p in
  let topics :=
    match c with
    | Some c => List.filter (fun t => TrendCategory_eqb (category t) c) topics
    | None => topics
    end in
  slice0 topics limit.

(** The match of [/\[[\s\S]*\]/]: from the first opening bracket to the
    last closing bracket after it. *)
Fixpoint fromFirstOpen (s : string) : option string :=
  match s with
  | EmptyString => None
  | String c rest => if Ascii.eqb c "[" then Some rest else fromFirstOpen rest
  end.

(** The longest prefix that ends with a closing bracket. *)
Fixpoint throughLastClose (s : string) : option string :=
  match s with
  | EmptyString => None
  | String c rest =>
      match throughLastClose rest with
      | Some m => Some (String c m)
      | None => if Ascii.eqb c "]" then Some (String c EmptyString) else None
      end
  end.

Definition jsonMatch (responseText : string) : option string :=
  match fromFirstOpen responseText with
  | Some rest => option_map (String "[") (throughLastClose rest)
  | None => None
  end.

(** The callback of [topicsData.map] at the index [index]; reading a field
    of [null] throws. *)
Definition topicOfElem (env : Env) (p : Platform) (index : nat) (e : JsonElem)
    : option TrendingTopic :=
  match e with
  | JNull => None
  | JTopic t =>
      Some (mkTopic
              ("trend-" +:+ Platform_str p +:+ "-" +:+ show_Z (nowGenerate env)
               +:+ "-" +:+ show_Z (Z.of_nat index))
              (raw_name t) p (raw_category t) (raw_volume t) (raw_growthRate t)
              (raw_sentiment t) (raw_relatedHashtags t) (raw_peakHour t)
              (raw_recommendationScore t) (nowGenerate env))
  end.

Fixpoint mapTopics (env : Env) (p : Platform) (index : nat) (l : list JsonElem)
    : option (list TrendingTopic) :=
  match l with
  | [] => Some []
  | e :: l' =>
      match topicOfElem env p index e, mapTopics env p (S index) l' with
      | Some t, Some ts => Some (t :: ts)
      | _, _ => None
      end
  end.

(** [content[0].type === 'text' ? content[0].text : ''] *)
Definition responseText (block : ContentBlock) : string :=
  match block with
  | TextBlock text => text
  | OtherBlock => ""
  end.

(** The body of the [try]: [None] is an exception, which the [catch]
    turns into the mock topics.  The prompt is sent to the model and has no
    other use; the reply is an input. *)
Definition askModel (env : Env) (p : Platform) (c : option TrendCategory)
    (limit : Z) : option (list TrendingTopic) :=
  match llm env with
  | Rejects => None
  | Resolves [] => None
  | Resolves (block :: _) =>
      match jsonMatch (responseText block) with
      | None => Some (getMockTrendingTopics env p c limit)
      | Some matched =>
          match JSON_parse env matched with
          | None => None
          | Some topicsData => mapTopics env p 0 topicsData
          end
      end
  end.

Definition generateTrendingTopics (d : Detector) (env : Env) (p : Platform)
    (c : option TrendCategory) (limit : Z) : list TrendingTopic * list Event :=
  match client d with
  | None => (getMockTrendingTopics env p c limit, [Generate p c limit])
  | Some _ =>
      (default (getMockTrendingTopics env p c limit) (askModel env p c limit),
       [Generate p c limit; LlmRequest p])
  end.

(** [Object.entries(multipliers)] lists the hours in increasing order. *)
Definition getBestTimesForHashtag (p : Platform) : list Z :=
  map (fun i => Z.of_nat i)
    (List.filter (fun i => Qgeb (nth i (HOURLY_ENGAGEMENT_MULTIPLIERS p) 0) (8 # 10))
       (seq 0 24)).

(** [allHashtags.add(tag)] on a set kept in insertion order. *)
Definition setAdd (s : list string) (tag : string) : list string :=
  if existsb (String.eqb tag) s then s else (s ++ [tag])%list.

(** The two nested [forEach]; [None] when a topic has no array of tags. *)
Fixpoint collectHashtags (trends : list TrendingTopic) (allHashtags : list string)
    : option (list string) :=
  match trends with
  | [] => Some allHashtags
  | t :: rest =>
      match relatedHashtags t with
      | None => None
      | Some tags => collectHashtags rest (fold_left setAdd tags allHashtags)
      end
  end.

Definition hasHashtag (tag : string) (t : TrendingTopic) : bool :=
  match relatedHashtags t with
  | Some tags => existsb (String.eqb tag) tags
  | None => false
  end.

Definition analyzeOne (env : Env) (p : Platform) (trends : list TrendingTopic)
    (index : nat) (tag : string) : HashtagAnalysis :=
  let popularity := (Math_floor (random env (3 * index)%nat * 100) + 1)%Z in
  let competitionLevel :=
    if (70 <? popularity)%Z then high
    else if (40 <? popularity)%Z then medium else low in
  mkHashtag tag p popularity competitionLevel
    (Math_floor (random env (3 * index + 1)%nat * 40) + 60)%Z
    (if (index <? 5)%nat then rising
     else if (index <? 15)%nat then stable else declining)
    (map name (List.filter (hasHashtag tag) trends))
    (getBestTimesForHashtag p)
    (Math_floor (random env (3 * index + 2)%nat * 50000) + 1000)%Z.

Definition analyzeHashtags (env : Env) (p : Platform) (trends : list TrendingTopic)
    : list HashtagAnalysis + Thrown :=
  match collectHashtags trends [] with
  | None => inr TypeError
  | Some allHashtags =>
      let hashtags := slice0 allHashtags 20 in
      inl (imap (analyzeOne env p trends) hashtags)
  end.

Definition getBuzzPatterns (p : Platform) : list BuzzPattern :=
  BUZZ_PATTERN_TEMPLATES p.

(** [multipliers[hour] || 0.5] *)
Definition multiplierAt (p : Platform) (hour : nat) : Q :=
  match nth_error (HOURLY_ENGAGEMENT_MULTIPLIERS p) hour with
  | Some m => if Qeq_bool m 0 then 5 # 10 else m
  | None => 5 # 10
  end.

Definition timingAt (p : Platform) (day hour : nat) : OptimalPostTiming :=
  let multiplier := multiplierAt p hour in
  let audienceActive := Math_floor (multiplier * 100) in
  let competition :=
    if Qltb (8 # 10) multiplier then high
    else if Qltb (5 # 10) multiplier then medium
    else low in
  let recommendation :=
    if Qgeb multiplier (9 # 10) then highly_recommended
    else if Qgeb multiplier (7 # 10) then recommended
    else if Qgeb multiplier (4 # 10) then acceptable
    else avoid in
  mkTiming p (Z.of_nat day) (Z.of_nat hour) multiplier audienceActive
    competition recommendation.

Definition calculateOptimalTimings (p : Platform) : list OptimalPostTiming :=
  flat_map (fun day => map (timingAt p day) (seq 0 24)) (seq 0 7).

(** The result of one call of [detectTrends]: the response or the
    exception, the detector afterwards, and what the call did. *)
Record Outcome := mkOutcome {
  returned : TrendDetectionResponse + Thrown;
  after : Detector;
  trace : list Event
}.

(** [request.flag !== false] *)
Definition notFalse (flag : option bool) : bool :=
  match flag with Some false => false | _ => true end.

(** [detectTrends] past the cache test. *)
Definition detectFresh (d : Detector) (env : Env) (request : TrendDetectionRequest)
    : Outcome :=
  let cacheKey := getCacheKey request in
  let p := req_platform request in
  let c := req_category request in
  let limit := default 10%Z (limit request) in
  let '(trends, events) := generateTrendingTopics d env p c limit in
  let hashtagsOrThrow :=
    if notFalse (includeHashtags request) then analyzeHashtags env p trends
    else inl [] in
  match hashtagsOrThrow with
  | inr e => mkOutcome (inr e) d events
  | inl recommendedHashtags =>
      let buzzPatterns :=
        if notFalse (includeBuzzPatterns request) then getBuzzPatterns p else [] in
      let optimalTimings := calculateOptimalTimings p in
      let response :=
        mkResponse trends recommendedHashtags buzzPatterns optimalTimings
          (nowAnalyzed env) in
      mkOutcome (inl response)
        (mkDetector (client d) (apiKey d)
           (<[cacheKey := (response, nowStore env)]> (cachedTrends d)))
        events
  end.

Definition detectTrends (d : Detector) (env : Env) (request : TrendDetectionRequest)
    : Outcome :=
  let cacheKey := getCacheKey request in
  match cachedTrends d !! cacheKey with
  | Some (data, timestamp) =>
      if (nowCheck env - timestamp <? cacheExpiryMs)%Z
      then mkOutcome (inl data) d []
      else detectFresh d env request
  | None => detectFresh d env request
  end.

Inductive Approach := agree | add_value | ask_question | share_experience.

Record CommentStrategyRecommendation := mkCommentRec {
  trendId : string;
  trendName : string;
  participationScore : Q;
  suggestedApproach : Approach;
  commentTemplates : list string;
  riskLevel : Level;
  potentialReach : Z
}.

(** The table [templates] at the approach; the approach 'question' is
    [ask_question] here. *)
Definition generateCommentTemplates (trend : TrendingTopic) (approach : Approach)
    : list string :=
  match approach with
  | agree =>
      [name trend +:+ "について完全に同意です。特に...";
       "これは本当にそう思います。自分も" +:+ name trend +:+ "を経験して...";
       "素晴らしい視点ですね。" +:+ name trend +:+ "は確かに重要..."]
  | add_value =>
      [name trend +:+ "に関連して、こんな情報もあります...";
       "これに加えて、" +:+ name trend +:+ "については...という観点も";
       "参考になるかもしれませんが、" +:+ name trend +:+ "では..."]
  | ask_question =>
      [name trend +:+ "について質問があります。...はどう思いますか?";
       "興味深いですね。" +:+ name trend +:+ "の場合、...についてはどうでしょう?";
       name trend +:+ "に関して、皆さんは...という経験ありますか?"]
  | share_experience =>
      [name trend +:+ "について、自分の経験をシェアすると...";
       "同じような状況で" +:+ name trend +:+ "を試したことがあります...";
       name trend +:+ "について、こんなことがありました..."]
  end.

(** [Array.prototype.sort] is stable; the comparator is
    [(a, b) => b.recommendationScore - a.recommendationScore]. *)
Fixpoint insertByScore (x : TrendingTopic) (l : list TrendingTopic)
    : list TrendingTopic :=
  match l with
  | [] => [x]
  | y :: l' =>
      if Qle_bool (recommendationScore y - recommendationScore x) 0
      then x :: y :: l'
      else y :: insertByScore x l'
  end.

Definition sortByScore (l : list TrendingTopic) : list TrendingTopic :=
  foldr insertByScore [] l.

(** The callback of the final [map]. *)
Definition recommendationOf (trend : TrendingTopic) : CommentStrategyRecommendation :=
  let '(suggestedApproach, riskLevel) :=
    match sentiment trend with
    | s_positive => (agree, low)
    | s_negative => (add_value, high)
    | s_mixed => (ask_question, medium)
    | s_neutral => (share_experience, low)
    end in
  let templates := generateCommentTemplates trend suggestedApproach in
  mkCommentRec (id trend) (name trend) (recommendationScore trend)
    suggestedApproach templates riskLevel
    (Math_floor
       (volume trend
        * (if Qeq_bool (growthRate trend) 0 then 1 else growthRate trend)
        * (1 # 10))).

Definition getCommentStrategyRecommendations (trends : list TrendingTopic)
    (limit : Z) : list CommentStrategyRecommendation :=
  let sortedTrends := slice0 (sortByScore trends) limit in
  map recommendationOf sortedTrends.

(** The module variable [trendDetectorInstance] is [None] for [null].
    [getTrendDetector] returns the instance, which is the variable
    afterwards. *)
Definition getTrendDetector (instance : option Detector) (key : option string)
    : Detector :=
  match instance with
  | None => new_TrendDetector key
  | Some d =>
      match truthy key with
      | Some k => setApiKey d k
      | None => d
      end
  end.

Definition resetTrendDetector (instance : option Detector) : option Detector :=
  None.

End TrendDetector.

(** * The vocabulary of the properties

    Predicates, sample inputs and the quantities the statements below are
    written with.  None of it is code of the application. *)

Module ScoreCalculatorTerms.

Import ScoreCalculator.
#[local] Open Scope Q_scope.

(** The [score] of the result of [calculatePlatformScore]. *)
Definition scoreOf (env : Env) (p : Platform) (data : UserBehaviorData)
    : PlatformScore :=
  result_score (calculatePlatformScore env p data).

(** Every counter is zero and no post hour is recorded. *)
Definition allZero (data : UserBehaviorData) : Prop :=
  likesGiven data = 0%Z /\ commentsGiven data = 0%Z /\ sharesGiven data = 0%Z
  /\ repliesReceived data = 0%Z /\ postsThisWeek data = 0%Z
  /\ postsLastWeek data = 0%Z /\ averagePostsPerWeek data = 0%Z
  /\ postTimings data = []
  /\ trendingHashtagsUsed data = 0%Z /\ trendingTopicsEngaged data = 0%Z
  /\ earlyTrendEngagement data = 0%Z /\ followersGained data = 0%Z
  /\ mentionsReceived data = 0%Z /\ savedByOthers data = 0%Z
  /\ profileVisits data = 0%Z.

(** The all-zero snapshot. *)
Definition zeroData : UserBehaviorData :=
  mkData 0 0 0 0 0 0 0 [] 0 0 0 0 0 0 0.

(** No counter is negative. *)
Definition nonNegative (data : UserBehaviorData) : Prop :=
  (0 <= likesGiven data /\ 0 <= commentsGiven data /\ 0 <= sharesGiven data
   /\ 0 <= repliesReceived data /\ 0 <= postsThisWeek data
   /\ 0 <= postsLastWeek data /\ 0 <= averagePostsPerWeek data
   /\ 0 <= trendingHashtagsUsed data /\ 0 <= trendingTopicsEngaged data
   /\ 0 <= earlyTrendEngagement data /\ 0 <= followersGained data
   /\ 0 <= mentionsReceived data /\ 0 <= savedByOthers data
   /\ 0 <= profileVisits data)%Z.

(** [data] with [commentsGiven] replaced. *)
Definition withComments (data : UserBehaviorData) (c : Z) : UserBehaviorData :=
  mkData (likesGiven data) c (sharesGiven data) (repliesReceived data)
    (postsThisWeek data) (postsLastWeek data) (averagePostsPerWeek data)
    (postTimings data) (trendingHashtagsUsed data) (trendingTopicsEngaged data)
    (earlyTrendEngagement data) (followersGained data) (mentionsReceived data)
    (savedByOthers data) (profileVisits data).

(** A sample of what a call reads from outside. *)
Definition sampleEnv : Env :=
  mkEnv 1700000000000 1700000000000 (JSDate.mkDate 1700000000000) (fun _ => 1 # 2).

(** A snapshot of an active account. *)
Definition sampleData : UserBehaviorData :=
  mkData 50 15 8 10 5 5 5 [7; 12; 19; 21]%Z 4 3 1 8 4 10 50.

(** The four sub-scores before rounding, term by term as the source adds
    them to [totalScore]. *)
Definition replyRatio (data : UserBehaviorData) : Q :=
  if (0 <? repliesReceived data)%Z
  then Qmin 1 (num (commentsGiven data) / num (repliesReceived data))
  else 5 # 10.

Definition engagementTotal (data : UserBehaviorData) : Q :=
  0 + Qmin 25 ((num (likesGiven data) / 50) * 25)
  + Qmin 30 ((num (commentsGiven data) / 20) * 30)
  + Qmin 20 ((num (sharesGiven data) / 10) * 20)
  + replyRatio data * 25.

Definition frequencyVariance (data : UserBehaviorData) : Q :=
  if (0 <? postsLastWeek data)%Z
  then Qabs (num (postsThisWeek data) - num (postsLastWeek data))
       / num (postsLastWeek data)
  else 1.

Definition timingRatio (data : UserBehaviorData) : Q :=
  if (0 <? postTimingsLength data)%Z
  then num (goldenHourPosts data) / num (postTimingsLength data)
  else 0.

Definition consistencyTotal (data : UserBehaviorData) : Q :=
  0 + Qmax 0 (40 - frequencyVariance data * 40)
  + Qmax 0 (30 - Qabs (num (postsThisWeek data) - num 5) * 5)
  + timingRatio data * 30.

Definition trendTotal (data : UserBehaviorData) : Q :=
  0 + Qmin 35 ((num (trendingHashtagsUsed data) / 5) * 35)
  + Qmin 35 ((num (trendingTopicsEngaged data) / 3) * 35)
  + Qmin 30 ((num (earlyTrendEngagement data) / 2) * 30).

Definition communityTotal (data : UserBehaviorData) : Q :=
  0 + Qmin 30 ((num (followersGained data) / 10) * 30)
  + Qmin 25 ((num (mentionsReceived data) / 5) * 25)
  + Qmin 25 ((num (savedByOthers data) / 10) * 25)
  + Qmin 20 ((num (profileVisits data) / 50) * 20).

End ScoreCalculatorTerms.

Module StrategyManagerTerms.

Import JSNumber JSDate StrategyManager.

(** A manager whose strategy has the impression ratio [r]. *)
Definition managerWithRatio (r : number) (m : Manager) : Manager :=
  mkManager
    (mkStrategy r (expressionRatio (strategy m))
       (weeklyExpressionDays (strategy m)) (commentStrategy (strategy m))).

(** [kw] occurs in [content] as a substring. *)
Definition occursIn (kw content : string) : Prop :=
  exists pre post : string, content = pre +:+ kw +:+ post.

(** [n] is the number of entries of [kws] that occur in [content]. *)
Inductive countOccurring (content : string) : list string -> Z -> Prop :=
  | count_nil : countOccurring content [] 0
  | count_hit kw kws n :
      occursIn kw content -> countOccurring content kws n ->
      countOccurring content (kw :: kws) (n + 1)
  | count_miss kw kws n :
      ~ occursIn kw content -> countOccurring content kws n ->
      countOccurring content (kw :: kws) n.

(** The ratios that sum to zero. *)
Definition zeroRatios : PartialStrategy :=
  mkPartial (Some (Fin 0)) (Some (Fin 0)) None None.

(** A manager built with the defaults. *)
Definition defaultManager : Manager := new_StrategyManager noFields.

(** Sunday 7 January 2024, 09:00 local time; day 19729 since the epoch. *)
Definition sunday_2024_01_07 : Date := mkDate (19729 * msPerDay + 32400000).

End StrategyManagerTerms.

Module TrendDetectorTerms.

Import TrendDetector.

(** A sample of what a call reads from outside: the clock, a model that
    replies with prose, a parser that accepts nothing, and a constant draw. *)
Definition sampleEnv : Env :=
  mkEnv 1000 1001 1002 1003
    (Resolves [TextBlock "I cannot list trends right now."])
    (fun _ => None) (fun _ => (1 # 2)%Q).

(** The same a quarter of an hour later. *)
Definition laterEnv : Env :=
  mkEnv 901000 901001 901002 901003
    (Resolves [TextBlock "I cannot list trends right now."])
    (fun _ => None) (fun _ => (1 # 2)%Q).

(** A request with the two flags left out. *)
Definition request (p : Platform) (c : option TrendCategory) (l : option Z)
    : TrendDetectionRequest :=
  mkRequest p c l None None.

(** A topic of the mock table of the platform [p], whenever it was built. *)
Definition fromMockTable (p : Platform) (t : TrendingTopic) : Prop :=
  exists now : Z, In t (mockTopics now p).


(** The character [c] occurs in [s]. *)
Definition hasChar (c : ascii) (s : string) : Prop :=
  exists pre post : string, s = pre +:+ String c post.

(** The reply is malformed: the regular expression finds no match in the
    text, or the matched text does not parse as JSON. *)
Definition malformed (env : Env) (text : string) : Prop :=
  jsonMatch text = None
  \/ exists matched, jsonMatch text = Some matched /\ JSON_parse env matched = None.

(** A detector with a key. *)
Definition keyedDetector : Detector := new_TrendDetector (Some "sk-sample").

(** Every cached response holds the mock topics of a request with the key
    it is cached under. *)
Definition cacheFromMock (d : Detector) : Prop :=
  forall key data timestamp,
    cachedTrends d !! key = Some (data, timestamp) ->
    exists env0 req0,
      key = getCacheKey req0
      /\ trends data
         = getMockTrendingTopics env0 (req_platform req0) (req_category req0)
             (default 10 (limit req0)).

(** The request is valid for the limit: none, or at least 1. *)
Definition validLimit (req : TrendDetectionRequest) : Prop :=
  limit req = None \/ exists n, limit req = Some n /\ 1 <= n.

(** The detectors a program can reach: a new detector, and what the
    public methods make of a detector. *)
Inductive reachable : Detector -> Prop :=
  | reach_new (key : option string) : reachable (new_TrendDetector key)
  | reach_setApiKey d key : reachable d -> reachable (setApiKey d key)
  | reach_detect d env request :
      reachable d -> reachable (after (detectTrends d env request))
  | reach_clear d : reachable d -> reachable (clearCache d).

End TrendDetectorTerms.

Module ScoreCalculatorExtraTerms.

Import ScoreCalculator ScoreRoute.
#[local] Open Scope Z_scope.

(** Every draw of [Math.random()] lies in [0, 1). *)
Definition drawsInUnit (random : nat -> Q) : Prop :=
  forall k : nat, (0 <= random k /\ random k < 1)%Q.

(** The place of a rank on the scale D < C < B < A < S. *)
Definition rankValue (r : string) : Z :=
  if String.eqb r "S" then 4
  else if String.eqb r "A" then 3
  else if String.eqb r "B" then 2
  else if String.eqb r "C" then 1
  else 0.

(** The order in which recommendations can appear. *)
Definition recommendationOrder : list string :=
  ["eng-1"; "con-1"; "trend-1"; "eng-2"; "con-2"; "com-1"].

(** [data] with [repliesReceived] replaced. *)
Definition withReplies (data : UserBehaviorData) (r : Z) : UserBehaviorData :=
  mkData (likesGiven data) (commentsGiven data) (sharesGiven data) r
    (postsThisWeek data) (postsLastWeek data) (averagePostsPerWeek data)
    (postTimings data) (trendingHashtagsUsed data) (trendingTopicsEngaged data)
    (earlyTrendEngagement data) (followersGained data) (mentionsReceived data)
    (savedByOthers data) (profileVisits data).

(** [d2] has at least the activity of [d1]: no counter of likes, comments,
    shares, trends or community is lower, and the replies received and the
    posting record are the same. *)
Definition atLeastAsActive (d1 d2 : UserBehaviorData) : Prop :=
  likesGiven d1 <= likesGiven d2
  /\ commentsGiven d1 <= commentsGiven d2
  /\ sharesGiven d1 <= sharesGiven d2
  /\ repliesReceived d1 = repliesReceived d2
  /\ postsThisWeek d1 = postsThisWeek d2
  /\ postsLastWeek d1 = postsLastWeek d2
  /\ postTimings d1 = postTimings d2
  /\ trendingHashtagsUsed d1 <= trendingHashtagsUsed d2
  /\ trendingTopicsEngaged d1 <= trendingTopicsEngaged d2
  /\ earlyTrendEngagement d1 <= earlyTrendEngagement d2
  /\ followersGained d1 <= followersGained d2
  /\ mentionsReceived d1 <= mentionsReceived d2
  /\ savedByOthers d1 <= savedByOthers d2
  /\ profileVisits d1 <= profileVisits d2.

(** Every counter has reached the point where its term is capped, replies
    were received and the comments given cover them, five posts were made in this
    week and in the last, and every post went out in a golden hour. *)
Definition saturated (data : UserBehaviorData) : Prop :=
  50 <= likesGiven data /\ 20 <= commentsGiven data /\ 10 <= sharesGiven data
  /\ 1 <= repliesReceived data <= commentsGiven data
  /\ postsThisWeek data = 5 /\ postsLastWeek data = 5
  /\ postTimings data <> []
  /\ (forall h, In h (postTimings data) -> In h goldenHours)
  /\ 5 <= trendingHashtagsUsed data /\ 3 <= trendingTopicsEngaged data
  /\ 2 <= earlyTrendEngagement data
  /\ 10 <= followersGained data /\ 5 <= mentionsReceived data
  /\ 10 <= savedByOthers data /\ 50 <= profileVisits data.

(** A saturated snapshot. *)
Definition saturatedData : UserBehaviorData :=
  mkData 1000 500 200 100 5 5 5 [7; 8; 9; 12; 19; 20; 21; 22] 50 30 20 500 100 200 1000.

(** The hours of the posts are hours of the day. *)
Definition hoursOfDay (data : UserBehaviorData) : Prop :=
  forall h, In h (postTimings data) -> 0 <= h <= 23.

(** Every field given. *)
Definition allGiven (data : UserBehaviorData) : PartialBehaviorData :=
  mkPartialData (Some (likesGiven data)) (Some (commentsGiven data))
    (Some (sharesGiven data)) (Some (repliesReceived data))
    (Some (postsThisWeek data)) (Some (postsLastWeek data))
    (Some (averagePostsPerWeek data)) (Some (postTimings data))
    (Some (trendingHashtagsUsed data)) (Some (trendingTopicsEngaged data))
    (Some (earlyTrendEngagement data)) (Some (followersGained data))
    (Some (mentionsReceived data)) (Some (savedByOthers data))
    (Some (profileVisits data)).

(** A request that gives the likes and the post hours only. *)
Definition likesAndHours : PartialBehaviorData :=
  mkPartialData (Some 40) None None None None None None (Some [3; 12]) None None
    None None None None None.


(** The five scores of a platform score. *)
Definition scoreValues (s : PlatformScore) : list Z :=
  [overallScore s; engagementScore s; consistencyScore s; trendScore s;
   communityScore s].

End ScoreCalculatorExtraTerms.

Module StrategyManagerExtraTerms.

Import JSNumber JSDate StrategyManager StrategyStore.

(** The two ratios are finite and sum to 1. *)
Definition normalized (m : Manager) : Prop :=
  exists a b : Q,
    impressionRatio (strategy m) = Fin a /\ expressionRatio (strategy m) = Fin b
    /\ (a + b == 1)%Q.

(** A text codec that gives back the strategy it has written. *)
Definition roundTrips (stringify : EngagementStrategy -> string)
    (parse : string -> option PartialStrategy) : Prop :=
  forall s : EngagementStrategy, parse (stringify s) = Some (allFields s).


(** The status the health check gives after a ratio was set. *)
Definition statusAfterSetting (ratio : number) : HealthStatus :=
  match ratio with
  | NaN => acceptable
  | PosInf => warning
  | NegInf => critical
  | Fin r =>
      if Qltb r (7 # 10) then critical
      else if Qltb r (8 # 10) then acceptable
      else if Qle_bool r (95 # 100) then healthy
      else warning
  end.

(** The states of the store a session can reach: the initial state and
    what the actions make of a state.  The state read back from storage by
    the persistence layer is not among them. *)
Inductive reachableState : StrategyState -> Prop :=
  | reach_initial (scheduleNow : Date) : reachableState (initialState scheduleNow)
  | reach_setImpressionRatio (updatedNow : Date) st (ratio : number) :
      reachableState st ->
      reachableState (store_setImpressionRatio updatedNow st ratio)
  | reach_setExpressionDays (scheduleNow updatedNow : Date) st (days : list Z) :
      reachableState st ->
      reachableState (store_setExpressionDays scheduleNow updatedNow st days)
  | reach_toggleExpressionDay (scheduleNow updatedNow : Date) st (day : Z) :
      reachableState st ->
      reachableState (store_toggleExpressionDay scheduleNow updatedNow st day)
  | reach_updateCommentStrategy (updatedNow : Date) st (updates : PartialComment) :
      reachableState st ->
      reachableState (store_updateCommentStrategy updatedNow st updates)
  | reach_resetToDefault (scheduleNow updatedNow : Date) st :
      reachableState st ->
      reachableState (store_resetToDefault scheduleNow updatedNow st)
  | reach_refreshSchedule (scheduleNow : Date) st :
      reachableState st ->
      reachableState (store_refreshSchedule scheduleNow st).

(** The values the store keeps beside the strategy are those a manager of
    the strategy computes. *)
Definition derivedInStep (st : StrategyState) : Prop :=
  ratioHealth st = isRatioHealthy (managerOf (st_strategy st))
  /\ commentAdvice st = getCommentAdvice (managerOf (st_strategy st))
  /\ (exists start : Date,
        weeklySchedule st = generateWeeklySchedule (managerOf (st_strategy st)) start)
  /\ Forall (fun d => 0 <= d <= 6) (weeklyExpressionDays (st_strategy st)).

(** A sample state: the initial one on Sunday 7 January 2024. *)
Definition sampleState : StrategyState :=
  initialState (mkDate (19729 * msPerDay + 32400000)).

End StrategyManagerExtraTerms.

Module TrendDetectorExtraTerms.

Import TrendDetector TrendDetectorTerms.

(** The detector holds [data] for the key of [req], stored less than 30
    minutes before the clock of [env] is read. *)
Definition freshEntry (d : Detector) (env : Env) (req : TrendDetectionRequest)
    (data : TrendDetectionResponse) : Prop :=
  exists timestamp : Z,
    cachedTrends d !! getCacheKey req = Some (data, timestamp)
    /\ nowCheck env - timestamp < cacheExpiryMs.

(** The detector holds an entry for the key of [req] that is 30 minutes
    old or older. *)
Definition staleEntry (d : Detector) (env : Env) (req : TrendDetectionRequest)
    : Prop :=
  exists data timestamp,
    cachedTrends d !! getCacheKey req = Some (data, timestamp)
    /\ cacheExpiryMs <= nowCheck env - timestamp.

(** A detector without a key after one request for the trends of Threads. *)
Definition warmDetector : Detector :=
  after (detectTrends (new_TrendDetector None) sampleEnv (request threads None None)).

(** The clock exactly 30 minutes after the entry of [warmDetector] was stored. *)
Definition expiryEnv : Env :=
  mkEnv 1801003 1801004 1801005 1801006
    (Resolves [TextBlock "I cannot list trends right now."])
    (fun _ => None) (fun _ => (1 # 2)%Q).

(** The model replies with an array of [elems], which the parser returns
    for the matched text. *)
Definition modelReplies (env : Env) (elems : list JsonElem) : Prop :=
  exists block rest matched,
    llm env = Resolves (block :: rest)
    /\ jsonMatch (responseText block) = Some matched
    /\ JSON_parse env matched = Some elems.

(** Two topics as a model may give them, the second of a category and in a
    number the request did not ask for. *)
Definition rawTopics : list JsonElem :=
  [JTopic (mkRaw "A" technology 100 2 s_positive (Some ["a"; "b"]) 9 80);
   JTopic (mkRaw "B" sports 50 0 s_negative (Some ["b"; "c"]) 10 90)].

Definition modelEnv : Env :=
  mkEnv 1000 1001 1002 1003 (Resolves [TextBlock "[]"])
    (fun _ => Some rawTopics) (fun _ => (1 # 2)%Q).

(** The score of [b] is at most the score of [a]. *)
Definition scoredAtLeast (a b : TrendingTopic) : Prop :=
  (recommendationScore b <= recommendationScore a)%Q.

(** The grid of the week: every hour of every day, day by day. *)
Definition weekGrid : list (Z * Z) :=
  flat_map (fun day => map (fun hour => (Z.of_nat day, Z.of_nat hour)) (seq 0 24))
    (seq 0 7).

End TrendDetectorExtraTerms.

(** * Properties *)

(** ** Dates *)
Module JSDateFacts.
Import JSDate.






Lemma getDay_range d : 0 <= getDay d < 7.
Proof. unfold getDay. apply Z.mod_pos_bound. lia. Qed.

End JSDateFacts.

(** ** The platform score *)
Module ScoreCalculatorSpec.

Import ScoreCalculator ScoreCalculatorTerms.
#[local] Open Scope Q_scope.

(** *** Rounding *)

Lemma Math_round_mono x y : x <= y -> (Math_round x <= Math_round y)%Z.
Proof. intros H. apply Qfloor_resp_le. lra. Qed.

Lemma Math_round_inject (n : Z) : Math_round (inject_Z n) = n.
Proof.
  unfold Math_round.
  pose proof (Qfloor_le (inject_Z n + (1 # 2))) as Hlo.
  pose proof (Qlt_floor (inject_Z n + (1 # 2))) as Hhi.
  set (f := Qfloor (inject_Z n + (1 # 2))) in *.
  rewrite inject_Z_plus in Hhi. change (inject_Z 1) with 1 in Hhi.
  assert (H1 : inject_Z f < inject_Z (n + 1)).
  { rewrite inject_Z_plus. change (inject_Z 1) with 1. lra. }
  assert (H2 : inject_Z n < inject_Z (f + 1)).
  { rewrite inject_Z_plus. change (inject_Z 1) with 1. lra. }
  rewrite <- Zlt_Qlt in H1, H2. lia.
Qed.

Lemma Math_round_bounds x (n m : Z) :
  inject_Z n <= x -> x <= inject_Z m -> (n <= Math_round x <= m)%Z.
Proof.
  intros Hn Hm. split.
  - rewrite <- (Math_round_inject n). now apply Math_round_mono.
  - rewrite <- (Math_round_inject m). now apply Math_round_mono.
Qed.

(** *** The terms of the sub-scores *)

Lemma num_nonneg z : (0 <= z)%Z -> 0 <= num z.
Proof. intros H. unfold num. rewrite Zle_Qle in H. exact H. Qed.

Lemma num_pos z : (0 < z)%Z -> 0 < num z.
Proof. intros H. unfold num. rewrite Zlt_Qlt in H. exact H. Qed.

Lemma num_le a b : (a <= b)%Z -> num a <= num b.
Proof. intros H. unfold num. rewrite Zle_Qle in H. exact H. Qed.

(** A term [Math.min(cap, x)] with [x] not negative lies in [0, cap]. *)
Lemma capped_bounds (cap x : Q) :
  0 <= cap -> 0 <= x -> 0 <= Qmin cap x /\ Qmin cap x <= cap.
Proof.
  intros Hc Hx. split.
  - now apply Q.min_glb.
  - apply Q.le_min_l.
Qed.

(** A term [Math.max(0, cap - x)] with [x] not negative lies in [0, cap]. *)
Lemma floored_bounds (cap x : Q) :
  0 <= cap -> 0 <= x -> 0 <= Qmax 0 (cap - x) /\ Qmax 0 (cap - x) <= cap.
Proof.
  intros Hc Hx. split.
  - apply Q.le_max_l.
  - apply Q.max_lub; lra.
Qed.

Lemma ratio_bounds (a b : Q) : 0 <= a -> a <= b -> 0 < b -> 0 <= a / b /\ a / b <= 1.
Proof.
  intros Ha Hab Hb. split.
  - apply Qle_shift_div_l; lra.
  - apply Qle_shift_div_r; lra.
Qed.

Lemma ratio_mono (a b r : Q) : a <= b -> 0 < r -> a / r <= b / r.
Proof.
  intros Hab Hr. unfold Qdiv. apply Qmult_le_compat_r; [exact Hab |].
  apply Qlt_le_weak, Qinv_lt_0_compat, Hr.
Qed.

(** A term [n / k * cap] of a counter [n]. *)
Lemma scaled_mono (a b k cap : Q) :
  a <= b -> 0 < k -> 0 <= cap -> a / k * cap <= b / k * cap.
Proof.
  intros Hab Hk Hc. apply Qmult_le_compat_r; [| exact Hc].
  now apply ratio_mono.
Qed.

Lemma scaled_nonneg (a k cap : Q) :
  0 <= a -> 0 < k -> 0 <= cap -> 0 <= a / k * cap.
Proof.
  intros Ha Hk Hc. apply Qmult_le_0_compat; [| exact Hc].
  apply Qle_shift_div_l; lra.
Qed.

Lemma scaled_capped (cap a k : Q) :
  0 <= a -> 0 < k -> 0 <= cap ->
  0 <= Qmin cap (a / k * cap) /\ Qmin cap (a / k * cap) <= cap.
Proof.
  intros Ha Hk Hc. apply capped_bounds; [exact Hc |].
  now apply scaled_nonneg.
Qed.

Lemma goldenHourPosts_le data : (goldenHourPosts data <= postTimingsLength data)%Z.
Proof.
  unfold goldenHourPosts, postTimingsLength.
  apply inj_le, List.filter_length_le.
Qed.

Lemma goldenHourPosts_nonneg data : (0 <= goldenHourPosts data)%Z.
Proof. unfold goldenHourPosts. lia. Qed.

(** *** The four sub-scores before rounding *)

Lemma engagement_score data :
  score (calculateEngagementScore data) = Math_round (engagementTotal data).
Proof. reflexivity. Qed.

Lemma consistency_score data :
  score (calculateConsistencyScore data) = Math_round (consistencyTotal data).
Proof. reflexivity. Qed.

Lemma trend_score data :
  score (calculateTrendScore data) = Math_round (trendTotal data).
Proof. reflexivity. Qed.

Lemma community_score data :
  score (calculateCommunityScore data) = Math_round (communityTotal data).
Proof. reflexivity. Qed.

Lemma replyRatio_bounds data :
  (0 <= commentsGiven data)%Z -> 0 <= replyRatio data /\ replyRatio data <= 1.
Proof.
  intros Hc. unfold replyRatio.
  destruct (Z.ltb_spec 0 (repliesReceived data)) as [Hr | Hr].
  - apply capped_bounds; [lra |].
    apply Qle_shift_div_l; [now apply num_pos |].
    apply num_nonneg in Hc. lra.
  - lra.
Qed.

Lemma frequencyVariance_nonneg data : 0 <= frequencyVariance data.
Proof.
  unfold frequencyVariance.
  destruct (Z.ltb_spec 0 (postsLastWeek data)) as [Hl | Hl]; [| lra].
  apply Qle_shift_div_l; [now apply num_pos |].
  pose proof (Qabs_nonneg (num (postsThisWeek data) - num (postsLastWeek data))).
  lra.
Qed.

Lemma timingRatio_bounds data : 0 <= timingRatio data /\ timingRatio data <= 1.
Proof.
  unfold timingRatio.
  destruct (Z.ltb_spec 0 (postTimingsLength data)) as [Hl | Hl]; [| lra].
  apply ratio_bounds.
  - apply num_nonneg, goldenHourPosts_nonneg.
  - apply num_le, goldenHourPosts_le.
  - now apply num_pos.
Qed.

Lemma engagementTotal_bounds data :
  nonNegative data -> 0 <= engagementTotal data /\ engagementTotal data <= 100.
Proof.
  intros (Hl & Hc & Hs & _).
  apply num_nonneg in Hl, Hs. pose proof (num_nonneg _ Hc) as Hc'.
  destruct (scaled_capped 25 (num (likesGiven data)) 50) as [? ?]; [lra .. |].
  destruct (scaled_capped 30 (num (commentsGiven data)) 20) as [? ?]; [lra .. |].
  destruct (scaled_capped 20 (num (sharesGiven data)) 10) as [? ?]; [lra .. |].
  destruct (replyRatio_bounds data Hc) as [? ?].
  unfold engagementTotal. lra.
Qed.

Lemma consistencyTotal_bounds data :
  0 <= consistencyTotal data /\ consistencyTotal data <= 100.
Proof.
  pose proof (frequencyVariance_nonneg data) as Hv.
  pose proof (Qabs_nonneg (num (postsThisWeek data) - num 5)) as Hd.
  destruct (floored_bounds 40 (frequencyVariance data * 40)) as [? ?]; [lra .. |].
  destruct (floored_bounds 30 (Qabs (num (postsThisWeek data) - num 5) * 5))
    as [? ?]; [lra .. |].
  destruct (timingRatio_bounds data) as [? ?].
  unfold consistencyTotal. lra.
Qed.

Lemma trendTotal_bounds data :
  nonNegative data -> 0 <= trendTotal data /\ trendTotal data <= 100.
Proof.
  intros (_ & _ & _ & _ & _ & _ & _ & Hh & Ht & He & _).
  apply num_nonneg in Hh, Ht, He.
  destruct (scaled_capped 35 (num (trendingHashtagsUsed data)) 5) as [? ?]; [lra .. |].
  destruct (scaled_capped 35 (num (trendingTopicsEngaged data)) 3) as [? ?]; [lra .. |].
  destruct (scaled_capped 30 (num (earlyTrendEngagement data)) 2) as [? ?]; [lra .. |].
  unfold trendTotal. lra.
Qed.

Lemma communityTotal_bounds data :
  nonNegative data -> 0 <= communityTotal data /\ communityTotal data <= 100.
Proof.
  intros (_ & _ & _ & _ & _ & _ & _ & _ & _ & _ & Hf & Hm & Hs & Hp).
  apply num_nonneg in Hf, Hm, Hs, Hp.
  destruct (scaled_capped 30 (num (followersGained data)) 10) as [? ?]; [lra .. |].
  destruct (scaled_capped 25 (num (mentionsReceived data)) 5) as [? ?]; [lra .. |].
  destruct (scaled_capped 25 (num (savedByOthers data)) 10) as [? ?]; [lra .. |].
  destruct (scaled_capped 20 (num (profileVisits data)) 50) as [? ?]; [lra .. |].
  unfold communityTotal. lra.
Qed.

Lemma rounded_in_range (x : Q) : 0 <= x /\ x <= 100 -> (0 <= Math_round x <= 100)%Z.
Proof. intros [H0 H1]. now apply Math_round_bounds. Qed.

Lemma replyRatio_mono data c1 c2 :
  (c1 <= c2)%Z ->
  replyRatio (withComments data c1) <= replyRatio (withComments data c2).
Proof.
  intros Hc. unfold replyRatio. cbn [repliesReceived commentsGiven withComments].
  destruct (Z.ltb_spec 0 (repliesReceived data)) as [Hr | Hr]; [| lra].
  apply Q.min_le_compat_l, ratio_mono; [now apply num_le | now apply num_pos].
Qed.

Lemma engagementTotal_mono data c1 c2 :
  (c1 <= c2)%Z ->
  engagementTotal (withComments data c1) <= engagementTotal (withComments data c2).
Proof.
  intros Hc. pose proof (replyRatio_mono data c1 c2 Hc) as Hr.
  assert (Hm : Qmin 30 (num c1 / 20 * 30) <= Qmin 30 (num c2 / 20 * 30)).
  { apply Q.min_le_compat_l, scaled_mono; [now apply num_le | lra ..]. }
  unfold engagementTotal. cbn [likesGiven commentsGiven sharesGiven withComments].
  lra.
Qed.

(** *** The claims on the platform score *)

Lemma allZero_zeroData data : allZero data -> data = zeroData.
Proof.
  destruct data. unfold allZero. cbn.
  intros (-> & -> & -> & -> & -> & -> & -> & -> & -> & -> & -> & -> & -> & -> & ->).
  reflexivity.
Qed.

(** C1, as stated, fails.  On the all-zero snapshot the engagement score is
    13, the consistency score is 5 and the overall score is 6: with no reply
    received the reply ratio is the constant 0.5, worth 12.5 points, and a
    week without posts is 5 posts away from the ideal, worth 30 - 25 points. *)
Lemma C1_zero_counters_counterexample :
  allZero zeroData
  /\ engagementScore (scoreOf sampleEnv threads zeroData) = 13%Z
  /\ consistencyScore (scoreOf sampleEnv threads zeroData) = 5%Z
  /\ overallScore (scoreOf sampleEnv threads zeroData) = 6%Z
  /\ ~ (overallScore (scoreOf sampleEnv threads zeroData) = 0%Z
        /\ engagementScore (scoreOf sampleEnv threads zeroData) = 0%Z
        /\ consistencyScore (scoreOf sampleEnv threads zeroData) = 0%Z
        /\ trendScore (scoreOf sampleEnv threads zeroData) = 0%Z
        /\ communityScore (scoreOf sampleEnv threads zeroData) = 0%Z).
Proof.
  split; [repeat split |].
  split; [reflexivity |]. split; [reflexivity |]. split; [reflexivity |].
  intros (H & _). vm_compute in H. discriminate H.
Qed.

(** C1, amended: for every snapshot whose 14 counters are zero and whose
    postTimings is empty, on every platform, calculatePlatformScore returns
    engagementScore 13, consistencyScore 5, trendScore 0, communityScore 0
    and overallScore 6. *)
Theorem C1_zero_counters_scores env platform data :
  allZero data ->
  engagementScore (scoreOf env platform data) = 13%Z
  /\ consistencyScore (scoreOf env platform data) = 5%Z
  /\ trendScore (scoreOf env platform data) = 0%Z
  /\ communityScore (scoreOf env platform data) = 0%Z
  /\ overallScore (scoreOf env platform data) = 6%Z.
Proof.
  intros H. rewrite (allZero_zeroData data H).
  unfold scoreOf.
  cbn [result_score calculatePlatformScore engagementScore consistencyScore
       trendScore communityScore overallScore].
  repeat split; vm_compute; reflexivity.
Qed.

(** The amended C1 at the all-zero snapshot, on instagram. *)
Lemma C1_zero_counters_scores_witness :
  allZero zeroData
  /\ engagementScore (scoreOf sampleEnv instagram zeroData) = 13%Z
  /\ consistencyScore (scoreOf sampleEnv instagram zeroData) = 5%Z
  /\ trendScore (scoreOf sampleEnv instagram zeroData) = 0%Z
  /\ communityScore (scoreOf sampleEnv instagram zeroData) = 0%Z
  /\ overallScore (scoreOf sampleEnv instagram zeroData) = 6%Z.
Proof.
  split; [repeat split |].
  apply (C1_zero_counters_scores sampleEnv instagram zeroData).
  repeat split.
Defined.





(** The scores of the sample snapshot: 88.5, 100, 78 and 89 before rounding,
    and 0.35 * 89 + 0.25 * 100 + 0.20 * 78 + 0.20 * 89 = 89.55 overall. *)
Example sampleData_scores :
  score (calculateEngagementScore sampleData) = 89%Z
  /\ score (calculateConsistencyScore sampleData) = 100%Z
  /\ score (calculateTrendScore sampleData) = 78%Z
  /\ score (calculateCommunityScore sampleData) = 89%Z
  /\ overallScore (scoreOf sampleEnv threads sampleData) = 90%Z.
Proof. repeat split; vm_compute; reflexivity. Qed.

(** C8: for every snapshot and every pair c1 <= c2, the engagement
    sub-score with commentsGiven = c2 is at least the one with
    commentsGiven = c1, the other inputs being the same.  The signs of the
    counters play no part. *)
Theorem C8_engagement_monotone_in_comments env platform data c1 c2 :
  (c1 <= c2)%Z ->
  (score (calculateEngagementScore (withComments data c1))
   <= score (calculateEngagementScore (withComments data c2)))%Z
  /\ (engagementScore (scoreOf env platform (withComments data c1))
      <= engagementScore (scoreOf env platform (withComments data c2)))%Z.
Proof.
  intros Hc. unfold scoreOf.
  cbn [result_score calculatePlatformScore engagementScore].
  rewrite !engagement_score.
  split; apply Math_round_mono, engagementTotal_mono, Hc.
Qed.

(** C8 at the sample snapshot, from 2 comments to 25. *)
Lemma C8_engagement_monotone_in_comments_witness :
  (2 <= 25)%Z
  /\ (score (calculateEngagementScore (withComments sampleData 2))
      <= score (calculateEngagementScore (withComments sampleData 25)))%Z.
Proof.
  split; [lia |].
  apply (C8_engagement_monotone_in_comments sampleEnv threads sampleData 2 25). lia.
Defined.

End ScoreCalculatorSpec.

(** ** The strategy manager *)
Module StrategyManagerSpec.

Import JSNumber JSDate JSDateFacts StrategyManager StrategyManagerTerms.

(** *** The health of the ratio *)

(** C4: for every real r the evaluation returns a status, by first-match
    precedence: healthy when 0.80 <= r <= 0.95, warning when r > 0.95,
    critical when r < 0.70, and acceptable otherwise, that is for
    0.70 <= r < 0.80. *)
Theorem C4_ratio_health_by_precedence (m : Manager) (r : Q) :
  ((8 # 10 <= r /\ r <= 95 # 100)%Q ->
     status (isRatioHealthy (managerWithRatio (Fin r) m)) = healthy)
  /\ ((95 # 100 < r)%Q ->
     status (isRatioHealthy (managerWithRatio (Fin r) m)) = warning)
  /\ ((r < 7 # 10)%Q ->
     status (isRatioHealthy (managerWithRatio (Fin r) m)) = critical)
  /\ ((7 # 10 <= r /\ r < 8 # 10)%Q ->
     status (isRatioHealthy (managerWithRatio (Fin r) m)) = acceptable)
  /\ (status (isRatioHealthy (managerWithRatio (Fin r) m)) = acceptable ->
     (7 # 10 <= r /\ r < 8 # 10)%Q).
Proof.
  unfold isRatioHealthy, managerWithRatio.
  cbn [strategy impressionRatio geb gtb ltb leb].
  destruct (Qle_bool (8 # 10) r) eqn:H1;
    destruct (Qle_bool r (95 # 100)) eqn:H2;
    destruct (Qle_bool r (7 # 10)) eqn:H3;
    destruct (Qle_bool (7 # 10) r) eqn:H4;
    cbn [andb negb status];
    repeat match goal with
    | H : Qle_bool _ _ = true |- _ => apply Qle_bool_iff in H
    | H : Qle_bool _ _ = false |- _ =>
        apply not_true_iff_false in H; rewrite Qle_bool_iff in H
    end;
    repeat split; intros; try reflexivity; try discriminate; lra.
Qed.

(** C4 at the default ratio 0.9. *)
Lemma C4_ratio_health_by_precedence_witness :
  (8 # 10 <= 9 # 10 /\ 9 # 10 <= 95 # 100)%Q
  /\ status (isRatioHealthy (managerWithRatio (Fin (9 # 10)) defaultManager)) = healthy.
Proof.
  split; [split; discriminate |].
  apply (C4_ratio_health_by_precedence defaultManager (9 # 10)).
  split; discriminate.
Defined.

(** *** The classification of a post *)

Lemma prefix_spec (kw content : string) :
  String.prefix kw content = true <-> exists post, content = kw +:+ post.
Proof.
  revert content. induction kw as [| a kw IH]; intros content.
  - split; [intros _; now exists content | now destruct content].
  - destruct content as [| b content]; cbn.
    + split; [discriminate | intros [post H]; discriminate H].
    + destruct (ascii_dec a b) as [-> | Hab].
      * rewrite IH. split.
        -- intros [post ->]. now exists post.
        -- intros [post H]. injection H as ->. now exists post.
      * split; [discriminate |].
        intros [post H]. injection H as -> _. now destruct Hab.
Qed.

Lemma includes_unfold (content kw : string) :
  includes content kw
  = String.prefix kw content
    || match content with
       | EmptyString => false
       | String _ rest => includes rest kw
       end.
Proof. destruct content; reflexivity. Qed.

(** [includes] decides the occurrence of a substring. *)
Lemma includes_spec (content kw : string) :
  includes content kw = true <-> occursIn kw content.
Proof.
  split.
  - induction content as [| c rest IH]; rewrite includes_unfold;
      intros H; apply orb_true_iff in H as [H | H].
    + apply prefix_spec in H as [post ->]. now exists EmptyString, post.
    + discriminate H.
    + apply prefix_spec in H as [post ->]. now exists EmptyString, post.
    + destruct (IH H) as (pre & post & ->). now exists (String c pre), post.
  - intros (pre & post & ->). induction pre as [| c pre IH];
      rewrite includes_unfold; apply orb_true_iff.
    + left. apply prefix_spec. now exists post.
    + right. exact IH.
Qed.

Lemma count_filter_includes (content : string) (kws : list string) :
  countOccurring content kws
    (Z.of_nat (length (List.filter (fun kw => includes content kw) kws))).
Proof.
  induction kws as [| kw kws IH]; [constructor |].
  cbn [List.filter]. destruct (includes content kw) eqn:H.
  - cbn [length]. rewrite Nat2Z.inj_succ, <- Z.add_1_r.
    constructor; [now apply includes_spec | exact IH].
  - constructor; [| exact IH].
    intros Hocc. apply includes_spec in Hocc. congruence.
Qed.

(** The count is determined by the text. *)
Lemma countOccurring_unique content kws n1 n2 :
  countOccurring content kws n1 -> countOccurring content kws n2 -> n1 = n2.
Proof.
  intros H1. revert n2. induction H1; intros n2 H2; inversion H2; subst;
    try reflexivity; try contradiction; try (f_equal; auto); auto.
Qed.

(** No keyword is listed twice, so a count of list entries is a count of
    keywords. *)
Lemma keywords_distinct : NoDup impressionKeywords /\ NoDup expressionKeywords.
Proof.
  split.
  - apply (bool_decide_unpack (NoDup impressionKeywords)). vm_compute. exact I.
  - apply (bool_decide_unpack (NoDup expressionKeywords)). vm_compute. exact I.
Qed.

(** C5: impressionScore and expressionScore are the numbers of keywords of
    the two fixed lists that occur in the text as substrings; suggestedMode
    is 'impression' exactly when impressionScore >= expressionScore;
    confidence is |impressionScore - expressionScore| / 5 and is not
    clamped: a text with six impression keywords has confidence 6/5.  The
    text of three impression keywords is classified impression, 3, 0, 0.6. *)
Theorem C5_classifyPost_counts_keywords (content : string) :
  countOccurring content impressionKeywords (impressionScore (classifyPost content))
  /\ countOccurring content expressionKeywords (expressionScore (classifyPost content))
  /\ (suggestedMode (classifyPost content) = impression
      <-> expressionScore (classifyPost content) <= impressionScore (classifyPost content))
  /\ (suggestedMode (classifyPost content) = expression
      <-> impressionScore (classifyPost content) < expressionScore (classifyPost content))
  /\ (confidence (classifyPost content)
      == Qabs (inject_Z (impressionScore (classifyPost content))
               - inject_Z (expressionScore (classifyPost content))) / 5)%Q
  /\ classifyPost "方法 コツ ポイント" = mkClass impression (3 # 5) 0 3
  /\ (3 # 5 == 6 # 10)%Q
  /\ (1 < confidence (classifyPost "方法コツポイント解説紹介おすすめ"))%Q.
Proof.
  split; [apply count_filter_includes |].
  split; [apply count_filter_includes |].
  unfold classifyPost. cbn [suggestedMode expressionScore impressionScore confidence].
  set (i := Z.of_nat (length (List.filter _ impressionKeywords))).
  set (e := Z.of_nat (length (List.filter _ expressionKeywords))).
  split; [| split].
  - destruct (Z.geb_spec i e); split; (lia || discriminate || reflexivity).
  - destruct (Z.geb_spec i e); split; (lia || discriminate || reflexivity).
  - split; [reflexivity |].
    split; [vm_compute; reflexivity |].
    split; reflexivity.
Qed.


(** *** The weekly schedule *)

Lemma includesZ_In (xs : list Z) (x : Z) : includesZ xs x = true <-> In x xs.
Proof.
  unfold includesZ. rewrite existsb_exists. split.
  - intros (y & Hy & Heq). apply Z.eqb_eq in Heq. now subst.
  - intros H. exists x. split; [exact H | apply Z.eqb_refl].
Qed.


Lemma schedule_lookup_lt (m : Manager) (startDate : Date) (i : nat) :
  (i < 7)%nat ->
  generateWeeklySchedule m startDate !! i
  = Some (scheduleItem m startDate (Z.of_nat i)).
Proof.
  intros H. unfold generateWeeklySchedule.
  rewrite list_lookup_fmap, (lookup_seq_lt 0 7 i H). reflexivity.
Qed.



(** The schedule of the week of Sunday 7 January 2024 with the default
    expression days, Sunday and Saturday. *)
Example schedule_2024_01_07 :
  map (fun item => (Day (localTime (date item)), dayOfWeek item, isExpressionDay item))
    (generateWeeklySchedule defaultManager sunday_2024_01_07)
  = [(19729, 0, true); (19730, 1, false); (19731, 2, false); (19732, 3, false);
     (19733, 4, false); (19734, 5, false); (19735, 6, true)].
Proof. vm_compute. reflexivity. Qed.

(** *** The ratios *)


(** A strategy whose ratios already sum to 1 is left as it is. *)
Lemma normalizeRatios_fixed (m : Manager) (a b : Q) :
  impressionRatio (strategy m) = Fin a ->
  expressionRatio (strategy m) = Fin b ->
  (a + b == 1)%Q ->
  normalizeRatios m = m.
Proof.
  intros Ha Hb Hsum. unfold normalizeRatios. rewrite Ha, Hb.
  cbn [add strict_neq]. apply Qeq_bool_iff in Hsum. now rewrite Hsum.
Qed.

(** The setter clamps every argument that is a number, infinite ones
    included, into [0.5, 1] and sets the other ratio to the complement. *)
Lemma setImpressionRatio_clamps (m : Manager) (ratio : number) :
  ratio <> NaN ->
  exists c : Q,
    impressionRatio (strategy (setImpressionRatio m ratio)) = Fin c
    /\ expressionRatio (strategy (setImpressionRatio m ratio)) = Fin (1 + - c)
    /\ (5 # 10 <= c /\ c <= 1)%Q
    /\ (c + (1 + - c) == 1)%Q.
Proof.
  intros Hnan. unfold setImpressionRatio.
  cbn [strategy impressionRatio expressionRatio].
  destruct ratio as [r | | |]; [| | | contradiction].
  - cbn [min leb]. destruct (Qle_bool 1 r) eqn:H1.
    + exists 1%Q. repeat split; try discriminate; ring.
    + cbn [max leb]. destruct (Qle_bool (5 # 10) r) eqn:H2.
      * exists r. cbn [sub neg add]. repeat split; try ring.
        -- now apply Qle_bool_iff.
        -- apply not_true_iff_false in H1. rewrite Qle_bool_iff in H1. lra.
      * exists (5 # 10)%Q. repeat split; try discriminate; ring.
  - exists 1%Q. repeat split; try discriminate; ring.
  - exists (5 # 10)%Q. repeat split; try discriminate; ring.
Qed.

(** Not a number in, not a number out. *)
Example setImpressionRatio_NaN :
  impressionRatio (strategy (setImpressionRatio defaultManager NaN)) = NaN.
Proof. reflexivity. Qed.

Lemma spread_allFields (base s : EngagementStrategy) :
  spread base (allFields s) = s.
Proof. now destruct s. Qed.

(** Export followed by import, for a text codec that gives the exported
    strategy back, normalises the strategy once more. *)
Lemma import_export (stringify : EngagementStrategy -> string)
    (parse : string -> option PartialStrategy) (m m' : Manager) :
  parse (stringify (strategy m)) = Some (allFields (strategy m)) ->
  importStrategy parse m' (exportStrategy stringify m) = inl (normalizeRatios m).
Proof.
  intros H. unfold importStrategy, exportStrategy.
  rewrite H, spread_allFields. now destruct m.
Qed.

(** C7, the failing input.  The constructor and importStrategy, given the
    ratios 0 and 0, find the sum 0, which is not 1, and divide both ratios
    by it: both become NaN, and so does their sum, which is not 1. *)
Theorem C7_zero_sum_is_not_normalized :
  strategy (new_StrategyManager zeroRatios)
  = mkStrategy NaN NaN [0; 6] (mkComment true true 10 true)
  /\ add (impressionRatio (strategy (new_StrategyManager zeroRatios)))
         (expressionRatio (strategy (new_StrategyManager zeroRatios))) = NaN
  /\ strict_neq
       (add (impressionRatio (strategy (new_StrategyManager zeroRatios)))
            (expressionRatio (strategy (new_StrategyManager zeroRatios))))
       (Fin 1) = true
  /\ importStrategy (fun _ => Some zeroRatios) defaultManager "strategy.json"
     = inl (mkManager (mkStrategy NaN NaN [0; 6] (mkComment true true 10 true))).
Proof.
  assert (Hnorm : normalizeRatios (mkManager (spread DEFAULT_STRATEGY zeroRatios))
                  = mkManager (mkStrategy NaN NaN [0; 6] (mkComment true true 10 true))).
  { unfold normalizeRatios. cbn [spread DEFAULT_STRATEGY zeroRatios strategy default
      impressionRatio expressionRatio p_impressionRatio p_expressionRatio
      p_weeklyExpressionDays p_commentStrategy weeklyExpressionDays commentStrategy
      from_option id].
    (* total = 0 + 0, and 0 !== 1 *)
    change (strict_neq (add (Fin 0) (Fin 0)) (Fin 1)) with true. cbv iota.
    (* 0 / 0 *)
    change (div (Fin 0) (add (Fin 0) (Fin 0))) with NaN. reflexivity. }
  unfold new_StrategyManager, importStrategy. rewrite Hnorm.
  cbn [strategy impressionRatio expressionRatio]. repeat split.
Qed.

(** The ratios 0.6 and 0.6 of the test suite are normalised to halves. *)
Example normalize_06_06 :
  exists a b : Q,
    strategy (new_StrategyManager
                (mkPartial (Some (Fin (6 # 10))) (Some (Fin (6 # 10))) None None))
    = mkStrategy (Fin a) (Fin b) [0; 6] (mkComment true true 10 true)
    /\ (a == 1 # 2)%Q /\ (b == 1 # 2)%Q.
Proof. eexists _, _. split; [vm_compute; reflexivity |]. split; reflexivity. Qed.

End StrategyManagerSpec.

(** ** The trend detector *)
Module TrendDetectorSpec.

Import TrendDetector TrendDetectorTerms.

#[local] Arguments String.append !_ _ / : simpl nomatch.

(** *** The cache key *)

Lemma limitOr10_spec (l : option Z) :
  limitOr10 l = match l with
                | None => 10
                | Some n => if n =? 0 then 10 else n
                end.
Proof. destruct l as [[| n | n] |]; reflexivity. Qed.

Lemma Z_to_int_not_nil z :
  Z.to_int z <> Decimal.Pos Decimal.Nil /\ Z.to_int z <> Decimal.Neg Decimal.Nil.
Proof.
  destruct z as [| p | p]; cbn; split; try discriminate.
  - intros H. injection H as H. revert H. apply DecimalPos.Unsigned.to_uint_nonnil.
  - intros H. injection H as H. revert H. apply DecimalPos.Unsigned.to_uint_nonnil.
Qed.

Lemma show_Z_inj a b : show_Z a = show_Z b -> a = b.
Proof.
  unfold show_Z. intros H.
  destruct (Z_to_int_not_nil a) as [Ha1 Ha2].
  destruct (Z_to_int_not_nil b) as [Hb1 Hb2].
  pose proof (NilZero.isi (Z.to_int a) Ha1 Ha2) as Ia.
  pose proof (NilZero.isi (Z.to_int b) Hb1 Hb2) as Ib.
  rewrite H in Ia. rewrite Ia in Ib. injection Ib as Hab.
  rewrite <- (DecimalZ.of_to a), <- (DecimalZ.of_to b). now rewrite Hab.
Qed.

Lemma platform_prefix_inj (p1 p2 : Platform) (s1 s2 : string) :
  Platform_str p1 +:+ "-" +:+ s1 = Platform_str p2 +:+ "-" +:+ s2 ->
  p1 = p2 /\ s1 = s2.
Proof.
  destruct p1, p2; cbn; intros H;
    solve [discriminate H | injection H as H; split; [reflexivity | exact H]].
Qed.

Lemma category_prefix_inj (c1 c2 : option TrendCategory) (s1 s2 : string) :
  categoryOrAll c1 +:+ "-" +:+ s1 = categoryOrAll c2 +:+ "-" +:+ s2 ->
  c1 = c2 /\ s1 = s2.
Proof.
  destruct c1 as [[] |], c2 as [[] |]; cbn; intros H;
    solve [discriminate H | injection H as H; split; [reflexivity | exact H]].
Qed.

(** Two requests have the same key exactly when they agree on the
    platform, on the category and on [limit || 10]. *)
Lemma getCacheKey_inj (r1 r2 : TrendDetectionRequest) :
  getCacheKey r1 = getCacheKey r2 ->
  req_platform r1 = req_platform r2
  /\ req_category r1 = req_category r2
  /\ limitOr10 (limit r1) = limitOr10 (limit r2).
Proof.
  unfold getCacheKey. intros H.
  apply platform_prefix_inj in H as [Hp H].
  apply category_prefix_inj in H as [Hc H].
  apply show_Z_inj in H. now repeat split.
Qed.


(** *** A call that finds a fresh entry, and a call that generates *)

Lemma detectTrends_hit (d : Detector) (env : Env) (req : TrendDetectionRequest)
    (data : TrendDetectionResponse) (timestamp : Z) :
  cachedTrends d !! getCacheKey req = Some (data, timestamp) ->
  nowCheck env - timestamp < cacheExpiryMs ->
  detectTrends d env req = mkOutcome (inl data) d [].
Proof.
  intros Hc Hage. unfold detectTrends. rewrite Hc.
  apply Z.ltb_lt in Hage. now rewrite Hage.
Qed.

(** A call returns a cached response, or the response of [detectFresh]. *)
Lemma detectTrends_cases (d : Detector) (env : Env) (req : TrendDetectionRequest) :
  (exists data timestamp,
      cachedTrends d !! getCacheKey req = Some (data, timestamp)
      /\ detectTrends d env req = mkOutcome (inl data) d [])
  \/ detectTrends d env req = detectFresh d env req.
Proof.
  unfold detectTrends.
  destruct (cachedTrends d !! getCacheKey req) as [[data timestamp] |] eqn:Hc;
    [| now right].
  destruct (nowCheck env - timestamp <? cacheExpiryMs); [left | now right].
  now exists data, timestamp.
Qed.

(** A [detectFresh] that returns a response has stored it under the key. *)
Lemma detectFresh_returns (d : Detector) (env : Env) (req : TrendDetectionRequest)
    (response : TrendDetectionResponse) :
  returned (detectFresh d env req) = inl response ->
  after (detectFresh d env req)
  = mkDetector (client d) (apiKey d)
      (<[getCacheKey req := (response, nowStore env)]> (cachedTrends d))
  /\ trends response
     = fst (generateTrendingTopics d env (req_platform req) (req_category req)
              (default 10 (limit req)))
  /\ trace (detectFresh d env req)
     = snd (generateTrendingTopics d env (req_platform req) (req_category req)
              (default 10 (limit req))).
Proof.
  unfold detectFresh.
  destruct (generateTrendingTopics d env (req_platform req) (req_category req)
              (default 10 (limit req))) as [ts events].
  destruct (if notFalse (includeHashtags req) then analyzeHashtags env (req_platform req) ts
            else inl []) as [tags | e]; cbn [returned after trace fst snd].
  - intros H. injection H as <-. now repeat split.
  - discriminate.
Qed.

Lemma generate_never_silent (d : Detector) (env : Env) p c l :
  snd (generateTrendingTopics d env p c l) <> [].
Proof. unfold generateTrendingTopics. now destruct (client d). Qed.

(** [detectFresh] always makes a generation call. *)
Lemma detectFresh_generates (d : Detector) (env : Env) (req : TrendDetectionRequest) :
  In (Generate (req_platform req) (req_category req) (default 10 (limit req)))
    (trace (detectFresh d env req)).
Proof.
  unfold detectFresh, generateTrendingTopics.
  destruct (client d);
    destruct (if notFalse (includeHashtags req) then _ else _); cbn; auto.
Qed.

(** After a call that returned, the response is in the cache under the key
    of the request. *)
Lemma detectTrends_caches (d : Detector) (env : Env) (req : TrendDetectionRequest)
    (response : TrendDetectionResponse) :
  returned (detectTrends d env req) = inl response ->
  exists timestamp,
    cachedTrends (after (detectTrends d env req)) !! getCacheKey req
    = Some (response, timestamp).
Proof.
  destruct (detectTrends_cases d env req) as [(data & ts & Hc & ->) | ->].
  - cbn [returned after]. intros H. injection H as <-. now exists ts.
  - intros H. apply detectFresh_returns in H as (-> & _).
    exists (nowStore env). cbn [cachedTrends]. apply lookup_insert_eq.
Qed.

(** An entry that is 30 minutes old or older is not used: the call
    generates again. *)
Lemma detectTrends_expired (d : Detector) (env : Env) (req : TrendDetectionRequest)
    (data : TrendDetectionResponse) (timestamp : Z) :
  cachedTrends d !! getCacheKey req = Some (data, timestamp) ->
  cacheExpiryMs <= nowCheck env - timestamp ->
  detectTrends d env req = detectFresh d env req.
Proof.
  intros Hc Hage. unfold detectTrends. rewrite Hc.
  apply Z.ltb_ge in Hage. now rewrite Hage.
Qed.




(** *** The mock topics *)

Lemma In_firstn {A} (n : nat) (l : list A) (x : A) : In x (firstn n l) -> In x l.
Proof.
  revert l. induction n as [| n IH]; intros [| y l]; cbn; try tauto.
  intros [-> | H]; [now left | right; now apply IH].
Qed.

Lemma In_slice0 {A} (l : list A) (n : Z) (x : A) : In x (slice0 l n) -> In x l.
Proof. unfold slice0. destruct (n <? 0); apply In_firstn. Qed.

Lemma length_slice0_le {A} (l : list A) (n : Z) :
  (length (slice0 l n) <= length l)%nat.
Proof. unfold slice0. destruct (n <? 0); rewrite length_firstn; lia. Qed.

Lemma length_slice0_limit {A} (l : list A) (n : Z) :
  0 <= n -> Z.of_nat (length (slice0 l n)) <= n.
Proof.
  intros Hn. unfold slice0. destruct (Z.ltb_spec n 0); [lia |].
  rewrite length_firstn. lia.
Qed.

Lemma mockTopics_length now p : (length (mockTopics now p) <= 5)%nat.
Proof. destruct p; cbn; lia. Qed.

Lemma mockTopics_platform now p t : In t (mockTopics now p) -> platform t = p.
Proof. destruct p; cbn; intros H; repeat destruct H as [<- | H]; tauto. Qed.

Lemma mockTopics_hashtags now p t :
  In t (mockTopics now p) -> relatedHashtags t <> None.
Proof.
  destruct p; cbn; intros H; repeat destruct H as [<- | H]; try discriminate;
    contradiction.
Qed.

Lemma TrendCategory_eqb_eq a b : TrendCategory_eqb a b = true <-> a = b.
Proof. destruct a, b; cbn; split; (reflexivity || discriminate). Qed.

(** The mock topics of a request: entries of the table of the platform,
    of the category when one is given, not more than the table has. *)
Lemma getMockTrendingTopics_sound env p c l t :
  In t (getMockTrendingTopics env p c l) ->
  In t (mockTopics (nowGenerate env) p)
  /\ platform t = p
  /\ (forall c', c = Some c' -> category t = c').
Proof.
  unfold getMockTrendingTopics. intros H. apply In_slice0 in H.
  assert (Hin : In t (mockTopics (nowGenerate env) p)).
  { destruct c; [apply filter_In in H as [H _] |]; exact H. }
  split; [exact Hin |]. split; [now apply mockTopics_platform in Hin |].
  intros c' ->. apply filter_In in H as [_ H]. now apply TrendCategory_eqb_eq.
Qed.

Lemma getMockTrendingTopics_length env p c l :
  (length (getMockTrendingTopics env p c l) <= 5)%nat
  /\ (0 <= l -> Z.of_nat (length (getMockTrendingTopics env p c l)) <= l).
Proof.
  unfold getMockTrendingTopics. split.
  - etransitivity; [apply length_slice0_le |].
    destruct c; [etransitivity; [apply List.filter_length_le |] |];
      apply mockTopics_length.
  - apply length_slice0_limit.
Qed.

(** The mock topics are exactly the table filtered and cut. *)
Lemma getMockTrendingTopics_filtered env p c l :
  getMockTrendingTopics env p (Some c) l
  = slice0 (List.filter (fun t => TrendCategory_eqb (category t) c)
              (mockTopics (nowGenerate env) p)) l
  /\ getMockTrendingTopics env p None l = slice0 (mockTopics (nowGenerate env) p) l.
Proof. split; reflexivity. Qed.

(** *** Hashtag analysis of topics that carry their tags *)

Lemma collectHashtags_total (ts : list TrendingTopic) (acc : list string) :
  (forall t, In t ts -> relatedHashtags t <> None) ->
  exists tags, collectHashtags ts acc = Some tags.
Proof.
  revert acc. induction ts as [| t ts IH]; intros acc H; cbn.
  - now exists acc.
  - destruct (relatedHashtags t) as [tags |] eqn:Ht.
    + apply IH. intros t' Hin. apply H. now right.
    + exfalso. apply (H t); [now left | exact Ht].
Qed.

Lemma analyzeHashtags_total env p (ts : list TrendingTopic) :
  (forall t, In t ts -> relatedHashtags t <> None) ->
  exists tags, analyzeHashtags env p ts = inl tags.
Proof.
  intros H. unfold analyzeHashtags.
  destruct (collectHashtags_total ts [] H) as [tags ->]. eauto.
Qed.

(** A topic without an array of tags makes the analysis throw. *)
Lemma analyzeHashtags_throws env p (t : TrendingTopic) (ts : list TrendingTopic) :
  relatedHashtags t = None -> analyzeHashtags env p (t :: ts) = inr TypeError.
Proof. intros H. unfold analyzeHashtags. cbn. now rewrite H. Qed.

(** When generation yields the mock topics, [detectFresh] returns. *)
Lemma detectFresh_mock (d : Detector) (env : Env) (req : TrendDetectionRequest) :
  fst (generateTrendingTopics d env (req_platform req) (req_category req)
         (default 10 (limit req)))
  = getMockTrendingTopics env (req_platform req) (req_category req)
      (default 10 (limit req)) ->
  exists response,
    returned (detectFresh d env req) = inl response
    /\ trends response
       = getMockTrendingTopics env (req_platform req) (req_category req)
           (default 10 (limit req)).
Proof.
  unfold detectFresh.
  destruct (generateTrendingTopics d env (req_platform req) (req_category req)
              (default 10 (limit req))) as [ts events].
  cbn [fst]. intros ->.
  destruct (notFalse (includeHashtags req)).
  - destruct (analyzeHashtags_total env (req_platform req)
                (getMockTrendingTopics env (req_platform req) (req_category req)
                   (default 10 (limit req)))) as [tags ->].
    + intros t Ht. apply getMockTrendingTopics_sound in Ht as [Ht _].
      now apply mockTopics_hashtags in Ht.
    + cbn [returned]. eauto.
  - cbn [returned]. eauto.
Qed.

(** *** A reply of the model that holds no array *)

Lemma append_assoc (a b c : string) : (a +:+ b) +:+ c = a +:+ b +:+ c.
Proof. induction a as [| x a IH]; cbn; [reflexivity | now rewrite IH]. Qed.

Lemma fromFirstOpen_Some (s rest : string) :
  fromFirstOpen s = Some rest ->
  exists pre, s = pre +:+ String "[" rest /\ ~ hasChar "[" pre.
Proof.
  revert rest. induction s as [| c s IH]; intros rest H; [discriminate H |].
  cbn in H. destruct (Ascii.eqb_spec c "[") as [-> | Hc].
  - injection H as <-. exists EmptyString. split; [reflexivity |].
    intros ([| x pre] & post & Hpre); discriminate Hpre.
  - destruct (IH rest H) as (pre & -> & Hno). exists (String c pre).
    split; [reflexivity |].
    intros ([| x pre'] & post & Hpre); injection Hpre as Hx Hrest.
    + now destruct Hc.
    + apply Hno. now exists pre', post.
Qed.

Lemma fromFirstOpen_app (pre x : string) :
  exists y, fromFirstOpen (pre +:+ String "[" x) = Some (y +:+ x).
Proof.
  induction pre as [| c pre IH]; cbn.
  - now exists EmptyString.
  - destruct (Ascii.eqb c "["); [| exact IH].
    exists (pre +:+ String "[" EmptyString). now rewrite append_assoc.
Qed.

Lemma throughLastClose_Some (s m : string) :
  throughLastClose s = Some m ->
  exists mid post,
    m = mid +:+ String "]" EmptyString /\ s = m +:+ post /\ ~ hasChar "]" post.
Proof.
  revert m. induction s as [| c s IH]; intros m H; [discriminate H |].
  cbn in H. destruct (throughLastClose s) as [m' |] eqn:Hs.
  - injection H as <-. destruct (IH m' eq_refl) as (mid & post & -> & -> & Hno).
    now exists (String c mid), post.
  - destruct (Ascii.eqb_spec c "]") as [-> | Hc]; [| discriminate H].
    injection H as <-. exists EmptyString, s. split; [reflexivity |].
    split; [reflexivity |].
    intros (pre & post & ->). clear IH.
    induction pre as [| x pre IHpre]; cbn in Hs.
    + destruct (throughLastClose post); discriminate Hs.
    + destruct (throughLastClose (pre +:+ String "]" post)); [discriminate Hs |].
      now apply IHpre.
Qed.

Lemma throughLastClose_app (y z : string) :
  throughLastClose (y +:+ String "]" z) <> None.
Proof.
  induction y as [| c y IH]; cbn.
  - now destruct (throughLastClose z).
  - now destruct (throughLastClose (y +:+ String "]" z)).
Qed.

(** [jsonMatch] is the match of the pattern: it runs from the first
    opening bracket of the text to the last closing bracket after it, and
    there is none exactly when no closing bracket follows an opening one. *)
Lemma jsonMatch_Some (s m : string) :
  jsonMatch s = Some m ->
  exists pre mid post,
    s = pre +:+ m +:+ post
    /\ m = String "[" (mid +:+ String "]" EmptyString)
    /\ ~ hasChar "[" pre /\ ~ hasChar "]" post.
Proof.
  unfold jsonMatch. destruct (fromFirstOpen s) as [rest |] eqn:Hopen;
    [| discriminate].
  destruct (throughLastClose rest) as [m' |] eqn:Hclose; [| discriminate].
  cbn. intros H. injection H as <-.
  apply fromFirstOpen_Some in Hopen as (pre & -> & Hpre).
  apply throughLastClose_Some in Hclose as (mid & post & -> & -> & Hpost).
  exists pre, mid, post. now repeat split.
Qed.

Lemma jsonMatch_None (s : string) :
  jsonMatch s = None <->
  ~ exists pre mid post, s = pre +:+ String "[" (mid +:+ String "]" post).
Proof.
  split.
  - intros H (pre & mid & post & ->). unfold jsonMatch in H.
    destruct (fromFirstOpen_app pre (mid +:+ String "]" post)) as [y Hy].
    rewrite Hy, <- append_assoc in H.
    destruct (throughLastClose ((y +:+ mid) +:+ String "]" post)) eqn:Hc;
      [discriminate H |].
    now apply throughLastClose_app in Hc.
  - intros H. destruct (jsonMatch s) as [m |] eqn:Hm; [| reflexivity].
    destruct H. apply jsonMatch_Some in Hm as (pre & mid & post & -> & -> & _).
    exists pre, mid, post. cbn. now rewrite append_assoc.
Qed.

Lemma askModel_malformed (env : Env) p c l (block : ContentBlock)
    (rest : list ContentBlock) :
  llm env = Resolves (block :: rest) ->
  malformed env (responseText block) ->
  default (getMockTrendingTopics env p c l) (askModel env p c l)
  = getMockTrendingTopics env p c l.
Proof.
  intros Hllm Hbad. unfold askModel. rewrite Hllm.
  destruct Hbad as [-> | (matched & -> & ->)]; reflexivity.
Qed.

(** Whatever goes wrong inside the [try], the mock topics are returned:
    generation by the model never throws. *)
Lemma generateTrendingTopics_total_on_failure (d : Detector) (env : Env) p c l :
  askModel env p c l = None ->
  fst (generateTrendingTopics d env p c l) = getMockTrendingTopics env p c l.
Proof.
  intros H. unfold generateTrendingTopics. destruct (client d); [| reflexivity].
  cbn [fst]. now rewrite H.
Qed.

(** C9: when the text of the reply (empty when the first block is no text)
    holds no match of the array pattern, or the matched text does not parse,
    trend generation returns the mock
    topics of the platform, filtered by the category and cut at the limit,
    and detectTrends returns a response: nothing is thrown to its caller.
    A call that generates returns exactly those mock topics. *)
Theorem C9_malformed_reply_falls_back
    (d : Detector) (env : Env) (req : TrendDetectionRequest)
    (key : string) (block : ContentBlock) (rest : list ContentBlock) :
  client d = Some key ->
  llm env = Resolves (block :: rest) ->
  malformed env (responseText block) ->
  (forall p c l,
      fst (generateTrendingTopics d env p c l) = getMockTrendingTopics env p c l
      /\ getMockTrendingTopics env p c l
         = slice0 (match c with
                   | Some c' =>
                       List.filter (fun t => TrendCategory_eqb (category t) c')
                         (mockTopics (nowGenerate env) p)
                   | None => mockTopics (nowGenerate env) p
                   end) l)
  /\ (exists response, returned (detectTrends d env req) = inl response)
  /\ (exists response,
        returned (detectFresh d env req) = inl response
        /\ trends response
           = getMockTrendingTopics env (req_platform req) (req_category req)
               (default 10 (limit req))).
Proof.
  intros Hclient Hllm Hbad.
  assert (Hgen : forall p c l,
             fst (generateTrendingTopics d env p c l)
             = getMockTrendingTopics env p c l).
  { intros p c l. unfold generateTrendingTopics. rewrite Hclient. cbn [fst].
    now apply askModel_malformed with (block := block) (rest := rest). }
  split; [intros p c l; split; [apply Hgen | now destruct c] |].
  pose proof (detectFresh_mock d env req (Hgen _ _ _)) as Hfresh.
  split; [| exact Hfresh].
  destruct (detectTrends_cases d env req) as [(data & ts & _ & ->) | ->].
  - now exists data.
  - destruct Hfresh as (response & Hret & _). now exists response.
Qed.

(** C9 at a reply of prose with no bracket in it. *)
Lemma C9_malformed_reply_falls_back_witness :
  client keyedDetector = Some "sk-sample"
  /\ malformed sampleEnv "I cannot list trends right now."
  /\ exists response,
       returned (detectFresh keyedDetector sampleEnv (request twitter (Some news) None))
       = inl response
       /\ trends response
          = getMockTrendingTopics sampleEnv twitter (Some news) 10.
Proof.
  split; [reflexivity |].
  assert (Hbad : malformed sampleEnv "I cannot list trends right now.")
    by (left; reflexivity).
  split; [exact Hbad |].
  apply (C9_malformed_reply_falls_back keyedDetector sampleEnv
           (request twitter (Some news) None) "sk-sample"
           (TextBlock "I cannot list trends right now.") [] eq_refl eq_refl Hbad).
Defined.

(** A reply that parses to a topic without an array of tags is not
    recovered: the hashtag analysis throws outside the [try]. *)
Example parsed_topic_without_tags_throws :
  returned
    (detectTrends keyedDetector
       (mkEnv 1000 1001 1002 1003 (Resolves [TextBlock "[{}]"])
          (fun _ => Some [JTopic (mkRaw "x" other 0 0 s_neutral None 0 0)])
          (fun _ => (1 # 2)%Q))
       (request threads None None))
  = inr TypeError.
Proof. vm_compute. reflexivity. Qed.

(** *** Without an API key *)

Lemma detectFresh_after (d : Detector) (env : Env) (req : TrendDetectionRequest) :
  after (detectFresh d env req) = d
  \/ exists response,
       returned (detectFresh d env req) = inl response
       /\ after (detectFresh d env req)
          = mkDetector (client d) (apiKey d)
              (<[getCacheKey req := (response, nowStore env)]> (cachedTrends d)).
Proof.
  destruct (returned (detectFresh d env req)) as [response | e] eqn:Hret.
  - right. exists response. split; [reflexivity |].
    now apply detectFresh_returns in Hret as (-> & _).
  - left. revert Hret. unfold detectFresh.
    destruct (generateTrendingTopics _ _ _ _ _) as [ts events].
    now destruct (if notFalse (includeHashtags req) then _ else _).
Qed.

Lemma detectTrends_client (d : Detector) (env : Env) (req : TrendDetectionRequest) :
  client (after (detectTrends d env req)) = client d.
Proof.
  destruct (detectTrends_cases d env req) as [(data & ts & _ & ->) | ->];
    [reflexivity |].
  now destruct (detectFresh_after d env req) as [-> | (r & _ & ->)].
Qed.

Lemma generate_without_client (d : Detector) (env : Env) p c l :
  client d = None ->
  generateTrendingTopics d env p c l
  = (getMockTrendingTopics env p c l, [Generate p c l]).
Proof. intros H. unfold generateTrendingTopics. now rewrite H. Qed.

(** The cache of a detector that never had a key holds mock topics only. *)
Lemma reachable_cacheFromMock (d : Detector) :
  reachable d -> client d = None -> cacheFromMock d.
Proof.
  induction 1 as [key | d key _ _ | d env req Hd IH | d Hd IH]; intros Hclient.
  - intros k data ts H. cbn in H. now rewrite lookup_empty in H.
  - discriminate Hclient.
  - rewrite detectTrends_client in Hclient. specialize (IH Hclient).
    destruct (detectTrends_cases d env req) as [(data & ts & _ & ->) | ->];
      [exact IH |].
    destruct (detectFresh_after d env req) as [-> | (r & Hret & ->)]; [exact IH |].
    intros k data ts. cbn [cachedTrends].
    destruct (decide (getCacheKey req = k)) as [Heq | Hne].
    + subst k. rewrite lookup_insert_eq. intros H. injection H as <- <-.
      exists env, req. split; [reflexivity |].
      apply detectFresh_returns in Hret as (_ & -> & _).
      now rewrite generate_without_client.
    + rewrite lookup_insert_ne by exact Hne. apply IH.
  - intros k data ts H. cbn in H. now rewrite lookup_empty in H.
Qed.

Lemma validLimit_limitOr10 (req : TrendDetectionRequest) :
  validLimit req ->
  limitOr10 (limit req) = default 10 (limit req) /\ 1 <= default 10 (limit req).
Proof.
  rewrite limitOr10_spec. intros [-> | (n & -> & Hn)]; cbn; [lia |].
  destruct (Z.eqb_spec n 0); lia.
Qed.

(** The topics cached under the key of a valid request are within its
    limit, also when the request that cached them had another limit. *)
Lemma cached_length_within_limit (env0 : Env) (req0 req : TrendDetectionRequest) :
  validLimit req ->
  limitOr10 (limit req0) = limitOr10 (limit req) ->
  Z.of_nat (length (getMockTrendingTopics env0 (req_platform req0)
                      (req_category req0) (default 10 (limit req0))))
  <= default 10 (limit req).
Proof.
  intros Hvalid Hlim.
  destruct (validLimit_limitOr10 req Hvalid) as [Heq Hpos].
  rewrite Heq, limitOr10_spec in Hlim.
  destruct (getMockTrendingTopics_length env0 (req_platform req0)
              (req_category req0) (default 10 (limit req0))) as [_ Hlen].
  destruct (limit req0) as [k |]; cbn [default] in *; unfold Datatypes.id in *.
  - destruct (Z.eqb_spec k 0) as [Hk | Hk]; cbv iota in Hlim; lia.
  - lia.
Qed.

(** C10, as stated, fails for limits below 1.  A negative limit cuts from
    the end of the table: the limit -1 yields 4 topics.  The limit 0 shares
    the cache key of the limit 10: after a request with the limit 10, a
    request with the limit 0 is answered with 5 topics. *)
Lemma C10_limit_counterexample :
  (exists response,
      returned (detectTrends (new_TrendDetector None) sampleEnv
                  (request threads None (Some (-1)))) = inl response
      /\ length (trends response) = 4%nat
      /\ ~ (Z.of_nat (length (trends response)) <= Z.min (-1) 5))
  /\ (exists response,
        returned
          (detectTrends
             (after (detectTrends (new_TrendDetector None) sampleEnv
                       (request threads None (Some 10))))
             laterEnv (request threads None (Some 0)))
        = inl response
        /\ length (trends response) = 5%nat
        /\ ~ (Z.of_nat (length (trends response)) <= Z.min 0 5)).
Proof.
  split; eexists; (split; [vm_compute; reflexivity |]);
    (split; [reflexivity | cbn; lia]).
Qed.

(** C10, amended: while no API key is configured, for every request whose
    limit is absent (then 10) or at least 1, detectTrends returns a response
    whose trends are entries of the mock table of the requested platform,
    carry that platform, carry the requested category when one is given,
    and number at most min(limit, 5).  The list can be empty: threads has no
    mock topic of the category news. *)
Theorem C10_no_key_trends_from_mock_table
    (d : Detector) (env : Env) (req : TrendDetectionRequest) :
  reachable d ->
  client d = None ->
  validLimit req ->
  (exists response,
      returned (detectTrends d env req) = inl response
      /\ (forall t, In t (trends response) ->
            fromMockTable (req_platform req) t
            /\ platform t = req_platform req
            /\ (forall c, req_category req = Some c -> category t = c))
      /\ Z.of_nat (length (trends response)) <= Z.min (default 10 (limit req)) 5)
  /\ (exists response,
        returned (detectTrends (new_TrendDetector None) env
                    (request threads (Some news) (Some 10))) = inl response
        /\ trends response = []).
Proof.
  intros Hreach Hclient Hvalid. split.
  - pose proof (reachable_cacheFromMock d Hreach Hclient) as Hinv.
    destruct (detectTrends_cases d env req) as [(data & ts & Hc & ->) | ->].
    + destruct (Hinv _ _ _ Hc) as (env0 & req0 & Hkey & Htrends).
      apply getCacheKey_inj in Hkey as (Hp & Hcat & Hlim).
      exists data. split; [reflexivity |]. rewrite Htrends. split.
      * intros t Ht. apply getMockTrendingTopics_sound in Ht as (Hin & Hpl & Hct).
        rewrite Hp. split; [now exists (nowGenerate env0) |].
        split; [exact Hpl |]. intros c Hc'. apply Hct. congruence.
      * apply Z.min_glb.
        -- now apply cached_length_within_limit.
        -- pose proof (proj1 (getMockTrendingTopics_length env0 (req_platform req0)
                                (req_category req0) (default 10 (limit req0)))).
           lia.
    + destruct (detectFresh_mock d env req) as (response & Hret & Htrends).
      { now rewrite generate_without_client. }
      exists response. split; [exact Hret |]. rewrite Htrends. split.
      * intros t Ht. apply getMockTrendingTopics_sound in Ht as (Hin & Hpl & Hct).
        split; [now exists (nowGenerate env) |]. now split.
      * destruct (validLimit_limitOr10 req Hvalid) as [_ Hpos].
        destruct (getMockTrendingTopics_length env (req_platform req)
                    (req_category req) (default 10 (limit req))) as [H5 Hl].
        apply Z.min_glb; [apply Hl; lia | lia].
  - eexists. split; reflexivity.
Qed.

(** The amended C10 on a detector that has answered a request before. *)
Lemma C10_no_key_trends_from_mock_table_witness :
  reachable (after (detectTrends (new_TrendDetector None) sampleEnv
                      (request threads None (Some 0))))
  /\ validLimit (request threads (Some business) (Some 10))
  /\ exists response,
       returned
         (detectTrends
            (after (detectTrends (new_TrendDetector None) sampleEnv
                      (request threads None (Some 0))))
            laterEnv (request threads (Some business) (Some 10)))
       = inl response
       /\ Z.of_nat (length (trends response)) <= Z.min 10 5.
Proof.
  assert (Hreach : reachable (after (detectTrends (new_TrendDetector None) sampleEnv
                                       (request threads None (Some 0)))))
    by (apply reach_detect, reach_new).
  assert (Hvalid : validLimit (request threads (Some business) (Some 10)))
    by (right; exists 10; split; [reflexivity | lia]).
  split; [exact Hreach |]. split; [exact Hvalid |].
  destruct (C10_no_key_trends_from_mock_table _ laterEnv
              (request threads (Some business) (Some 10)) Hreach eq_refl Hvalid)
    as [(response & Hret & _ & Hlen) _].
  exists response. split; [exact Hret | exact Hlen].
Defined.

End TrendDetectorSpec.

(** * Further properties of the services

    Properties of the code beyond those its specification states. *)

(** ** The platform score: ranks, recommendations, history, sample data *)
Module ScoreCalculatorExtra.

Import ScoreCalculator ScoreRoute ScoreCalculatorTerms ScoreCalculatorExtraTerms.
Import ScoreCalculatorSpec.
#[local] Open Scope Q_scope.

(** *** The overall score and the rank *)

Lemma weighted_between (lo hi e c t m : Z) :
  (lo <= e <= hi)%Z -> (lo <= c <= hi)%Z -> (lo <= t <= hi)%Z ->
  (lo <= m <= hi)%Z ->
  (lo <= calculateOverallScore e c t m <= hi)%Z.
Proof.
  intros [He1 He2] [Hc1 Hc2] [Ht1 Ht2] [Hm1 Hm2].
  apply num_le in He1, He2, Hc1, Hc2, Ht1, Ht2, Hm1, Hm2.
  unfold calculateOverallScore. cbv zeta.
  unfold num in *. apply Math_round_bounds; lra.
Qed.


Lemma rankValue_getScoreRank (s : Z) :
  rankValue (rank (getScoreRank s))
  = (if (s >=? 90) then 4 else if (s >=? 80) then 3 else if (s >=? 70) then 2
     else if (s >=? 50) then 1 else 0)%Z.
Proof.
  unfold getScoreRank.
  destruct (s >=? 90)%Z; [reflexivity |].
  destruct (s >=? 80)%Z; [reflexivity |].
  destruct (s >=? 70)%Z; [reflexivity |].
  destruct (s >=? 50)%Z; reflexivity.
Qed.

Lemma rankValue_mono (a b : Z) :
  (a <= b)%Z ->
  (rankValue (rank (getScoreRank a)) <= rankValue (rank (getScoreRank b)))%Z.
Proof.
  intros Hab. rewrite !rankValue_getScoreRank.
  destruct (Z.geb_spec a 90), (Z.geb_spec a 80), (Z.geb_spec a 70),
    (Z.geb_spec a 50), (Z.geb_spec b 90), (Z.geb_spec b 80),
    (Z.geb_spec b 70), (Z.geb_spec b 50); lia.
Qed.

(** X2: the rank of [getScoreRank] does not fall when the score rises, on
    the scale D < C < B < A < S; so the rank of the overall score lies
    between the rank of the lowest and the rank of the highest sub-score. *)
Theorem rank_monotone_and_between (e c t m : Z) :
  (forall a b : Z, (a <= b)%Z ->
     (rankValue (rank (getScoreRank a)) <= rankValue (rank (getScoreRank b)))%Z)
  /\ (rankValue (rank (getScoreRank (Z.min e (Z.min c (Z.min t m)))))
      <= rankValue (rank (getScoreRank (calculateOverallScore e c t m)))
      <= rankValue (rank (getScoreRank (Z.max e (Z.max c (Z.max t m))))))%Z.
Proof.
  split; [exact rankValue_mono |].
  pose proof (weighted_between (Z.min e (Z.min c (Z.min t m)))
                (Z.max e (Z.max c (Z.max t m))) e c t m) as H.
  destruct H as [Hlo Hhi]; [lia .. |].
  split; apply rankValue_mono; assumption.
Qed.

(** *** The recommendations *)

Lemma insertByPriority_perm x l : Permutation (insertByPriority x l) (x :: l).
Proof.
  induction l as [| y l IH]; cbn [insertByPriority]; [reflexivity |].
  destruct (_ <=? 0)%Z; [reflexivity |].
  rewrite IH. apply perm_swap.
Qed.

Lemma sortByPriority_perm l : Permutation (sortByPriority l) l.
Proof.
  induction l as [| x l IH]; cbn; [reflexivity |].
  fold (sortByPriority l). rewrite insertByPriority_perm. now constructor.
Qed.

Lemma In_sortByPriority r l : In r (sortByPriority l) <-> In r l.
Proof.
  split; apply Permutation_in;
    [apply sortByPriority_perm | apply Permutation_sym, sortByPriority_perm].
Qed.

Lemma In_pushIf (b : bool) (x r : ScoreRecommendation) :
  In r (pushIf b x) <-> b = true /\ r = x.
Proof.
  destruct b; cbn; split.
  - intros [H | []]. now split.
  - intros [_ ->]. now left.
  - intros [].
  - intros [H _]. discriminate H.
Qed.

Lemma In_guarded (b : bool) (r : ScoreRecommendation) (l : list ScoreRecommendation) :
  In r (if b then l else []) <-> b = true /\ In r l.
Proof.
  destruct b; cbn; split; try tauto.
  intros [H _]. discriminate H.
Qed.

(** [goldenHourPosts < postTimings.length * 0.5] on the counts. *)
Lemma below_half (g n : Z) :
  Qltb (num g) (num n * (5 # 10)) = true <-> (2 * g < n)%Z.
Proof.
  unfold Qltb, num. rewrite negb_true_iff.
  split.
  - intros H. destruct (Z.lt_ge_cases (2 * g) n) as [Hlt | Hge]; [exact Hlt |].
    assert (Hq : inject_Z n * (5 # 10) <= inject_Z g).
    { rewrite Zle_Qle, inject_Z_mult in Hge.
      change (inject_Z 2) with 2 in Hge. lra. }
    apply Qle_bool_iff in Hq. congruence.
  - intros Hlt. destruct (Qle_bool _ _) eqn:E; [| reflexivity].
    apply Qle_bool_iff in E.
    assert (Hq : inject_Z n <= inject_Z (2 * g)).
    { rewrite inject_Z_mult. change (inject_Z 2) with 2. lra. }
    rewrite <- Zle_Qle in Hq. lia.
Qed.

(** X3: [generateRecommendations] returns a recommendation exactly when the
    score of its category is below 70 and its own counter is short: fewer
    than 10 comments, fewer than 30 likes, fewer than 3 posts this week,
    less than half of the posts in a golden hour, fewer than 2 trending
    topics, fewer than 5 saves.  It returns nothing else. *)
Theorem recommendations_exactly_when_short (data : UserBehaviorData)
    (e c t m : Z) (r : ScoreRecommendation) :
  In r (generateRecommendations data e c t m)
  <-> (r = rec_eng_1 /\ (e < 70)%Z /\ (commentsGiven data < 10)%Z)
      \/ (r = rec_eng_2 /\ (e < 70)%Z /\ (likesGiven data < 30)%Z)
      \/ (r = rec_con_1 /\ (c < 70)%Z /\ (postsThisWeek data < 3)%Z)
      \/ (r = rec_con_2 /\ (c < 70)%Z
          /\ (2 * goldenHourPosts data < postTimingsLength data)%Z)
      \/ (r = rec_trend_1 /\ (t < 70)%Z /\ (trendingTopicsEngaged data < 2)%Z)
      \/ (r = rec_com_1 /\ (m < 70)%Z /\ (savedByOthers data < 5)%Z).
Proof.
  unfold generateRecommendations. cbv zeta.
  rewrite In_sortByPriority.
  rewrite !in_app_iff, !In_guarded, !in_app_iff, !In_pushIf.
  rewrite below_half, !Z.ltb_lt.
  tauto.
Qed.

(** The conditions of the six pushes. *)
Lemma recommendations_by_cases (data : UserBehaviorData) (e c t m : Z) :
  exists b1 b2 b3 b4 b5 b6 : bool,
    generateRecommendations data e c t m
    = sortByPriority (pushIf b1 rec_eng_1 ++ pushIf b2 rec_eng_2
                      ++ pushIf b3 rec_con_1 ++ pushIf b4 rec_con_2
                      ++ pushIf b5 rec_trend_1 ++ pushIf b6 rec_com_1)%list.
Proof.
  unfold generateRecommendations. cbv zeta.
  exists ((e <? 70)%Z && (commentsGiven data <? 10)%Z),
    ((e <? 70)%Z && (likesGiven data <? 30)%Z),
    ((c <? 70)%Z && (postsThisWeek data <? 3)%Z),
    ((c <? 70)%Z && Qltb (num (goldenHourPosts data))
                      (num (postTimingsLength data) * (5 # 10))),
    ((t <? 70)%Z && (trendingTopicsEngaged data <? 2)%Z),
    ((m <? 70)%Z && (savedByOthers data <? 5)%Z).
  f_equal.
  destruct (e <? 70)%Z, (c <? 70)%Z, (t <? 70)%Z, (m <? 70)%Z; cbn [andb];
    rewrite ?app_nil_r, <- ?app_assoc; reflexivity.
Qed.

(** X4: the recommendations come in one fixed order, those of high
    priority first: the ids of the result are [eng-1], [con-1], [trend-1],
    [eng-2], [con-2], [com-1] with the absent ones left out.  So no
    recommendation is given twice and at most six are given. *)
Theorem recommendations_in_fixed_order (data : UserBehaviorData) (e c t m : Z) :
  sublist (map rec_id (generateRecommendations data e c t m)) recommendationOrder
  /\ (length (generateRecommendations data e c t m) <= 6)%nat.
Proof.
  destruct (recommendations_by_cases data e c t m)
    as (b1 & b2 & b3 & b4 & b5 & b6 & ->).
  split.
  - destruct b1, b2, b3, b4, b5, b6; vm_compute;
      repeat first [apply sublist_nil | apply sublist_skip | apply sublist_cons].
  - destruct b1, b2, b3, b4, b5, b6; vm_compute; lia.
Qed.

(** *** The history *)

Lemma scores_in_range env platform data :
  nonNegative data ->
  Forall (fun s => (0 <= s <= 100)%Z) (scoreValues (scoreOf env platform data)).
Proof.
  intros Hnn. unfold scoreValues, scoreOf.
  cbn [result_score calculatePlatformScore engagementScore consistencyScore
       trendScore communityScore overallScore].
  rewrite engagement_score, consistency_score, trend_score, community_score.
  pose proof (rounded_in_range _ (engagementTotal_bounds data Hnn)) as He.
  pose proof (rounded_in_range _ (consistencyTotal_bounds data)) as Hc.
  pose proof (rounded_in_range _ (trendTotal_bounds data Hnn)) as Ht.
  pose proof (rounded_in_range _ (communityTotal_bounds data Hnn)) as Hm.
  repeat (constructor; [first [lia | apply weighted_between; lia] |]).
  constructor.
Qed.





(** *** The sample data and the data of a request *)

Lemma randomInt_range random (k : nat) (n lo : Z) :
  drawsInUnit random -> (0 < n)%Z ->
  (lo <= randomInt random k n lo <= lo + n - 1)%Z.
Proof.
  intros Hdraws Hn. destruct (Hdraws k) as [H0 H1].
  unfold randomInt, Math_floor.
  assert (Hq : 0 < inject_Z n) by (now apply num_pos).
  assert (Hlo : 0 <= random k * inject_Z n).
  { apply Qmult_le_0_compat; lra. }
  assert (Hhi : random k * inject_Z n < inject_Z n).
  { apply Qlt_le_trans with (1 * inject_Z n);
      [apply Qmult_lt_compat_r; assumption | lra]. }
  pose proof (Qfloor_resp_le _ _ Hlo) as Hf0. change (Qfloor 0) with 0%Z in Hf0.
  pose proof (Qfloor_le (random k * inject_Z n)) as Hf1.
  assert (Hf2 : inject_Z (Qfloor (random k * inject_Z n)) < inject_Z n) by lra.
  rewrite <- Zlt_Qlt in Hf2. lia.
Qed.

Lemma length_filter_all {A} (f : A -> bool) (l : list A) :
  (forall x, In x l -> f x = true) -> length (List.filter f l) = length l.
Proof.
  induction l as [| x l IH]; intros H; cbn; [reflexivity |].
  rewrite (H x) by now left. cbn. f_equal. apply IH.
  intros y Hy. apply H. now right.
Qed.

Lemma goldenHourPosts_all data :
  (forall h, In h (postTimings data) -> In h goldenHours) ->
  goldenHourPosts data = postTimingsLength data.
Proof.
  intros H. unfold goldenHourPosts, postTimingsLength. f_equal.
  apply length_filter_all. intros h Hh. apply H in Hh.
  unfold includesZ. apply existsb_exists. exists h.
  split; [exact Hh | apply Z.eqb_refl].
Qed.

(** X6: with draws in [0, 1), every field of the sample data lies in the
    range its formula gives (likes 20..99, comments 5..29, and so on), the
    post hours are the first two to five of 7, 8, 12, 19, 20, 21, all of
    them golden hours, and the data passes the validation of the score
    route. *)
Theorem sample_data_in_range (random : nat -> Q) :
  drawsInUnit random ->
  let d := generateSampleBehaviorData random in
  ((20 <= likesGiven d <= 99) /\ (5 <= commentsGiven d <= 29)
   /\ (2 <= sharesGiven d <= 16) /\ (5 <= repliesReceived d <= 24)
   /\ (2 <= postsThisWeek d <= 8) /\ (2 <= postsLastWeek d <= 8)
   /\ (3 <= averagePostsPerWeek d <= 7)
   /\ (1 <= trendingHashtagsUsed d <= 8) /\ (1 <= trendingTopicsEngaged d <= 5)
   /\ (0 <= earlyTrendEngagement d <= 2) /\ (2 <= followersGained d <= 16)
   /\ (1 <= mentionsReceived d <= 8) /\ (3 <= savedByOthers d <= 17)
   /\ (20 <= profileVisits d <= 99))%Z
  /\ (exists n : nat, (2 <= n <= 5)%nat
        /\ postTimings d = firstn n [7; 8; 12; 19; 20; 21]%Z)
  /\ goldenHourPosts d = postTimingsLength d
  /\ validateBehaviorData (allGiven d) = true.
Proof.
  intros Hdraws d.
  pose proof (fun k n lo => randomInt_range random k n lo Hdraws) as R.
  assert (Hranges :
    ((20 <= likesGiven d <= 99) /\ (5 <= commentsGiven d <= 29)
     /\ (2 <= sharesGiven d <= 16) /\ (5 <= repliesReceived d <= 24)
     /\ (2 <= postsThisWeek d <= 8) /\ (2 <= postsLastWeek d <= 8)
     /\ (3 <= averagePostsPerWeek d <= 7)
     /\ (1 <= trendingHashtagsUsed d <= 8) /\ (1 <= trendingTopicsEngaged d <= 5)
     /\ (0 <= earlyTrendEngagement d <= 2) /\ (2 <= followersGained d <= 16)
     /\ (1 <= mentionsReceived d <= 8) /\ (3 <= savedByOthers d <= 17)
     /\ (20 <= profileVisits d <= 99))%Z).
  { unfold d, generateSampleBehaviorData.
    cbn [likesGiven commentsGiven sharesGiven repliesReceived postsThisWeek
         postsLastWeek averagePostsPerWeek trendingHashtagsUsed
         trendingTopicsEngaged earlyTrendEngagement followersGained
         mentionsReceived savedByOthers profileVisits].
    repeat split;
      match goal with
      | |- context [randomInt random ?k ?n ?lo] =>
          pose proof (R k n lo ltac:(lia)); lia
      end. }
  assert (Htimings : exists n : nat, (2 <= n <= 5)%nat
            /\ postTimings d = firstn n [7; 8; 12; 19; 20; 21]%Z).
  { unfold d, generateSampleBehaviorData. cbn [postTimings].
    pose proof (R 7%nat 4%Z 2%Z ltac:(lia)) as H.
    exists (Z.to_nat (randomInt random 7 4 2)).
    split; [lia |].
    unfold slice0. destruct (Z.ltb_spec (randomInt random 7 4 2) 0); [lia |].
    reflexivity. }
  assert (Hgolden : forall h, In h (postTimings d) -> In h goldenHours).
  { destruct Htimings as (n & _ & ->). intros h Hh.
    apply TrendDetectorSpec.In_firstn in Hh. unfold goldenHours.
    cbn in Hh |- *. tauto. }
  split; [exact Hranges |].
  split; [exact Htimings |].
  split; [apply goldenHourPosts_all, Hgolden |].
  unfold validateBehaviorData, allGiven, numericFields.
  cbn [p_likesGiven p_commentsGiven p_sharesGiven p_repliesReceived
       p_postsThisWeek p_postsLastWeek p_averagePostsPerWeek p_postTimings
       p_trendingHashtagsUsed p_trendingTopicsEngaged p_earlyTrendEngagement
       p_followersGained p_mentionsReceived p_savedByOthers p_profileVisits
       forallb].
  apply andb_true_intro. split.
  - repeat (apply andb_true_intro; split); try reflexivity;
      apply negb_true_iff, Z.ltb_ge; lia.
  - apply forallb_forall. intros h Hh. apply Hgolden in Hh.
    unfold goldenHours in Hh. cbn in Hh.
    apply negb_true_iff, orb_false_intro; [apply Z.ltb_ge | apply Z.ltb_ge]; lia.
Qed.

(** X6 with every draw 1/2. *)
Lemma sample_data_in_range_witness :
  drawsInUnit (fun _ => 1 # 2)
  /\ goldenHourPosts (generateSampleBehaviorData (fun _ => 1 # 2))
     = postTimingsLength (generateSampleBehaviorData (fun _ => 1 # 2)).
Proof.
  assert (Hd : drawsInUnit (fun _ => 1 # 2)).
  { intros k. split; [discriminate | reflexivity]. }
  split; [exact Hd |].
  apply (sample_data_in_range (fun _ => 1 # 2) Hd).
Defined.

Lemma given_or_sample_nonneg (dflt : Z) (field : option Z) :
  (0 <= dflt)%Z ->
  match field with Some n => negb (n <? 0)%Z | None => true end = true ->
  (0 <= default dflt field)%Z.
Proof.
  intros Hd H. destruct field as [n |]; cbn; [| exact Hd].
  apply negb_true_iff, Z.ltb_ge in H. exact H.
Qed.

(** X7: a request body of integer fields that passes
    [validateBehaviorData] and is completed by [mergeBehaviorData] has no
    negative counter and only hours of the day, whatever fields it leaves
    out; so each of the five scores computed from it lies in [0, 100]. *)
Theorem validated_request_is_scorable (random : nat -> Q)
    (partial : PartialBehaviorData) env platform :
  validateBehaviorData partial = true -> drawsInUnit random ->
  let data := mergeBehaviorData random partial in
  nonNegative data /\ hoursOfDay data
  /\ Forall (fun s => (0 <= s <= 100)%Z) (scoreValues (scoreOf env platform data)).
Proof.
  intros Hvalid Hdraws data.
  pose proof (fun k n lo => randomInt_range random k n lo Hdraws) as R.
  unfold validateBehaviorData, numericFields in Hvalid.
  cbn [forallb] in Hvalid.
  repeat match type of Hvalid with
         | (_ && _)%bool = true =>
             let H := fresh "Hf" in
             apply andb_prop in Hvalid; destruct Hvalid as [H Hvalid]
         end.
  repeat match goal with
         | H : (_ && _)%bool = true |- _ =>
             let H1 := fresh "Hf" in
             apply andb_prop in H; destruct H as [H1 H]
         end.
  assert (Hnn : nonNegative data).
  { unfold nonNegative, data, mergeBehaviorData, generateSampleBehaviorData.
    cbn [likesGiven commentsGiven sharesGiven repliesReceived postsThisWeek
         postsLastWeek averagePostsPerWeek trendingHashtagsUsed
         trendingTopicsEngaged earlyTrendEngagement followersGained
         mentionsReceived savedByOthers profileVisits].
    repeat split;
      (apply given_or_sample_nonneg; [| assumption]);
      match goal with
      | |- context [randomInt random ?k ?n ?lo] =>
          pose proof (R k n lo ltac:(lia)); lia
      end. }
  split; [exact Hnn |].
  split; [| apply scores_in_range, Hnn].
  intros h Hh. unfold data, mergeBehaviorData in Hh. cbn [postTimings] in Hh.
  destruct (p_postTimings partial) as [timings |]; cbn [default] in Hh.
  - unfold Datatypes.id in Hh.
    match goal with
    | H : forallb _ timings = true |- _ =>
        rewrite forallb_forall in H; specialize (H h Hh);
        apply negb_true_iff, orb_false_elim in H; destruct H as [Ha Hb];
        apply Z.ltb_ge in Ha, Hb; lia
    end.
  - unfold generateSampleBehaviorData in Hh. cbn [postTimings] in Hh.
    apply TrendDetectorSpec.In_slice0 in Hh. cbn in Hh. lia.
Qed.

(** X7 at a request that gives the likes and two post hours. *)
Lemma validated_request_is_scorable_witness :
  validateBehaviorData likesAndHours = true /\ drawsInUnit (fun _ => 1 # 2)
  /\ nonNegative (mergeBehaviorData (fun _ => 1 # 2) likesAndHours).
Proof.
  assert (Hd : drawsInUnit (fun _ => 1 # 2)).
  { intros k. split; [discriminate | reflexivity]. }
  split; [reflexivity |].
  split; [exact Hd |].
  apply (validated_request_is_scorable (fun _ => 1 # 2) likesAndHours sampleEnv
           threads eq_refl Hd).
Defined.

(** *** How the scores move with the counters *)

Lemma capped_mono (cap a b k : Q) :
  a <= b -> 0 < k -> 0 <= cap ->
  Qmin cap (a / k * cap) <= Qmin cap (b / k * cap).
Proof. intros Hab Hk Hc. now apply Q.min_le_compat_l, scaled_mono. Qed.

Lemma capped_full (cap a k : Q) :
  k <= a -> 0 < k -> 0 <= cap -> cap <= Qmin cap (a / k * cap).
Proof.
  intros Hka Hk Hc. apply Q.min_glb; [lra |].
  apply Qle_trans with (k / k * cap); [| now apply scaled_mono].
  assert (E : k / k * cap == cap) by (field; lra). lra.
Qed.

Lemma ratio_antitone (c r1 r2 : Q) :
  0 <= c -> 0 < r1 -> r1 <= r2 -> c / r2 <= c / r1.
Proof.
  intros Hc Hr1 Hr2. apply Qle_shift_div_r; [lra |].
  assert (H0 : 0 <= c / r1) by (apply Qle_shift_div_l; lra).
  assert (H1 : c / r1 * r1 == c) by (field; lra).
  assert (H2 : c / r1 * r1 <= c / r1 * r2).
  { rewrite !(Qmult_comm (c / r1)). apply Qmult_le_compat_r; assumption. }
  lra.
Qed.

(** X8: once replies are received, more of them never raise the engagement
    score: for 1 <= r1 <= r2 and a number of comments that is not negative,
    the score with [repliesReceived = r2] is at most the score with
    [repliesReceived = r1]. *)
Theorem engagement_antitone_in_replies (data : UserBehaviorData) (r1 r2 : Z) :
  (1 <= r1 <= r2)%Z -> (0 <= commentsGiven data)%Z ->
  (score (calculateEngagementScore (withReplies data r2))
   <= score (calculateEngagementScore (withReplies data r1)))%Z.
Proof.
  intros [H1 H2] Hc. rewrite !engagement_score. apply Math_round_mono.
  unfold engagementTotal, replyRatio.
  cbn [likesGiven commentsGiven sharesGiven repliesReceived withReplies].
  destruct (Z.ltb_spec 0 r1) as [_ | ?]; [| lia].
  destruct (Z.ltb_spec 0 r2) as [_ | ?]; [| lia].
  assert (Hr : Qmin 1 (num (commentsGiven data) / num r2)
               <= Qmin 1 (num (commentsGiven data) / num r1)).
  { apply Q.min_le_compat_l, ratio_antitone.
    - now apply num_nonneg.
    - apply num_pos. lia.
    - now apply num_le. }
  lra.
Qed.

(** X8 at the sample snapshot, from 10 replies to 40. *)
Lemma engagement_antitone_in_replies_witness :
  (1 <= 10 <= 40)%Z /\ (0 <= commentsGiven sampleData)%Z
  /\ (score (calculateEngagementScore (withReplies sampleData 40))
      <= score (calculateEngagementScore (withReplies sampleData 10)))%Z.
Proof.
  split; [lia |]. split; [cbn; lia |].
  apply (engagement_antitone_in_replies sampleData 10 40); cbn; lia.
Defined.

(** X9: while no reply has been received the reply term is the constant
    12.5, so the engagement score of a snapshot without negative counters
    lies between 13 and 88: it cannot reach 100. *)
Theorem engagement_without_replies (data : UserBehaviorData) :
  nonNegative data -> repliesReceived data = 0%Z ->
  (13 <= score (calculateEngagementScore data) <= 88)%Z.
Proof.
  intros (Hl & Hc & Hs & _) Hr. rewrite engagement_score.
  apply num_nonneg in Hl, Hc, Hs.
  destruct (scaled_capped 25 (num (likesGiven data)) 50) as [? ?]; [lra .. |].
  destruct (scaled_capped 30 (num (commentsGiven data)) 20) as [? ?]; [lra .. |].
  destruct (scaled_capped 20 (num (sharesGiven data)) 10) as [? ?]; [lra .. |].
  assert (Hratio : replyRatio data = 5 # 10).
  { unfold replyRatio. rewrite Hr. reflexivity. }
  assert (Hlo : 25 # 2 <= engagementTotal data).
  { unfold engagementTotal. rewrite Hratio. lra. }
  assert (Hhi : engagementTotal data <= 175 # 2).
  { unfold engagementTotal. rewrite Hratio. lra. }
  split.
  - change 13%Z with (Math_round (25 # 2)). now apply Math_round_mono.
  - change 88%Z with (Math_round (175 # 2)). now apply Math_round_mono.
Qed.

(** X9 at the all-zero snapshot. *)
Lemma engagement_without_replies_witness :
  nonNegative zeroData /\ repliesReceived zeroData = 0%Z
  /\ (13 <= score (calculateEngagementScore zeroData) <= 88)%Z.
Proof.
  assert (Hnn : nonNegative zeroData) by (unfold nonNegative; cbn; lia).
  split; [exact Hnn |]. split; [reflexivity |].
  apply (engagement_without_replies zeroData Hnn eq_refl).
Defined.

Lemma overall_mono (e1 c1 t1 m1 e2 c2 t2 m2 : Z) :
  (e1 <= e2)%Z -> (c1 <= c2)%Z -> (t1 <= t2)%Z -> (m1 <= m2)%Z ->
  (calculateOverallScore e1 c1 t1 m1 <= calculateOverallScore e2 c2 t2 m2)%Z.
Proof.
  intros He Hc Ht Hm. apply num_le in He, Hc, Ht, Hm.
  unfold calculateOverallScore. cbv zeta. apply Math_round_mono. lra.
Qed.

(** X10: more activity never lowers a score: when a second snapshot has
    the same posting record and the same number of replies received, and
    no counter of likes, comments, shares, trends or community below the
    first, then each of its five scores is at least that of the first. *)
Theorem more_activity_never_lowers_score env platform (d1 d2 : UserBehaviorData) :
  atLeastAsActive d1 d2 ->
  Forall2 Z.le (scoreValues (scoreOf env platform d1))
    (scoreValues (scoreOf env platform d2)).
Proof.
  intros (Hl & Hc & Hs & Hr & Hp & Hpl & Hpt & Hh & Ht & He & Hf & Hm & Hsv & Hv).
  assert (Heng : (score (calculateEngagementScore d1)
                  <= score (calculateEngagementScore d2))%Z).
  { rewrite !engagement_score. apply Math_round_mono.
    unfold engagementTotal, replyRatio. rewrite <- Hr.
    apply num_le in Hl, Hc, Hs.
    pose proof (capped_mono 25 _ _ 50 Hl) as H1.
    pose proof (capped_mono 30 _ _ 20 Hc) as H2.
    pose proof (capped_mono 20 _ _ 10 Hs) as H3.
    assert (H4 : (if (0 <? repliesReceived d1)%Z
                  then Qmin 1 (num (commentsGiven d1) / num (repliesReceived d1))
                  else 5 # 10)
                 <= (if (0 <? repliesReceived d1)%Z
                     then Qmin 1 (num (commentsGiven d2) / num (repliesReceived d1))
                     else 5 # 10)).
    { destruct (Z.ltb_spec 0 (repliesReceived d1)); [| lra].
      apply Q.min_le_compat_l, ratio_mono; [exact Hc | now apply num_pos]. }
    lra. }
  assert (Hcon : score (calculateConsistencyScore d1)
                 = score (calculateConsistencyScore d2)).
  { rewrite !consistency_score.
    unfold consistencyTotal, frequencyVariance, timingRatio, goldenHourPosts,
      postTimingsLength.
    rewrite Hp, Hpl, Hpt. reflexivity. }
  assert (Htrend : (score (calculateTrendScore d1)
                    <= score (calculateTrendScore d2))%Z).
  { rewrite !trend_score. apply Math_round_mono. unfold trendTotal.
    apply num_le in Hh, Ht, He.
    pose proof (capped_mono 35 _ _ 5 Hh) as H1.
    pose proof (capped_mono 35 _ _ 3 Ht) as H2.
    pose proof (capped_mono 30 _ _ 2 He) as H3.
    lra. }
  assert (Hcom : (score (calculateCommunityScore d1)
                  <= score (calculateCommunityScore d2))%Z).
  { rewrite !community_score. apply Math_round_mono. unfold communityTotal.
    apply num_le in Hf, Hm, Hsv, Hv.
    pose proof (capped_mono 30 _ _ 10 Hf) as H1.
    pose proof (capped_mono 25 _ _ 5 Hm) as H2.
    pose proof (capped_mono 25 _ _ 10 Hsv) as H3.
    pose proof (capped_mono 20 _ _ 50 Hv) as H4.
    lra. }
  unfold scoreValues, scoreOf.
  cbn [result_score calculatePlatformScore engagementScore consistencyScore
       trendScore communityScore overallScore].
  repeat (constructor; [first [assumption | lia | apply overall_mono; lia] |]).
  constructor.
Qed.

(** X10 from the all-zero snapshot to the sample snapshot with its posting
    record and replies set to those of the all-zero one. *)
Lemma more_activity_never_lowers_score_witness :
  atLeastAsActive zeroData (mkData 50 15 8 0 0 0 5 [] 4 3 1 8 4 10 50)
  /\ Forall2 Z.le (scoreValues (scoreOf sampleEnv threads zeroData))
       (scoreValues (scoreOf sampleEnv threads
                       (mkData 50 15 8 0 0 0 5 [] 4 3 1 8 4 10 50))).
Proof.
  assert (H : atLeastAsActive zeroData (mkData 50 15 8 0 0 0 5 [] 4 3 1 8 4 10 50)).
  { unfold atLeastAsActive. cbn. repeat split; lia. }
  split; [exact H |].
  apply (more_activity_never_lowers_score sampleEnv threads _ _ H).
Defined.

(** X11: a snapshot in which every counter has reached the value that
    caps its term scores 100 five times over, has the rank S and gets no
    recommendation. *)
Theorem saturated_scores_full env platform (data : UserBehaviorData) :
  saturated data ->
  scoreValues (scoreOf env platform data) = [100; 100; 100; 100; 100]%Z
  /\ rank (getScoreRank (overallScore (scoreOf env platform data))) = "S"
  /\ recommendations (calculatePlatformScore env platform data) = [].
Proof.
  intros (Hl & Hc & Hs & [Hr1 Hr2] & Hp & Hpl & Hne & Hgold & Hh & Ht & He
          & Hf & Hm & Hsv & Hv).
  assert (Heng : score (calculateEngagementScore data) = 100%Z).
  { rewrite engagement_score.
    assert (H : 100 <= engagementTotal data /\ engagementTotal data <= 100).
    { unfold engagementTotal, replyRatio.
      destruct (Z.ltb_spec 0 (repliesReceived data)) as [_ | ?]; [| lia].
      assert (Hrr : 0 < num (repliesReceived data)) by (apply num_pos; lia).
      apply num_le in Hl, Hc, Hs, Hr2.
      pose proof (capped_full 25 _ 50 Hl) as H1.
      pose proof (capped_full 30 _ 20 Hc) as H2.
      pose proof (capped_full 20 _ 10 Hs) as H3.
      assert (H4 : 1 <= Qmin 1 (num (commentsGiven data) / num (repliesReceived data))).
      { apply Q.min_glb; [lra |]. apply Qle_shift_div_l; lra. }
      pose proof (Q.le_min_l 25 (num (likesGiven data) / 50 * 25)).
      pose proof (Q.le_min_l 30 (num (commentsGiven data) / 20 * 30)).
      pose proof (Q.le_min_l 20 (num (sharesGiven data) / 10 * 20)).
      pose proof (Q.le_min_l 1 (num (commentsGiven data) / num (repliesReceived data))).
      lra. }
    apply Z.le_antisymm; apply Math_round_bounds with (n := 100%Z) (m := 100%Z);
      apply H. }
  assert (Hcon : score (calculateConsistencyScore data) = 100%Z).
  { rewrite consistency_score.
    unfold consistencyTotal, frequencyVariance, timingRatio.
    rewrite (goldenHourPosts_all data Hgold), Hp, Hpl.
    assert (Hlen : (0 < postTimingsLength data)%Z).
    { unfold postTimingsLength. destruct (postTimings data); [congruence | cbn; lia]. }
    destruct (Z.ltb_spec 0 (postTimingsLength data)) as [_ | ?]; [| lia].
    apply num_pos in Hlen.
    assert (H1 : num (postTimingsLength data) / num (postTimingsLength data) == 1)
      by (field; lra).
    cbn [Z.ltb Z.compare].
    assert (H2 : Qmax 0 (40 - Qabs (num 5 - num 5) / num 5 * 40) == 40) by reflexivity.
    assert (H3 : Qmax 0 (30 - Qabs (num 5 - num 5) * 5) == 30) by reflexivity.
    apply Z.le_antisymm; apply Math_round_bounds with (n := 100%Z) (m := 100%Z);
      rewrite H1, H2, H3; discriminate. }
  assert (Htrend : score (calculateTrendScore data) = 100%Z).
  { rewrite trend_score.
    assert (H : 100 <= trendTotal data /\ trendTotal data <= 100).
    { unfold trendTotal. apply num_le in Hh, Ht, He.
      pose proof (capped_full 35 _ 5 Hh) as H1.
      pose proof (capped_full 35 _ 3 Ht) as H2.
      pose proof (capped_full 30 _ 2 He) as H3.
      pose proof (Q.le_min_l 35 (num (trendingHashtagsUsed data) / 5 * 35)).
      pose proof (Q.le_min_l 35 (num (trendingTopicsEngaged data) / 3 * 35)).
      pose proof (Q.le_min_l 30 (num (earlyTrendEngagement data) / 2 * 30)).
      lra. }
    apply Z.le_antisymm; apply Math_round_bounds with (n := 100%Z) (m := 100%Z);
      apply H. }
  assert (Hcom : score (calculateCommunityScore data) = 100%Z).
  { rewrite community_score.
    assert (H : 100 <= communityTotal data /\ communityTotal data <= 100).
    { unfold communityTotal. apply num_le in Hf, Hm, Hsv, Hv.
      pose proof (capped_full 30 _ 10 Hf) as H1.
      pose proof (capped_full 25 _ 5 Hm) as H2.
      pose proof (capped_full 25 _ 10 Hsv) as H3.
      pose proof (capped_full 20 _ 50 Hv) as H4.
      pose proof (Q.le_min_l 30 (num (followersGained data) / 10 * 30)).
      pose proof (Q.le_min_l 25 (num (mentionsReceived data) / 5 * 25)).
      pose proof (Q.le_min_l 25 (num (savedByOthers data) / 10 * 25)).
      pose proof (Q.le_min_l 20 (num (profileVisits data) / 50 * 20)).
      lra. }
    apply Z.le_antisymm; apply Math_round_bounds with (n := 100%Z) (m := 100%Z);
      apply H. }
  unfold scoreValues, scoreOf.
  cbn [result_score calculatePlatformScore engagementScore consistencyScore
       trendScore communityScore overallScore recommendations].
  rewrite Heng, Hcon, Htrend, Hcom.
  repeat split.
Qed.

(** X11 at a snapshot of a very active account. *)
Lemma saturated_scores_full_witness :
  saturated saturatedData
  /\ scoreValues (scoreOf sampleEnv threads saturatedData)
     = [100; 100; 100; 100; 100]%Z.
Proof.
  assert (H : saturated saturatedData).
  { unfold saturated, saturatedData. cbn.
    repeat split; try lia; discriminate. }
  split; [exact H |].
  apply (saturated_scores_full sampleEnv threads saturatedData H).
Defined.

End ScoreCalculatorExtra.

(** ** The strategy manager: schedule, days, ratios, classification *)
Module StrategyManagerExtra.

Import JSNumber JSDate JSDateFacts StrategyManager StrategyStore.
Import StrategyManagerTerms StrategyManagerExtraTerms StrategyManagerSpec.

(** *** The weekly schedule *)






(** *** The expression days *)

(** X13: [setExpressionDays] keeps the days 0..6 of its argument, in
    their order, and drops the others without an error; the dropped ones
    never matter, since the recommended mode of a date is 'expression'
    exactly when the weekday of the date is among the days given.  The
    ratios and the comment strategy are left as they were. *)
Theorem invalid_expression_days_are_dropped (m : Manager) (days : list Z)
    (date : Date) :
  Forall (fun d => 0 <= d <= 6)
    (weeklyExpressionDays (strategy (setExpressionDays m days)))
  /\ sublist (weeklyExpressionDays (strategy (setExpressionDays m days))) days
  /\ (forall d, 0 <= d <= 6 ->
        (In d (weeklyExpressionDays (strategy (setExpressionDays m days)))
         <-> In d days))
  /\ (getRecommendedMode (setExpressionDays m days) date = expression
      <-> In (getDay date) days)
  /\ impressionRatio (strategy (setExpressionDays m days))
     = impressionRatio (strategy m)
  /\ expressionRatio (strategy (setExpressionDays m days))
     = expressionRatio (strategy m)
  /\ commentStrategy (strategy (setExpressionDays m days))
     = commentStrategy (strategy m).
Proof.
  unfold setExpressionDays. cbv zeta.
  cbn [strategy weeklyExpressionDays impressionRatio expressionRatio commentStrategy].
  assert (Hin : forall d,
    In d (List.filter (fun d => (0 <=? d) && (d <=? 6)) days)
    <-> In d days /\ 0 <= d <= 6).
  { intros d. rewrite filter_In, andb_true_iff, Z.leb_le, Z.leb_le. tauto. }
  split; [apply List.Forall_forall; intros d Hd; now apply Hin in Hd |].
  split.
  { clear Hin. induction days as [| d days IH]; cbn; [constructor |].
    destruct ((0 <=? d) && (d <=? 6)); [apply sublist_skip | apply sublist_cons];
      exact IH. }
  split; [intros d Hd; rewrite Hin; tauto |].
  split; [| repeat split].
  unfold getRecommendedMode. cbv zeta. cbn [strategy weeklyExpressionDays].
  pose proof (getDay_range date) as Hr.
  destruct (includesZ _ (getDay date)) eqn:E.
  - apply includesZ_In, Hin in E. split; [intros _; tauto | reflexivity].
  - split; [discriminate |]. intros H.
    assert (Hc : In (getDay date)
                   (List.filter (fun d => (0 <=? d) && (d <=? 6)) days))
      by (apply Hin; split; [exact H | lia]).
    apply includesZ_In in Hc. congruence.
Qed.

(** *** The classification of a post *)

#[local] Arguments String.append !_ _ / : simpl nomatch.

Lemma filter_length_mono {A} (f g : A -> bool) (l : list A) :
  (forall x, f x = true -> g x = true) ->
  (length (List.filter f l) <= length (List.filter g l))%nat.
Proof.
  intros H. induction l as [| x l IH]; cbn; [lia |].
  destruct (f x) eqn:E.
  - rewrite (H x E). cbn. lia.
  - destruct (g x); cbn; lia.
Qed.

Lemma includes_grows (pre content post kw : string) :
  includes content kw = true -> includes (pre +:+ content +:+ post) kw = true.
Proof.
  rewrite !includes_spec. intros (a & b & ->).
  exists (pre +:+ a), (b +:+ post).
  now rewrite !TrendDetectorSpec.append_assoc.
Qed.

(** X14: [classifyPost] counts at most 10 expression keywords and at most
    13 impression keywords, so its confidence lies between 0 and 2.6 (it is
    not capped at 1); text added before or after a post never lowers either
    count; and the empty post is classified 'impression' with both counts
    and the confidence 0. *)
Theorem classifyPost_bounded_and_monotone (pre content post : string) :
  0 <= expressionScore (classifyPost content) <= 10
  /\ 0 <= impressionScore (classifyPost content) <= 13
  /\ (0 <= confidence (classifyPost content)
      /\ confidence (classifyPost content) <= 26 # 10)%Q
  /\ expressionScore (classifyPost content)
     <= expressionScore (classifyPost (pre +:+ content +:+ post))
  /\ impressionScore (classifyPost content)
     <= impressionScore (classifyPost (pre +:+ content +:+ post))
  /\ suggestedMode (classifyPost "") = impression
  /\ expressionScore (classifyPost "") = 0
  /\ impressionScore (classifyPost "") = 0
  /\ (confidence (classifyPost "") == 0)%Q.
Proof.
  unfold classifyPost. cbv zeta.
  cbn [expressionScore impressionScore confidence suggestedMode].
  pose proof (List.filter_length_le (fun kw => includes content kw)
                expressionKeywords) as He.
  pose proof (List.filter_length_le (fun kw => includes content kw)
                impressionKeywords) as Hi.
  change (length expressionKeywords) with 10%nat in He.
  change (length impressionKeywords) with 13%nat in Hi.
  set (e := length (List.filter (fun kw => includes content kw) expressionKeywords)) in *.
  set (i := length (List.filter (fun kw => includes content kw) impressionKeywords)) in *.
  split; [lia |]. split; [lia |]. split.
  { assert (He' : (0 <= inject_Z (Z.of_nat e) /\ inject_Z (Z.of_nat e) <= 10)%Q).
    { split; [apply (ScoreCalculatorSpec.num_nonneg (Z.of_nat e)); lia |].
      apply (ScoreCalculatorSpec.num_le (Z.of_nat e) 10); lia. }
    assert (Hi' : (0 <= inject_Z (Z.of_nat i) /\ inject_Z (Z.of_nat i) <= 13)%Q).
    { split; [apply (ScoreCalculatorSpec.num_nonneg (Z.of_nat i)); lia |].
      apply (ScoreCalculatorSpec.num_le (Z.of_nat i) 13); lia. }
    set (x := (inject_Z (Z.of_nat i) - inject_Z (Z.of_nat e))%Q).
    assert (Hx : (0 <= Qabs x /\ Qabs x <= 13)%Q).
    { split; [apply Qabs_nonneg |]. apply Qabs_Qle_condition. unfold x. lra. }
    split.
    - apply Qle_shift_div_l; lra.
    - apply Qle_shift_div_r; lra. }
  split.
  { subst e. apply inj_le, filter_length_mono. intros kw. apply includes_grows. }
  split.
  { subst i. apply inj_le, filter_length_mono. intros kw. apply includes_grows. }
  repeat split.
Qed.

(** *** The ratios *)

Lemma setImpressionRatio_normalized (m : Manager) (ratio : number) :
  ratio <> NaN -> normalized (setImpressionRatio m ratio).
Proof.
  intros H. destruct (setImpressionRatio_clamps m ratio H) as (c & Hi & He & _ & Hs).
  exists c, (1 + - c)%Q. repeat split; assumption.
Qed.



(** X16: a strategy exported and imported again is the same strategy,
    when its ratios are finite and sum to 1 and the text codec gives the
    exported strategy back; the manager that imports may be any. *)
Theorem export_import_round_trip (stringify : EngagementStrategy -> string)
    (parse : string -> option PartialStrategy) (m m' : Manager) :
  parse (stringify (strategy m)) = Some (allFields (strategy m)) ->
  normalized m ->
  importStrategy parse m' (exportStrategy stringify m) = inl m.
Proof.
  intros Hcodec (a & b & Ha & Hb & Hs).
  rewrite (import_export stringify parse m m' Hcodec).
  f_equal. exact (normalizeRatios_fixed m a b Ha Hb Hs).
Qed.

(** X16 for the default manager with the impression ratio set to 3/4. *)
Lemma export_import_round_trip_witness :
  normalized (setImpressionRatio defaultManager (Fin (3 # 4)))
  /\ importStrategy
       (fun _ => Some (allFields (strategy (setImpressionRatio defaultManager
                                              (Fin (3 # 4))))))
       defaultManager
       (exportStrategy (fun _ => "strategy.json")
          (setImpressionRatio defaultManager (Fin (3 # 4))))
     = inl (setImpressionRatio defaultManager (Fin (3 # 4))).
Proof.
  assert (H : normalized (setImpressionRatio defaultManager (Fin (3 # 4)))).
  { apply setImpressionRatio_normalized. discriminate. }
  split; [exact H |].
  apply (export_import_round_trip (fun _ => "strategy.json")
           (fun _ => Some (allFields (strategy (setImpressionRatio defaultManager
                                                  (Fin (3 # 4))))))
           (setImpressionRatio defaultManager (Fin (3 # 4))) defaultManager
           eq_refl H).
Defined.

(** Every comparison of rationals in the context as a proposition. *)
Ltac qbools :=
  repeat match goal with
         | H : Qle_bool _ _ = true |- _ => apply Qle_bool_iff in H
         | H : Qle_bool _ _ = false |- _ =>
             apply not_true_iff_false in H; rewrite Qle_bool_iff in H
         end.

(** X17: the health check after [setImpressionRatio(ratio)] reads the
    clamped ratio: 'critical' for a ratio below 0.7 (minus infinity
    included), 'acceptable' from 0.7 to below 0.8, 'healthy' from 0.8 to
    0.95, 'warning' above 0.95 (plus infinity included) - and 'acceptable'
    for NaN, which the setter stores as the ratio. *)
Theorem health_after_setting_ratio (m : Manager) (ratio : number) :
  status (isRatioHealthy (setImpressionRatio m ratio)) = statusAfterSetting ratio
  /\ (ratio = NaN ->
      impressionRatio (strategy (setImpressionRatio m ratio)) = NaN
      /\ expressionRatio (strategy (setImpressionRatio m ratio)) = NaN).
Proof.
  split; [| intros ->; split; reflexivity].
  destruct ratio as [r | | |]; try reflexivity.
  unfold isRatioHealthy, setImpressionRatio, statusAfterSetting, Qltb.
  cbv zeta. cbn [strategy impressionRatio min leb].
  destruct (Qle_bool 1 r) eqn:H1; cbn [max leb].
  - replace (Qle_bool (7 # 10) r) with true
      by (symmetry; apply Qle_bool_iff; qbools; lra).
    replace (Qle_bool (8 # 10) r) with true
      by (symmetry; apply Qle_bool_iff; qbools; lra).
    replace (Qle_bool r (95 # 100)) with false
      by (symmetry; apply not_true_iff_false; rewrite Qle_bool_iff; qbools; lra).
    reflexivity.
  - destruct (Qle_bool (5 # 10) r) eqn:H2.
    + cbn [geb gtb ltb leb negb].
      destruct (Qle_bool (8 # 10) r) eqn:H3, (Qle_bool r (95 # 100)) eqn:H4,
        (Qle_bool (7 # 10) r) eqn:H5; cbn [andb negb]; try reflexivity;
        exfalso; qbools; lra.
    + replace (Qle_bool (7 # 10) r) with false
        by (symmetry; apply not_true_iff_false; rewrite Qle_bool_iff; qbools; lra).
      reflexivity.
Qed.

(** *** The store *)

Lemma normalizeRatios_rest (m : Manager) :
  weeklyExpressionDays (strategy (normalizeRatios m))
  = weeklyExpressionDays (strategy m)
  /\ commentStrategy (strategy (normalizeRatios m)) = commentStrategy (strategy m).
Proof. unfold normalizeRatios. cbv zeta. destruct (strict_neq _ _); split; reflexivity. Qed.

Lemma managerOf_days (s : EngagementStrategy) :
  weeklyExpressionDays (strategy (managerOf s)) = weeklyExpressionDays s.
Proof.
  unfold managerOf, new_StrategyManager. rewrite spread_allFields.
  apply normalizeRatios_rest.
Qed.

Lemma managerOf_comment (s : EngagementStrategy) :
  commentStrategy (strategy (managerOf s)) = commentStrategy s.
Proof.
  unfold managerOf, new_StrategyManager. rewrite spread_allFields.
  apply normalizeRatios_rest.
Qed.

Lemma managerOf_ratio (s s' : EngagementStrategy) :
  impressionRatio s = impressionRatio s' ->
  expressionRatio s = expressionRatio s' ->
  impressionRatio (strategy (managerOf s))
  = impressionRatio (strategy (managerOf s')).
Proof.
  intros Hi He. unfold managerOf, new_StrategyManager. rewrite !spread_allFields.
  unfold normalizeRatios. cbv zeta. cbn [strategy]. rewrite Hi, He.
  destruct (strict_neq _ _); cbn [strategy impressionRatio]; congruence.
Qed.

Lemma schedule_by_days (m m' : Manager) (startDate : Date) :
  weeklyExpressionDays (strategy m) = weeklyExpressionDays (strategy m') ->
  generateWeeklySchedule m startDate = generateWeeklySchedule m' startDate.
Proof.
  intros H. unfold generateWeeklySchedule. apply map_ext. intros i.
  unfold scheduleItem. cbv zeta. now rewrite H.
Qed.

Lemma advice_by_comment (m m' : Manager) :
  commentStrategy (strategy m) = commentStrategy (strategy m') ->
  getCommentAdvice m = getCommentAdvice m'.
Proof. intros H. unfold getCommentAdvice. cbv zeta. now rewrite H. Qed.

Lemma health_by_ratio (m m' : Manager) :
  impressionRatio (strategy m) = impressionRatio (strategy m') ->
  isRatioHealthy m = isRatioHealthy m'.
Proof. intros H. unfold isRatioHealthy. cbv zeta. now rewrite H. Qed.

Lemma valid_days_filter (days : list Z) :
  Forall (fun d => 0 <= d <= 6) (List.filter (fun d => (0 <=? d) && (d <=? 6)) days).
Proof.
  apply List.Forall_forall. intros d Hd.
  apply filter_In in Hd as [_ Hd]. apply andb_true_iff in Hd as [H0 H6].
  apply Z.leb_le in H0, H6. lia.
Qed.

Lemma setExpressionDays_in_step scheduleNow updatedNow st days :
  derivedInStep st ->
  derivedInStep (store_setExpressionDays scheduleNow updatedNow st days).
Proof.
  intros (Hh & Ha & _ & _). unfold derivedInStep, store_setExpressionDays.
  cbv zeta. cbn [st_strategy ratioHealth commentAdvice weeklySchedule
                 weeklyExpressionDays].
  split; [rewrite Hh; apply health_by_ratio, managerOf_ratio; reflexivity |].
  split; [rewrite Ha; apply advice_by_comment;
          now rewrite !managerOf_comment |].
  split; [exists scheduleNow; reflexivity |].
  apply valid_days_filter.
Qed.

(** X18: in every state the store reaches by its actions, the values it
    keeps beside the strategy are in step with it: the health is the one a
    manager of the strategy reports, the advice is the advice of such a
    manager, the schedule is a schedule of such a manager, and the
    expression days lie in 0..6 - although each action recomputes only one
    or two of them. *)
Theorem store_keeps_derived_values_in_step (st : StrategyState) :
  reachableState st -> derivedInStep st.
Proof.
  induction 1 as [scheduleNow
                 | updatedNow st ratio _ IH
                 | scheduleNow updatedNow st days _ IH
                 | scheduleNow updatedNow st day _ IH
                 | updatedNow st updates _ IH
                 | scheduleNow updatedNow st _ IH
                 | scheduleNow st _ IH].
  - unfold derivedInStep, initialState. cbv zeta.
    cbn [st_strategy ratioHealth commentAdvice weeklySchedule].
    repeat split; [exists scheduleNow; reflexivity |].
    repeat constructor; lia.
  - destruct IH as (Hh & Ha & (start & Hs) & Hd).
    unfold derivedInStep, store_setImpressionRatio. cbv zeta.
    cbn [st_strategy ratioHealth commentAdvice weeklySchedule weeklyExpressionDays].
    split; [reflexivity |].
    split; [rewrite Ha; apply advice_by_comment; now rewrite !managerOf_comment |].
    split; [| exact Hd].
    exists start. rewrite Hs. apply schedule_by_days. now rewrite !managerOf_days.
  - now apply setExpressionDays_in_step.
  - unfold store_toggleExpressionDay. cbv zeta. now apply setExpressionDays_in_step.
  - destruct IH as (Hh & Ha & (start & Hs) & Hd).
    unfold derivedInStep, store_updateCommentStrategy. cbv zeta.
    cbn [st_strategy ratioHealth commentAdvice weeklySchedule weeklyExpressionDays].
    split; [rewrite Hh; apply health_by_ratio, managerOf_ratio; reflexivity |].
    split; [reflexivity |].
    split; [| exact Hd].
    exists start. rewrite Hs. apply schedule_by_days. now rewrite !managerOf_days.
  - unfold derivedInStep, store_resetToDefault. cbv zeta.
    cbn [st_strategy ratioHealth commentAdvice weeklySchedule].
    repeat split; [exists scheduleNow; reflexivity |].
    repeat constructor; lia.
  - destruct IH as (Hh & Ha & _ & Hd).
    unfold derivedInStep, store_refreshSchedule. cbv zeta.
    cbn [st_strategy ratioHealth commentAdvice weeklySchedule].
    repeat split; try assumption. exists scheduleNow. reflexivity.
Qed.

(** X18 after the ratio 3/4 was set in the initial state. *)
Lemma store_keeps_derived_values_in_step_witness :
  reachableState (store_setImpressionRatio (mkDate 0) sampleState (Fin (3 # 4)))
  /\ derivedInStep (store_setImpressionRatio (mkDate 0) sampleState (Fin (3 # 4))).
Proof.
  assert (H : reachableState
                (store_setImpressionRatio (mkDate 0) sampleState (Fin (3 # 4)))).
  { apply reach_setImpressionRatio. apply reach_initial. }
  split; [exact H |].
  apply (store_keeps_derived_values_in_step _ H).
Defined.

(** X19: [toggleExpressionDay(day)] flips whether a day 0..6 is an
    expression day and leaves the other days 0..6 as they were; a day
    outside 0..6 is never stored; and the schedule is rebuilt for the new
    days. *)
Theorem toggle_flips_one_day (scheduleNow updatedNow : Date)
    (st : StrategyState) (day d : Z) :
  let st' := store_toggleExpressionDay scheduleNow updatedNow st day in
  (0 <= day <= 6 ->
   (In day (weeklyExpressionDays (st_strategy st'))
    <-> ~ In day (weeklyExpressionDays (st_strategy st))))
  /\ (d <> day -> 0 <= d <= 6 ->
      (In d (weeklyExpressionDays (st_strategy st'))
       <-> In d (weeklyExpressionDays (st_strategy st))))
  /\ (~ 0 <= day <= 6 -> ~ In day (weeklyExpressionDays (st_strategy st')))
  /\ weeklySchedule st'
     = generateWeeklySchedule (managerOf (st_strategy st')) scheduleNow.
Proof.
  intros st'. unfold st', store_toggleExpressionDay, store_setExpressionDays.
  cbv zeta. cbn [st_strategy weeklyExpressionDays weeklySchedule].
  set (days := weeklyExpressionDays (st_strategy st)).
  assert (Hin : forall l x,
    In x (List.filter (fun d => (0 <=? d) && (d <=? 6)) l)
    <-> In x l /\ 0 <= x <= 6).
  { intros l x. rewrite filter_In, andb_true_iff, Z.leb_le, Z.leb_le. tauto. }
  assert (Hrem : forall x,
    In x (List.filter (fun d => negb (d =? day)) days) <-> In x days /\ x <> day).
  { intros x. rewrite filter_In, negb_true_iff, Z.eqb_neq. tauto. }
  destruct (includesZ days day) eqn:E.
  - apply includesZ_In in E.
    repeat split; rewrite Hin, Hrem; tauto.
  - assert (E' : ~ In day days).
    { intros Hc. apply includesZ_In in Hc. congruence. }
    repeat split; rewrite Hin, in_app_iff; cbn [In]; intuition lia.
Qed.

End StrategyManagerExtra.

(** ** The trend detector: cache, model replies, hashtags, timings, comments *)
Module TrendDetectorExtra.

Import TrendDetector TrendDetectorTerms TrendDetectorExtraTerms TrendDetectorSpec.

#[local] Arguments String.append !_ _ / : simpl nomatch.

(** *** The cache *)

(** X20: [detectTrends] never removes an entry of the cache and touches no
    entry but the one of the key of its request: every other key maps to
    what it mapped to before, a key that had an entry still has one, and the
    client and the key of the detector stay as they were. *)
Theorem detectTrends_never_evicts (d : Detector) (env : Env)
    (req : TrendDetectionRequest) (key : string) :
  client (after (detectTrends d env req)) = client d
  /\ apiKey (after (detectTrends d env req)) = apiKey d
  /\ (key <> getCacheKey req ->
      cachedTrends (after (detectTrends d env req)) !! key = cachedTrends d !! key)
  /\ (is_Some (cachedTrends d !! key) ->
      is_Some (cachedTrends (after (detectTrends d env req)) !! key)).
Proof.
  destruct (detectTrends_cases d env req) as [(data & ts & _ & ->) | ->].
  - cbn [after]. repeat split; auto.
  - destruct (detectFresh_after d env req) as [-> | (response & _ & ->)].
    + repeat split; auto.
    + cbn [client apiKey cachedTrends]. repeat split.
      * intros Hne. now rewrite lookup_insert_ne.
      * intros Hsome. destruct (decide (getCacheKey req = key)) as [<- | Hne].
        -- rewrite lookup_insert_eq. eauto.
        -- now rewrite lookup_insert_ne.
Qed.

(** X21: an entry that is exactly 30 minutes old, or older, is not served:
    the call generates again, and when it returns a response, that response
    was analysed at this call and replaces the old entry, stamped with the
    time of this call. *)
Theorem stale_entry_is_replaced (d : Detector) (env : Env)
    (req : TrendDetectionRequest) (response : TrendDetectionResponse) :
  staleEntry d env req ->
  returned (detectTrends d env req) = inl response ->
  analyzedAt response = nowAnalyzed env
  /\ cachedTrends (after (detectTrends d env req)) !! getCacheKey req
     = Some (response, nowStore env)
  /\ In (Generate (req_platform req) (req_category req) (default 10 (limit req)))
       (trace (detectTrends d env req)).
Proof.
  intros (data & ts & Hc & Hage) Hret.
  rewrite (detectTrends_expired d env req data ts Hc Hage) in *.
  split.
  - revert Hret. unfold detectFresh.
    destruct (generateTrendingTopics _ _ _ _ _) as [topics events].
    destruct (if notFalse (includeHashtags req) then _ else _) as [tags | e];
      cbn [returned]; [| discriminate].
    intros H. injection H as <-. reflexivity.
  - destruct (detectFresh_returns d env req response Hret) as (-> & _ & _).
    cbn [cachedTrends]. rewrite lookup_insert_eq.
    split; [reflexivity | apply detectFresh_generates].
Qed.

(** X21 for a detector without a key, 30 minutes to the millisecond after
    its entry was stored. *)
Lemma stale_entry_is_replaced_witness :
  staleEntry warmDetector expiryEnv (request threads None None)
  /\ exists response,
       returned (detectTrends warmDetector expiryEnv (request threads None None))
       = inl response
       /\ analyzedAt response = 1801005.
Proof.
  assert (Hs : staleEntry warmDetector expiryEnv (request threads None None)).
  { unfold staleEntry, warmDetector.
    eexists _, 1003. split; [vm_compute; reflexivity |]. vm_compute. discriminate. }
  split; [exact Hs |].
  destruct (detectFresh_mock warmDetector expiryEnv (request threads None None))
    as (response & Hret & _); [reflexivity |].
  assert (Hret' : returned (detectTrends warmDetector expiryEnv
                              (request threads None None)) = inl response).
  { destruct Hs as (data & ts & Hc & Hage).
    now rewrite (detectTrends_expired _ _ _ data ts Hc Hage). }
  exists response. split; [exact Hret' |].
  apply (stale_entry_is_replaced warmDetector expiryEnv
           (request threads None None) response Hs Hret').
Defined.

(** X22: setting a key leaves the cache as it is: after [setApiKey], or
    after [getTrendDetector] with a key on an existing instance, a request
    whose entry is fresh still gets the cached response and the model is not
    asked; only [clearCache] makes the next call generate again. *)
Theorem new_key_keeps_cached_trends (d : Detector) (env : Env)
    (req : TrendDetectionRequest) (data : TrendDetectionResponse)
    (c : ascii) (key : string) :
  freshEntry d env req data ->
  getTrendDetector (Some d) (Some (String c key)) = setApiKey d (String c key)
  /\ client (setApiKey d (String c key)) = Some (String c key)
  /\ detectTrends (setApiKey d (String c key)) env req
     = mkOutcome (inl data) (setApiKey d (String c key)) []
  /\ detectTrends (clearCache (setApiKey d (String c key))) env req
     = detectFresh (clearCache (setApiKey d (String c key))) env req
  /\ In (LlmRequest (req_platform req))
       (trace (detectTrends (clearCache (setApiKey d (String c key))) env req)).
Proof.
  intros (ts & Hc & Hage).
  split; [reflexivity |]. split; [reflexivity |].
  split; [now apply (detectTrends_hit _ env req data ts) |].
  assert (Hfresh : detectTrends (clearCache (setApiKey d (String c key))) env req
                   = detectFresh (clearCache (setApiKey d (String c key))) env req).
  { unfold detectTrends. cbn [clearCache cachedTrends].
    now rewrite lookup_empty. }
  split; [exact Hfresh |].
  rewrite Hfresh. unfold detectFresh.
  cbn [generateTrendingTopics clearCache setApiKey client].
  destruct (if notFalse (includeHashtags req) then _ else _) as [tags | e];
    cbn [trace]; right; now left.
Qed.

(** X22 for a detector without a key that has served the trends of Threads. *)
Lemma new_key_keeps_cached_trends_witness :
  exists data,
    freshEntry warmDetector laterEnv (request threads None None) data
    /\ detectTrends (setApiKey warmDetector "sk-sample") laterEnv
         (request threads None None)
       = mkOutcome (inl data) (setApiKey warmDetector "sk-sample") [].
Proof.
  destruct (cachedTrends warmDetector !! getCacheKey (request threads None None))
    as [[data ts] |] eqn:Hc; [| vm_compute in Hc; discriminate Hc].
  assert (Hts : ts = 1003).
  { vm_compute in Hc. now injection Hc as _ <-. }
  assert (Hf : freshEntry warmDetector laterEnv (request threads None None) data).
  { exists ts. split; [exact Hc |]. subst ts. reflexivity. }
  exists data. split; [exact Hf |].
  apply (new_key_keeps_cached_trends warmDetector laterEnv
           (request threads None None) data "s" "k-sample" Hf).
Defined.

(** X23: [detectTrends] can throw only on the model path: without a
    client, or with [includeHashtags] false, every call returns a response;
    and a call that throws has asked the model and leaves the detector, its
    cache included, as it was. *)
Theorem detectTrends_throws_only_after_model (d : Detector) (env : Env)
    (req : TrendDetectionRequest) :
  (client d = None \/ includeHashtags req = Some false ->
   exists response, returned (detectTrends d env req) = inl response)
  /\ (forall e, returned (detectTrends d env req) = inr e ->
        after (detectTrends d env req) = d
        /\ trace (detectTrends d env req)
           = [Generate (req_platform req) (req_category req) (default 10 (limit req));
              LlmRequest (req_platform req)]).
Proof.
  split.
  - intros Hcase.
    destruct (detectTrends_cases d env req) as [(data & ts & _ & ->) | ->];
      [now exists data |].
    destruct Hcase as [Hclient | Hflag].
    + destruct (detectFresh_mock d env req) as (response & Hret & _);
        [now rewrite generate_without_client | now exists response].
    + unfold detectFresh. rewrite Hflag. cbn [notFalse].
      destruct (generateTrendingTopics _ _ _ _ _) as [topics events].
      cbn [returned]. eauto.
  - intros e.
    destruct (detectTrends_cases d env req) as [(data & ts & _ & ->) | ->];
      [discriminate |].
    unfold detectFresh, generateTrendingTopics.
    destruct (client d) as [k |] eqn:Hclient.
    + destruct (if notFalse (includeHashtags req) then _ else _) as [tags | e'];
        cbn [returned after trace]; [discriminate | now split].
    + destruct (notFalse (includeHashtags req)); [| discriminate].
      destruct (analyzeHashtags_total env (req_platform req)
                  (getMockTrendingTopics env (req_platform req) (req_category req)
                     (default 10 (limit req)))) as (tags & ->).
      * intros t Ht. apply getMockTrendingTopics_sound in Ht as (Ht & _).
        now apply mockTopics_hashtags in Ht.
      * discriminate.
Qed.

(** *** The topics of the model *)

Lemma append_cancel_l (s a b : string) : s +:+ a = s +:+ b -> a = b.
Proof.
  induction s as [| c s IH]; cbn; intros H; [exact H |].
  injection H as H. now apply IH.
Qed.

(** The id the callback of [map] gives the element at [index]. *)
Lemma topic_id_inj (env : Env) (p : Platform) (i j : nat) :
  "trend-" +:+ Platform_str p +:+ "-" +:+ show_Z (nowGenerate env)
    +:+ "-" +:+ show_Z (Z.of_nat i)
  = "trend-" +:+ Platform_str p +:+ "-" +:+ show_Z (nowGenerate env)
    +:+ "-" +:+ show_Z (Z.of_nat j) ->
  i = j.
Proof.
  intros H. do 5 apply append_cancel_l in H.
  apply show_Z_inj in H. lia.
Qed.

Lemma mapTopics_null (env : Env) (p : Platform) (k : nat) (elems : list JsonElem) :
  In JNull elems -> mapTopics env p k elems = None.
Proof.
  revert k. induction elems as [| e elems IH]; intros k Hin; [destruct Hin |].
  cbn [mapTopics]. destruct Hin as [-> | Hin]; [reflexivity |].
  rewrite (IH (S k) Hin). now destruct (topicOfElem env p k e).
Qed.

Lemma mapTopics_topics (env : Env) (p : Platform) (k : nat) (elems : list JsonElem) :
  ~ In JNull elems ->
  exists topics,
    mapTopics env p k elems = Some topics
    /\ length topics = length elems
    /\ (forall i raw, elems !! i = Some (JTopic raw) ->
          topics !! i = topicOfElem env p (k + i) (JTopic raw))
    /\ map id topics
       = map (fun i => "trend-" +:+ Platform_str p +:+ "-"
                       +:+ show_Z (nowGenerate env) +:+ "-" +:+ show_Z (Z.of_nat i))
           (seq k (length elems)).
Proof.
  revert k. induction elems as [| e elems IH]; intros k Hnull.
  - exists []. repeat split. intros i raw H. discriminate H.
  - destruct e as [| raw0]; [exfalso; apply Hnull; now left |].
    destruct (IH (S k)) as (topics & Hmap & Hlen & Hlook & Hids).
    { intros Hin. apply Hnull. now right. }
    cbn [mapTopics]. rewrite Hmap. cbn [topicOfElem].
    eexists. split; [reflexivity |].
    split; [cbn; now rewrite Hlen |]. split.
    + intros [| i] raw H.
      * cbn in H. injection H as <-. now rewrite Nat.add_0_r.
      * change (elems !! i = Some (JTopic raw)) in H.
        rewrite Nat.add_succ_r. exact (Hlook i raw H).
    + cbn [map length seq id]. now rewrite Hids.
Qed.

(** X24: the topics a model replies with are passed through as they are:
    as many as the reply holds and of the categories it names, whatever
    limit and category the request gave; each is given the platform of the
    request, the time of the call and an id of its own.  A reply that holds
    a null element is dropped as a whole for the mock topics. *)
Theorem model_topics_pass_through (d : Detector) (env : Env) (p : Platform)
    (c : option TrendCategory) (l : Z) (elems : list JsonElem) (key : string) :
  client d = Some key ->
  modelReplies env elems ->
  (In JNull elems ->
   fst (generateTrendingTopics d env p c l) = getMockTrendingTopics env p c l)
  /\ (~ In JNull elems ->
      length (fst (generateTrendingTopics d env p c l)) = length elems
      /\ (forall i raw, elems !! i = Some (JTopic raw) ->
            exists t,
              fst (generateTrendingTopics d env p c l) !! i = Some t
              /\ name t = raw_name raw /\ category t = raw_category raw
              /\ relatedHashtags t = raw_relatedHashtags raw
              /\ platform t = p /\ detectedAt t = nowGenerate env)
      /\ NoDup (map id (fst (generateTrendingTopics d env p c l)))).
Proof.
  intros Hclient (block & rest & matched & Hllm & Hmatch & Hparse).
  assert (Hask : askModel env p c l = mapTopics env p 0 elems).
  { unfold askModel. now rewrite Hllm, Hmatch, Hparse. }
  unfold generateTrendingTopics. rewrite Hclient. cbn [fst]. rewrite Hask.
  split.
  - intros Hnull. now rewrite (mapTopics_null env p 0 elems Hnull).
  - intros Hnull.
    destruct (mapTopics_topics env p 0 elems Hnull)
      as (topics & -> & Hlen & Hlook & Hids).
    cbn [default]. unfold Datatypes.id.
    split; [exact Hlen |]. split.
    + intros i raw Hi. rewrite (Hlook i raw Hi). cbn [topicOfElem].
      eexists. split; [reflexivity |]. now repeat split.
    + rewrite Hids. apply NoDup_fmap_2; [| apply NoDup_seq].
      intros i j. apply topic_id_inj.
Qed.

(** X24 for a reply of two topics to a request for one topic of the
    category news. *)
Lemma model_topics_pass_through_witness :
  client keyedDetector = Some "sk-sample"
  /\ modelReplies modelEnv rawTopics
  /\ length (fst (generateTrendingTopics keyedDetector modelEnv threads
                    (Some news) 1)) = 2%nat.
Proof.
  assert (Hm : modelReplies modelEnv rawTopics).
  { exists (TextBlock "[]"), [], "[]". repeat split. }
  assert (Hn : ~ In JNull rawTopics).
  { intros [H | [H | []]]; discriminate H. }
  split; [reflexivity |]. split; [exact Hm |].
  apply (model_topics_pass_through keyedDetector modelEnv threads (Some news) 1
           rawTopics "sk-sample" eq_refl Hm).
  exact Hn.
Defined.

(** *** The hashtags *)

Lemma existsb_eqb_In (tag : string) (s : list string) :
  existsb (String.eqb tag) s = true <-> In tag s.
Proof.
  rewrite existsb_exists. split.
  - intros (x & Hx & Heq). apply String.eqb_eq in Heq. now subst.
  - intros H. exists tag. split; [exact H | apply String.eqb_refl].
Qed.

Lemma In_setAdd (s : list string) (tag x : string) :
  In x (setAdd s tag) <-> In x s \/ x = tag.
Proof.
  unfold setAdd. destruct (existsb (String.eqb tag) s) eqn:E.
  - apply existsb_eqb_In in E. split; [tauto |]. intros [H | ->]; assumption.
  - rewrite in_app_iff. cbn. intuition.
Qed.

Lemma NoDup_setAdd (s : list string) (tag : string) :
  NoDup s -> NoDup (setAdd s tag).
Proof.
  intros H. unfold setAdd. destruct (existsb (String.eqb tag) s) eqn:E; [exact H |].
  apply NoDup_app. split; [exact H |]. split; [| apply NoDup_singleton].
  intros x Hx Hin. apply list_elem_of_singleton in Hin as ->.
  apply list_elem_of_In, existsb_eqb_In in Hx. congruence.
Qed.

Lemma fold_setAdd (tags acc : list string) :
  (NoDup acc -> NoDup (fold_left setAdd tags acc))
  /\ (forall x, In x (fold_left setAdd tags acc) <-> In x acc \/ In x tags).
Proof.
  revert acc. induction tags as [| tag tags IH]; intros acc; cbn [fold_left].
  - split; [tauto |]. intros x. cbn. tauto.
  - destruct (IH (setAdd acc tag)) as [Hnd Hin]. split.
    + intros H. now apply Hnd, NoDup_setAdd.
    + intros x. rewrite Hin, In_setAdd. cbn. intuition.
Qed.

Lemma collectHashtags_spec (trends : list TrendingTopic) (acc all : list string) :
  collectHashtags trends acc = Some all ->
  (NoDup acc -> NoDup all)
  /\ (forall x, In x all ->
        In x acc
        \/ exists t tags,
             In t trends /\ relatedHashtags t = Some tags /\ In x tags).
Proof.
  revert acc. induction trends as [| t trends IH]; intros acc; cbn [collectHashtags].
  - intros H. injection H as <-. split; [tauto |]. intros x Hx. now left.
  - destruct (relatedHashtags t) as [tags |] eqn:Ht; [| discriminate].
    intros H. destruct (IH _ H) as [Hnd Hin].
    destruct (fold_setAdd tags acc) as [Hnd' Hin']. split.
    + intros Hacc. now apply Hnd, Hnd'.
    + intros x Hx. destruct (Hin x Hx) as [Hacc | (t' & tags' & Ht' & Htags & Hx')].
      * apply Hin' in Hacc as [Hacc | Htag]; [now left |].
        right. exists t, tags. repeat split; [now left | exact Ht | exact Htag].
      * right. exists t', tags'. repeat split; [now right | exact Htags | exact Hx'].
Qed.

Lemma imap_hashtag (env : Env) (p : Platform) (trends : list TrendingTopic)
    (l : list string) :
  map hashtag (imap (analyzeOne env p trends) l) = l.
Proof.
  change (map hashtag) with (fmap (M:=list) hashtag).
  rewrite fmap_imap. rewrite <- (imap_ext (fun _ x => x)); [| reflexivity].
  induction l as [| x l IH]; [reflexivity |].
  cbn. f_equal. exact IH.
Qed.

(** A draw scaled to [n] values from [lo] on. *)
Lemma scaled_draw_range (r : Q) (n lo : Z) :
  (0 <= r /\ r < 1)%Q -> 0 < n ->
  lo <= Math_floor (r * inject_Z n) + lo <= lo + n - 1.
Proof.
  intros Hr Hn.
  apply (ScoreCalculatorExtra.randomInt_range (fun _ => r) 0 n lo);
    [intros _; exact Hr | exact Hn].
Qed.

(** X25: the hashtag analysis has at most 20 entries and no hashtag twice;
    each entry names a hashtag of at least one of the trends and lists that
    trend among its related topics, so that list is never empty; with draws
    in [0, 1) the popularity lies in 1..100, the relevance in 60..99 and the
    reach in 1000..50999. *)
Theorem hashtag_analysis_is_distinct_and_bounded (env : Env) (p : Platform)
    (trends : list TrendingTopic) (analysis : list HashtagAnalysis) :
  analyzeHashtags env p trends = inl analysis ->
  (length analysis <= 20)%nat
  /\ NoDup (map hashtag analysis)
  /\ (forall h, In h analysis ->
        h_platform h = p
        /\ relatedTopics h <> []
        /\ exists t tags,
             In t trends /\ relatedHashtags t = Some tags /\ In (hashtag h) tags
             /\ In (name t) (relatedTopics h))
  /\ (ScoreCalculatorExtraTerms.drawsInUnit (random env) ->
      forall h, In h analysis ->
        1 <= popularity h <= 100 /\ 60 <= relevanceScore h <= 99
        /\ 1000 <= estimatedReach h <= 50999).
Proof.
  unfold analyzeHashtags.
  destruct (collectHashtags trends []) as [all |] eqn:Hall; [| discriminate].
  cbv zeta. intros H. injection H as <-.
  destruct (collectHashtags_spec trends [] all Hall) as [Hnd Hin].
  assert (Hslice : slice0 all 20 = firstn 20 all) by reflexivity.
  split; [rewrite length_imap, Hslice, length_firstn; lia |].
  split.
  { rewrite imap_hashtag, Hslice.
    apply (sublist_NoDup (firstn 20 all) all); [| apply sublist_take].
    apply Hnd, NoDup_nil_2. }
  assert (Hfrom : forall h, In h (imap (analyzeOne env p trends) (slice0 all 20)) ->
            exists i tag, h = analyzeOne env p trends i tag /\ In tag all).
  { intros h Hh. apply list_elem_of_In, elem_of_lookup_imap in Hh
      as (i & tag & -> & Hi).
    exists i, tag. split; [reflexivity |].
    apply (In_slice0 all 20), list_elem_of_In. eapply list_elem_of_lookup_2, Hi. }
  split.
  - intros h Hh. destruct (Hfrom h Hh) as (i & tag & -> & Htag).
    destruct (Hin tag Htag) as [[] | (t & tags & Ht & Htags & Hx)].
    assert (Hrel : In (name t) (relatedTopics (analyzeOne env p trends i tag))).
    { unfold analyzeOne. cbv zeta. cbn [relatedTopics].
      apply in_map, filter_In. split; [exact Ht |].
      unfold hasHashtag. rewrite Htags. now apply existsb_eqb_In. }
    split; [reflexivity |]. split.
    + intros Hnil. rewrite Hnil in Hrel. destruct Hrel.
    + exists t, tags. now repeat split.
  - intros Hdraws h Hh. destruct (Hfrom h Hh) as (i & tag & -> & _).
    unfold analyzeOne. cbv zeta. cbn [popularity relevanceScore estimatedReach].
    pose proof (scaled_draw_range _ 100 1 (Hdraws (3 * i)%nat) ltac:(lia)) as H1.
    pose proof (scaled_draw_range _ 40 60 (Hdraws (3 * i + 1)%nat) ltac:(lia)) as H2.
    pose proof (scaled_draw_range _ 50000 1000 (Hdraws (3 * i + 2)%nat) ltac:(lia))
      as H3.
    change (inject_Z 100) with 100%Q in H1.
    change (inject_Z 40) with 40%Q in H2.
    change (inject_Z 50000) with 50000%Q in H3.
    lia.
Qed.

(** X25 for the mock topics of Threads: nine distinct hashtags. *)
Lemma hashtag_analysis_is_distinct_and_bounded_witness :
  exists analysis,
    analyzeHashtags sampleEnv threads (mockTopics 0 threads) = inl analysis
    /\ NoDup (map hashtag analysis).
Proof.
  destruct (analyzeHashtags sampleEnv threads (mockTopics 0 threads))
    as [analysis | e] eqn:H; [| vm_compute in H; discriminate H].
  exists analysis. split; [reflexivity |].
  apply (hashtag_analysis_is_distinct_and_bounded sampleEnv threads
           (mockTopics 0 threads) analysis H).
Defined.

(** *** The timings *)

Lemma In_timings (p : Platform) (t : OptimalPostTiming) :
  In t (calculateOptimalTimings p) ->
  exists day hour : nat, (day < 7)%nat /\ (hour < 24)%nat /\ t = timingAt p day hour.
Proof.
  unfold calculateOptimalTimings. intros H.
  apply in_flat_map in H as (day & Hday & H).
  apply in_map_iff in H as (hour & <- & Hhour).
  apply in_seq in Hday, Hhour. exists day, hour. repeat split; lia.
Qed.

(** The facts of one slot that depend on the table of the platform. *)
Lemma timingAt_facts (p : Platform) (day hour : nat) :
  (hour < 24)%nat ->
  nth_error (HOURLY_ENGAGEMENT_MULTIPLIERS p) hour
  = Some (engagementMultiplier (timingAt p day hour))
  /\ 10 <= audienceActive (timingAt p day hour) <= 100
  /\ (recommendation (timingAt p day hour) = highly_recommended ->
      competition (timingAt p day hour) = high)
  /\ (recommendation (timingAt p day hour) = avoid ->
      competition (timingAt p day hour) = low).
Proof.
  intros Hh.
  do 24 (destruct hour as [| hour];
         [destruct p; vm_compute; repeat split; congruence |]).
  lia.
Qed.

(** X26: the timings cover the week hour by hour: 168 entries, day 0 to day
    6 and within a day hour 0 to hour 23.  An entry depends on its hour
    only, not on its day; its multiplier is the entry of the table of the
    platform for the hour, the default 0.5 is never used, and the active
    audience lies in 10..100.  A slot that is highly recommended always has
    high competition, and a slot to avoid has low competition. *)
Theorem optimal_timings_cover_the_week (p : Platform) :
  map (fun t => (dayOfWeek t, hour t)) (calculateOptimalTimings p) = weekGrid
  /\ length (calculateOptimalTimings p) = 168%nat
  /\ (forall t, In t (calculateOptimalTimings p) ->
        t_platform t = p
        /\ nth_error (HOURLY_ENGAGEMENT_MULTIPLIERS p) (Z.to_nat (hour t))
           = Some (engagementMultiplier t)
        /\ 10 <= audienceActive t <= 100
        /\ (recommendation t = highly_recommended -> competition t = high)
        /\ (recommendation t = avoid -> competition t = low))
  /\ (forall t1 t2,
        In t1 (calculateOptimalTimings p) -> In t2 (calculateOptimalTimings p) ->
        hour t1 = hour t2 ->
        engagementMultiplier t1 = engagementMultiplier t2
        /\ audienceActive t1 = audienceActive t2
        /\ competition t1 = competition t2
        /\ recommendation t1 = recommendation t2).
Proof.
  split.
  { unfold calculateOptimalTimings, weekGrid.
    induction (seq 0 7) as [| day days IH]; [reflexivity |].
    cbn [flat_map]. rewrite map_app, IH, map_map. reflexivity. }
  split.
  { unfold calculateOptimalTimings.
    rewrite (flat_map_constant_length (c := 24%nat)); [reflexivity |].
    intros day _. now rewrite length_map, length_seq. }
  split.
  - intros t Ht. apply In_timings in Ht as (day & h & _ & Hh & ->).
    split; [reflexivity |].
    cbn [hour timingAt]. rewrite Nat2Z.id.
    exact (timingAt_facts p day h Hh).
  - intros t1 t2 H1 H2.
    apply In_timings in H1 as (d1 & h1 & _ & _ & ->).
    apply In_timings in H2 as (d2 & h2 & _ & _ & ->).
    cbn [hour timingAt]. intros Hh. apply Nat2Z.inj in Hh as ->.
    repeat split.
Qed.

(** *** The comment recommendations *)

Lemma insertByScore_perm (x : TrendingTopic) (l : list TrendingTopic) :
  insertByScore x l ≡ₚ x :: l.
Proof.
  induction l as [| y l IH]; cbn [insertByScore]; [reflexivity |].
  destruct (Qle_bool _ 0); [reflexivity |].
  rewrite IH. apply perm_swap.
Qed.

Lemma sortByScore_perm (l : list TrendingTopic) : sortByScore l ≡ₚ l.
Proof.
  induction l as [| x l IH]; cbn; [reflexivity |].
  fold (sortByScore l). rewrite insertByScore_perm. now constructor.
Qed.

Lemma scoredAtLeast_trans (a b c : TrendingTopic) :
  scoredAtLeast a b -> scoredAtLeast b c -> scoredAtLeast a c.
Proof. unfold scoredAtLeast. intros H1 H2. now apply Qle_trans with (recommendationScore b). Qed.

Lemma insertByScore_sorted (x : TrendingTopic) (l : list TrendingTopic) :
  StronglySorted scoredAtLeast l -> StronglySorted scoredAtLeast (insertByScore x l).
Proof.
  induction 1 as [| y l Hs IH Hall]; cbn [insertByScore].
  - repeat constructor.
  - destruct (Qle_bool (recommendationScore y - recommendationScore x) 0) eqn:E.
    + apply Qle_bool_iff in E.
      assert (Hxy : scoredAtLeast x y) by (unfold scoredAtLeast; lra).
      constructor; [now constructor |].
      constructor; [exact Hxy |].
      eapply List.Forall_impl; [| exact Hall].
      intros z Hz. now apply scoredAtLeast_trans with y.
    + apply not_true_iff_false in E. rewrite Qle_bool_iff in E.
      assert (Hyx : scoredAtLeast y x) by (unfold scoredAtLeast; lra).
      constructor; [exact IH |].
      apply List.Forall_forall. intros z Hz.
      apply (Permutation_in _ (insertByScore_perm x l)) in Hz as [<- | Hz];
        [exact Hyx |].
      rewrite List.Forall_forall in Hall. now apply Hall.
Qed.

Lemma sortByScore_sorted (l : list TrendingTopic) :
  StronglySorted scoredAtLeast (sortByScore l).
Proof.
  induction l as [| x l IH]; cbn; [constructor |].
  now apply insertByScore_sorted.
Qed.

Lemma sorted_split (l1 l2 : list TrendingTopic) :
  StronglySorted scoredAtLeast (l1 ++ l2) ->
  StronglySorted scoredAtLeast l1
  /\ forall a b, In a l1 -> In b l2 -> scoredAtLeast a b.
Proof.
  induction l1 as [| x l1 IH]; cbn; intros H.
  - split; [constructor | intros a b []].
  - apply StronglySorted_inv in H as [Hs Hall].
    destruct (IH Hs) as [Hs1 Hcross]. rewrite List.Forall_forall in Hall.
    split.
    + constructor; [exact Hs1 |]. apply List.Forall_forall.
      intros z Hz. apply Hall, in_or_app. now left.
    + intros a b [<- | Ha] Hb; [apply Hall, in_or_app; now right |].
      now apply Hcross.
Qed.

Lemma sorted_lookup (l : list TrendingTopic) (i j : nat) (a b : TrendingTopic) :
  StronglySorted scoredAtLeast l -> (i < j)%nat ->
  l !! i = Some a -> l !! j = Some b -> scoredAtLeast a b.
Proof.
  intros Hs. revert i j. induction Hs as [| x l Hs IH Hall]; intros i j Hij Hi Hj.
  - discriminate Hi.
  - destruct j as [| j]; [lia |]. change (l !! j = Some b) in Hj.
    destruct i as [| i].
    + cbn in Hi. injection Hi as <-. rewrite List.Forall_forall in Hall.
      apply Hall, list_elem_of_In. eapply list_elem_of_lookup_2, Hj.
    + change (l !! i = Some a) in Hi. apply (IH i j); [lia | assumption ..].
Qed.

(** X27: for a limit that is not negative, the comment recommendations are
    those of the [limit] best-scored trends, or of all when there are
    fewer: they come in the order of falling score, each is built from a
    trend of the input, and no trend left out scores higher than one kept.
    A trend is a risk of level 'high' exactly when its sentiment is
    negative, and it carries three templates. *)
Theorem comment_recommendations_are_the_best_scored (trends : list TrendingTopic)
    (limit : Z) :
  0 <= limit ->
  let recs := getCommentStrategyRecommendations trends limit in
  length recs = Nat.min (Z.to_nat limit) (length trends)
  /\ (forall i j a b, (i < j)%nat -> recs !! i = Some a -> recs !! j = Some b ->
        (participationScore b <= participationScore a)%Q)
  /\ (exists kept rest,
        recs = map recommendationOf kept
        /\ kept ++ rest ≡ₚ trends
        /\ forall a b, In a kept -> In b rest -> scoredAtLeast a b)
  /\ (forall t, riskLevel (recommendationOf t) = high <-> sentiment t = s_negative)
  /\ (forall r, In r recs -> length (commentTemplates r) = 3%nat).
Proof.
  intros Hlimit recs.
  assert (Hrecs : recs = map recommendationOf
                           (firstn (Z.to_nat limit) (sortByScore trends))).
  { unfold recs, getCommentStrategyRecommendations, slice0.
    destruct (Z.ltb_spec limit 0); [lia | reflexivity]. }
  pose proof (sortByScore_sorted trends) as Hsorted.
  rewrite <- (firstn_skipn (Z.to_nat limit) (sortByScore trends)) in Hsorted.
  apply sorted_split in Hsorted as [Hkept Hcross].
  split.
  { rewrite Hrecs, length_map, length_firstn.
    now rewrite (Permutation_length (sortByScore_perm trends)). }
  split.
  { intros i j a b Hij Hi Hj. rewrite Hrecs in Hi, Hj.
    change (map recommendationOf) with (fmap (M:=list) recommendationOf) in Hi, Hj.
    rewrite list_lookup_fmap in Hi, Hj.
    destruct (firstn (Z.to_nat limit) (sortByScore trends) !! i) as [ta |] eqn:Ha;
      [| discriminate Hi].
    destruct (firstn (Z.to_nat limit) (sortByScore trends) !! j) as [tb |] eqn:Hb;
      [| discriminate Hj].
    cbn in Hi, Hj. injection Hi as <-. injection Hj as <-.
    pose proof (sorted_lookup _ i j ta tb Hkept Hij Ha Hb) as H.
    unfold scoredAtLeast in H. unfold recommendationOf.
    destruct (sentiment ta), (sentiment tb); exact H. }
  split.
  { exists (firstn (Z.to_nat limit) (sortByScore trends)),
      (skipn (Z.to_nat limit) (sortByScore trends)).
    split; [exact Hrecs |]. split; [| exact Hcross].
    rewrite firstn_skipn. apply sortByScore_perm. }
  split.
  { intros t. unfold recommendationOf.
    destruct (sentiment t); cbn [riskLevel]; split; congruence. }
  intros r Hr. rewrite Hrecs in Hr. apply in_map_iff in Hr as (t & <- & _).
  unfold recommendationOf.
  destruct (sentiment t); reflexivity.
Qed.

(** X27 for the mock topics of Twitter and the limit 2: the scores 88 and
    82 are kept. *)
Lemma comment_recommendations_are_the_best_scored_witness :
  0 <= 2
  /\ length (getCommentStrategyRecommendations (mockTopics 0 twitter) 2) = 2%nat.
Proof.
  split; [lia |].
  apply (comment_recommendations_are_the_best_scored (mockTopics 0 twitter) 2).
  lia.
Defined.

(** *** The flags of a request *)

(** X28: the two flags of a request shape the response only when it is
    generated: with [includeHashtags] false it has no hashtags, with
    [includeBuzzPatterns] false no buzz patterns, and otherwise the patterns
    of the platform.  The flags are no part of the cache key, so for the
    next 30 minutes a request with the same key gets this response whatever
    its own flags are. *)
Theorem flags_shape_generated_response_only (d : Detector) (env1 env2 : Env)
    (req1 req2 : TrendDetectionRequest) (response : TrendDetectionResponse) :
  cachedTrends d !! getCacheKey req1 = None ->
  returned (detectTrends d env1 req1) = inl response ->
  (includeHashtags req1 = Some false -> recommendedHashtags response = [])
  /\ (includeBuzzPatterns req1 = Some false -> buzzPatterns response = [])
  /\ (includeBuzzPatterns req1 <> Some false ->
      buzzPatterns response = getBuzzPatterns (req_platform req1)
      /\ buzzPatterns response <> [])
  /\ optimalTimings response = calculateOptimalTimings (req_platform req1)
  /\ (getCacheKey req2 = getCacheKey req1 ->
      nowCheck env2 - nowStore env1 < cacheExpiryMs ->
      detectTrends (after (detectTrends d env1 req1)) env2 req2
      = mkOutcome (inl response) (after (detectTrends d env1 req1)) []).
Proof.
  intros Hnone Hret.
  assert (Hfresh : detectTrends d env1 req1 = detectFresh d env1 req1).
  { unfold detectTrends. now rewrite Hnone. }
  rewrite Hfresh in *.
  destruct (detectFresh_returns d env1 req1 response Hret) as (Hafter & _ & _).
  assert (Hserved :
    getCacheKey req2 = getCacheKey req1 ->
    nowCheck env2 - nowStore env1 < cacheExpiryMs ->
    detectTrends (after (detectFresh d env1 req1)) env2 req2
    = mkOutcome (inl response) (after (detectFresh d env1 req1)) []).
  { intros Hkey Hage. rewrite Hafter.
    apply (detectTrends_hit _ env2 req2 _ (nowStore env1)); [| exact Hage].
    rewrite Hkey. cbn [cachedTrends]. apply lookup_insert_eq. }
  assert (Hpatterns : forall p, getBuzzPatterns p <> []).
  { intros p. destruct p; discriminate. }
  revert Hret Hserved. generalize (after (detectFresh d env1 req1)).
  unfold detectFresh.
  destruct (generateTrendingTopics _ _ _ _ _) as [topics events].
  destruct (if notFalse (includeHashtags req1) then _ else _) as [tags | e] eqn:Htags;
    cbn [returned]; [| discriminate].
  intros d' H Hserved. injection H as <-.
  cbn [recommendedHashtags buzzPatterns optimalTimings].
  split.
  { intros Hh. rewrite Hh in Htags. cbn [notFalse] in Htags. congruence. }
  split; [intros ->; reflexivity |].
  split; [| split; [reflexivity | exact Hserved]].
  intros Hb. destruct (includeBuzzPatterns req1) as [[|] |]; try congruence;
    cbn [notFalse]; (split; [reflexivity | apply Hpatterns]).
Qed.

(** X28 for a request without hashtags followed, a quarter of an hour
    later, by one that asks for them. *)
Lemma flags_shape_generated_response_only_witness :
  exists response,
    returned (detectTrends (new_TrendDetector None) sampleEnv
                (mkRequest threads None None (Some false) None)) = inl response
    /\ recommendedHashtags response = []
    /\ returned
         (detectTrends
            (after (detectTrends (new_TrendDetector None) sampleEnv
                      (mkRequest threads None None (Some false) None)))
            laterEnv (mkRequest threads None None (Some true) None))
       = inl response.
Proof.
  destruct (returned (detectTrends (new_TrendDetector None) sampleEnv
                        (mkRequest threads None None (Some false) None)))
    as [response | e] eqn:Hret; [| vm_compute in Hret; discriminate Hret].
  exists response. split; [reflexivity |].
  destruct (flags_shape_generated_response_only (new_TrendDetector None)
              sampleEnv laterEnv
              (mkRequest threads None None (Some false) None)
              (mkRequest threads None None (Some true) None)
              response eq_refl Hret) as (Hh & _ & _ & _ & Hserved).
  split; [now apply Hh |].
  rewrite Hserved; [reflexivity | reflexivity | reflexivity].
Defined.

End TrendDetectorExtra.
